(** * Open Responses Server: request orchestration, verified

    A shallow embedding of the request-handling paths of
    [open_responses_server.api_controller] and
    [open_responses_server.chat_completions_service], together with the
    tool-injection flag of [open_responses_server.common.config].

    Python values are JSON trees, dictionaries are association lists in
    insertion order, exceptions are an explicit result type, generators are
    the finite list of what they yield plus the exception that ends them, and
    the dictionary objects that the chat-completions handlers copy live in an
    object store. *)

From Stdlib Require Import String Ascii List ZArith Bool Lia.
From stdpp Require Import base option list gmap strings pretty.
Import ListNotations.

Set Warnings "-register-all".

(* ===================================================================== *)
(** * Python values *)
(* ===================================================================== *)

(** What [request.json()] and [response.json()] produce.  Numbers are the
    integers; a JSON number with a fractional part is outside the model. *)
Inductive json : Type :=
| JNull
| JBool (b : bool)
| JNum (n : Z)
| JStr (s : string)
| JArr (items : list json)
| JObj (fields : list (string * json)).

(** A Python [dict] with string keys, in insertion order.  A dict holds a key
    once; the operations below keep it so. *)
Definition pydict : Type := list (string * json).

Definition json_eq_dec : ∀ a b : json, {a = b} + {a ≠ b}.
Proof.
  fix IH 1.
  intros [|b1|n1|s1|l1|kv1] [|b2|n2|s2|l2|kv2];
    try (right; discriminate); try (left; reflexivity).
  - destruct (Bool.bool_dec b1 b2) as [->|N]; [left; reflexivity|right; congruence].
  - destruct (Z.eq_dec n1 n2) as [->|N]; [left; reflexivity|right; congruence].
  - destruct (String.string_dec s1 s2) as [->|N]; [left; reflexivity|right; congruence].
  - destruct (List.list_eq_dec IH l1 l2) as [->|N]; [left; reflexivity|right; congruence].
  - assert (D : ∀ p q : string * json, {p = q} + {p ≠ q}).
    { intros [k1 v1] [k2 v2].
      destruct (String.string_dec k1 k2) as [->|N]; [|right; congruence].
      destruct (IH v1 v2) as [->|N]; [left; reflexivity|right; congruence]. }
    destruct (List.list_eq_dec D kv1 kv2) as [->|N]; [left; reflexivity|right; congruence].
Defined.

#[global] Instance json_eq_decision : EqDecision json := json_eq_dec.

(** ** Dictionary operations *)

(** [d.get(k)] / [k in d] / [d[k]] *)
Fixpoint dict_get (k : string) (d : pydict) : option json :=
  match d with
  | [] => None
  | (k', v) :: d' => if decide (k = k') then Some v else dict_get k d'
  end.

Definition dict_has (k : string) (d : pydict) : bool :=
  match dict_get k d with Some _ => true | None => false end.

(** [d.get(k, default)] *)
Definition dict_get_default (k : string) (default : json) (d : pydict) : json :=
  match dict_get k d with Some v => v | None => default end.

(** [d[k] = v]: an existing key keeps its position, a new key goes last. *)
Fixpoint dict_set (k : string) (v : json) (d : pydict) : pydict :=
  match d with
  | [] => [(k, v)]
  | (k', v') :: d' =>
      if decide (k = k') then (k', v) :: d' else (k', v') :: dict_set k v d'
  end.

(** [d.pop(k, None)] with the popped value discarded. *)
Fixpoint dict_pop (k : string) (d : pydict) : pydict :=
  match d with
  | [] => []
  | (k', v') :: d' =>
      if decide (k = k') then dict_pop k d' else (k', v') :: dict_pop k d'
  end.

(** [d.values()] *)
Definition dict_values (d : pydict) : list json := map snd d.

(** ** Exceptions *)

Inductive exn : Type :=
| TypeError
| AttributeError
| KeyError (key : string)
| IndexError
| ValidationError (message : string)
| UpstreamShapeError (message : string)
| HTTPStatusError (status_code : Z)
| TransportError (description : string)
| JSONDecodeError
| HTTPException (status_code : Z) (detail : string).

Inductive result (A : Type) : Type :=
| Ok (a : A)
| Raise (e : exn).
Arguments Ok {A} a.
Arguments Raise {A} e.

#[global] Instance result_ret : MRet result := λ A a, Ok a.
#[global] Instance result_bind : MBind result :=
  λ A B f m, match m with Ok a => f a | Raise e => Raise e end.

(** [try: body except Exception as e: handler(e)] *)
Definition try_except {A} (body : result A) (handler : exn → A) : A :=
  match body with Ok a => a | Raise e => handler e end.

(** ** Truthiness, equality, hashing, membership *)

(** [bool(v)] *)
Definition truthy (v : json) : bool :=
  match v with
  | JNull => false
  | JBool b => b
  | JNum n => negb (n =? 0)%Z
  | JStr s => negb (bool_decide (s = EmptyString))
  | JArr l => match l with [] => false | _ => true end
  | JObj d => match d with [] => false | _ => true end
  end.

(** [a == b]: structural, except that [True == 1] and [False == 0]. *)
Definition py_eq (a b : json) : bool :=
  match a, b with
  | JBool x, JNum n | JNum n, JBool x => (n =? (if x then 1 else 0))%Z
  | _, _ => bool_decide (a = b)
  end.

(** Lists and dicts are unhashable: putting one in a [set], or testing it
    for membership in one, raises [TypeError]. *)
Definition hashable (v : json) : bool :=
  match v with JArr _ | JObj _ => false | _ => true end.

Definition py_hash (v : json) : result json :=
  if hashable v then Ok v else Raise TypeError.

(** [v in names] for a [set] of already hashed values. *)
Definition set_mem (v : json) (names : list json) : bool :=
  existsb (py_eq v) names.

Definition py_in_set (v : json) (names : list json) : result bool :=
  v' ← py_hash v; mret (set_mem v' names).

(** [k in v] for a string [k]: key of a dict, substring of a string, element
    of a list; [TypeError] on anything else. *)
Definition py_contains (k : string) (v : json) : result bool :=
  match v with
  | JObj d => Ok (dict_has k d)
  | JStr s => Ok (match String.index 0 k s with Some _ => true | None => false end)
  | JArr l => Ok (existsb (py_eq (JStr k)) l)
  | _ => Raise TypeError
  end.

(** [v[k]] for a string [k]. *)
Definition py_getitem (k : string) (v : json) : result json :=
  match v with
  | JObj d => match dict_get k d with Some x => Ok x | None => Raise (KeyError k) end
  | _ => Raise TypeError
  end.

(** [v.get(k, default)]: only a dict has the method. *)
Definition py_get (k : string) (default : json) (v : json) : result json :=
  match v with
  | JObj d => Ok (dict_get_default k default d)
  | _ => Raise AttributeError
  end.

Fixpoint string_chars (s : string) : list json :=
  match s with
  | EmptyString => []
  | String c s' => JStr (String c EmptyString) :: string_chars s'
  end.

(** [for x in v]: the elements of a list, the characters of a string, the
    keys of a dict. *)
Definition py_iter (v : json) : result (list json) :=
  match v with
  | JArr l => Ok l
  | JStr s => Ok (string_chars s)
  | JObj d => Ok (map (λ kv, JStr (fst kv)) d)
  | _ => Raise TypeError
  end.

(** [len(v)] *)
Definition py_len (v : json) : result nat :=
  match v with
  | JArr l => Ok (length l)
  | JStr s => Ok (String.length s)
  | JObj d => Ok (length d)
  | _ => Raise TypeError
  end.

(** [v + l] for a list [l]: only list + list is defined. *)
Definition py_list_add (v : json) (l : list json) : result (list json) :=
  match v with
  | JArr l0 => Ok (l0 ++ l)
  | _ => Raise TypeError
  end.

(** [for x in l: ...] with a body that may raise. *)
Fixpoint for_each {A S} (body : S → A → result S) (l : list A) (s : S) : result S :=
  match l with
  | [] => Ok s
  | x :: l' => s' ← body s x; for_each body l' s'
  end.

(** A list comprehension whose element expression may raise. *)
Fixpoint comprehension {A B} (f : A → result (option B)) (l : list A) : result (list B) :=
  match l with
  | [] => Ok []
  | x :: l' =>
      y ← f x;
      ys ← comprehension f l';
      mret (match y with Some b => b :: ys | None => ys end)
  end.

(* ===================================================================== *)
(** * Collaborators *)
(* ===================================================================== *)

(** ** Generators and client-facing frames *)

(** An (async) generator that is run to its end: what it yields, in order,
    and the exception that ends it, if one does. *)
Record gen (A : Type) : Type := Gen { yielded : list A; raised : option exn }.
Arguments Gen {A} yielded raised.
Arguments yielded {A} g.
Arguments raised {A} g.

(** One item of a client-facing stream: bytes forwarded as they came from the
    backend, or a server-sent event [data: <json.dumps(payload)>] followed by
    a blank line. *)
Inductive frame : Type :=
| Raw (bytes : string)
| Data (payload : json).

(** ** The backend, as [LLMClient] exposes it *)

(** The response of [client.post]: its status and what [response.json()]
    gives, which raises on a body that is not JSON. *)
Record http_response : Type := HttpResponse {
  status_code : Z;
  json_body : result json
}.

(** [response.raise_for_status()] (httpx): every status outside 2xx raises. *)
Definition raise_for_status (r : http_response) : result unit :=
  if ((200 <=? status_code r) && (status_code r <=? 299))%Z
  then Ok tt else Raise (HTTPStatusError (status_code r)).

(** The response of [client.stream]: its status, the chunks that
    [aiter_bytes()] yields with the transport failure that may end them, and
    what [aread()] gives. *)
Record stream_response : Type := StreamResponse {
  stream_status : Z;
  aiter_bytes : gen string;
  aread : result string
}.

(** Everything a request handler reads from outside itself. *)
Record world : Type := World {
  (** [str(e)]: the text Python and the HTTP libraries give an exception *)
  py_str : exn → string;
  (** [config.ENABLE_MCP_TOOLS] *)
  ENABLE_MCP_TOOLS : bool;
  (** [mcp_manager.mcp_functions_cache]: one dict per registry tool *)
  mcp_functions_cache : list pydict;
  (** [client.post("/v1/chat/completions", json=body, timeout=120.0)] *)
  llm_post : pydict → result http_response;
  (** [client.stream("POST", "/v1/chat/completions", json=body, timeout=120.0)] *)
  llm_stream : pydict → result stream_response;
  (** [responses_service.convert_responses_to_chat_completions] *)
  convert_responses_to_chat_completions : pydict → result pydict;
  (** [responses_service.convert_chat_completions_to_responses] *)
  convert_chat_completions_to_responses : json → pydict → result json;
  (** [responses_service.process_chat_completions_stream] *)
  process_chat_completions_stream : stream_response → pydict → gen frame
}.

(** Modelled from the spec: [mcp_manager.get_mcp_tools] is absent from the
    sources; the spec's read path returns the latest published snapshot
    without any I/O, which is the cache. *)
Definition get_mcp_tools (w : world) : list pydict := mcp_functions_cache w.

(** What the client gets back from an endpoint. *)
Inductive http_reply : Type :=
| JSONResponse (status : Z) (content : json)
| StreamingResponse (frames : list frame)
| ErrorResponse (status : Z) (detail : string)
| UnhandledException (e : exn).

(** The HTTP status of a reply: a streaming response is sent with 200, an
    [HTTPException] with its own status, and an exception that no handler
    catches becomes the framework's 500. *)
Definition reply_status (r : http_reply) : Z :=
  match r with
  | JSONResponse s _ => s
  | StreamingResponse _ => 200
  | ErrorResponse s _ => s
  | UnhandledException _ => 500
  end.

(* ===================================================================== *)
(** * common/config.py *)
(* ===================================================================== *)

Module Config.

Definition lower_char (c : ascii) : ascii :=
  let n := nat_of_ascii c in
  if (65 <=? n)%nat && (n <=? 90)%nat then ascii_of_nat (n + 32) else c.

(** [s.lower()] on ASCII text *)
Fixpoint lower (s : string) : string :=
  match s with
  | EmptyString => EmptyString
  | String c s' => String (lower_char c) (lower s')
  end.

(** [os.environ.get("ENABLE_MCP_TOOLS", "false").lower() in ("1", "true", "yes")] *)
Definition ENABLE_MCP_TOOLS (environ : option string) : bool :=
  bool_decide (lower (default "false" environ) ∈ ["1"; "true"; "yes"]).

End Config.

(* ===================================================================== *)
(** * The object store *)
(* ===================================================================== *)

(** The handlers of the chat-completions service receive a dict object and
    work on [request_data.copy()].  Dict objects live at locations; a shallow
    copy is a new location holding the same bindings.  The values bound are
    JSON trees: no handler mutates a nested object, so sharing below the top
    level is not observable. *)
Definition loc : Type := nat.

Inductive backend_call : Type :=
| CallPost (body : pydict)
| CallStream (body : pydict).

Record state : Type := State {
  heap : gmap loc pydict;
  calls : list backend_call   (* requests sent to the backend, oldest first *)
}.

Definition M (A : Type) : Type := state → option (A * state).

#[global] Instance M_ret : MRet M := λ A a σ, Some (a, σ).
#[global] Instance M_bind : MBind M :=
  λ A B f m σ, match m σ with Some (a, σ') => f a σ' | None => None end.

(** [d.copy()] *)
Definition obj_copy (l : loc) : M loc := λ σ,
  match heap σ !! l with
  | Some d =>
      let l' := fresh (dom (heap σ)) in
      Some (l', State (<[l' := d]> (heap σ)) (calls σ))
  | None => None
  end.

Definition obj_read (l : loc) : M pydict := λ σ,
  match heap σ !! l with Some d => Some (d, σ) | None => None end.

(** An in-place update of the dict at [l]. *)
Definition obj_update (l : loc) (f : pydict → pydict) : M unit := λ σ,
  match heap σ !! l with
  | Some d => Some (tt, State (<[l := f d]> (heap σ)) (calls σ))
  | None => None
  end.

Definition record_call (c : backend_call) : M unit := λ σ,
  Some (tt, State (heap σ) (calls σ ++ [c])).

(** [request_data = await request.json()]: a new dict object. *)
Definition obj_alloc (d : pydict) : M loc := λ σ,
  let l := fresh (dom (heap σ)) in
  Some (l, State (<[l := d]> (heap σ)) (calls σ)).

(** The store before a request is handled. *)
Definition initial_state : state := State ∅ [].

(** [bool(l)] for a Python list *)
Definition nonempty {A} (l : list A) : bool :=
  match l with [] => false | _ :: _ => true end.

(** [v.append(x)]: only a list has the method. *)
Definition py_append (v : json) (x : json) : result json :=
  match v with
  | JArr l => Ok (JArr (l ++ [x]))
  | _ => Raise AttributeError
  end.

(** [v[0]] *)
Definition py_first (v : json) : result json :=
  match v with
  | JArr (x :: _) => Ok x
  | JArr [] => Raise IndexError
  | JStr (String c _) => Ok (JStr (String c EmptyString))
  | JStr EmptyString => Raise IndexError
  | JObj _ => Raise (KeyError "0")
  | _ => Raise TypeError
  end.

(* ===================================================================== *)
(** * chat_completions_service.py *)
(* ===================================================================== *)

Module ChatCompletionsService.

(** [all(v is None for v in reasoning.values())] *)
Definition all_none (reasoning : pydict) : bool :=
  forallb (λ v, bool_decide (v = JNull)) (dict_values reasoning).

(** The block both handlers run on their copy:
    [if "reasoning" in d: reasoning = d["reasoning"]; if isinstance(reasoning,
    dict) and all(...): d.pop("reasoning", None)]. *)
Definition strip_null_reasoning (d : pydict) : pydict :=
  match dict_get "reasoning" d with
  | Some (JObj reasoning) =>
      if all_none reasoning then dict_pop "reasoning" d else d
  | _ => d
  end.

(** The body of the [try] in [_handle_non_streaming_request]. *)
Definition post_and_inspect (w : world) (body : pydict) : result json :=
  response ← llm_post w body;
  _ ← raise_for_status response;
  response_data ← json_body response;
  choices ← py_get "choices" (JArr []) response_data;
  choice ← py_first choices;
  finish_reason ← py_get "finish_reason" JNull choice;
  _ ← (if py_eq finish_reason (JStr "tool_calls") then
         message ← py_get "message" (JObj []) choice;
         tool_calls ← py_get "tool_calls" (JArr []) message;
         _ ← py_len tool_calls;
         mret tt
       else mret tt);
  mret response_data.

Definition _handle_non_streaming_request (w : world) (request_data : loc) : M json :=
  current_request_data ← obj_copy request_data;
  _ ← obj_update current_request_data strip_null_reasoning;
  _ ← obj_update current_request_data (dict_pop "stream");
  body ← obj_read current_request_data;
  _ ← record_call (CallPost body);
  mret (try_except (post_and_inspect w body)
          (λ e, JObj [("error", JStr (py_str w e))])).

(** The generator [stream_proxy], run to its end on the request it closes
    over. *)
Definition stream_proxy (w : world) (stream_request_data : pydict) : list frame :=
  let error_chunk e := Data (JObj [("error", JStr (py_str w e))]) in
  match llm_stream w stream_request_data with
  | Raise e => [error_chunk e]
  | Ok stream_response =>
      map Raw (yielded (aiter_bytes stream_response)) ++
      match raised (aiter_bytes stream_response) with
      | Some e => [error_chunk e]
      | None => []
      end
  end.

Definition _handle_streaming_request (w : world) (request_data : loc) : M http_reply :=
  stream_request_data ← obj_copy request_data;
  _ ← obj_update stream_request_data (dict_set "stream" (JBool true));
  _ ← obj_update stream_request_data strip_null_reasoning;
  body ← obj_read stream_request_data;
  _ ← record_call (CallStream body);
  mret (StreamingResponse (stream_proxy w body)).

(** The name under which a client tool is remembered:
    [tool.get("function", {}).get("name")], put in a set. *)
Definition existing_tool_name (tool : json) : result (option json) :=
  function ← py_get "function" (JObj []) tool;
  name ← py_get "name" JNull function;
  name' ← py_hash name;
  mret (Some name').

(** One turn of [for tool in mcp_tools]. *)
Definition add_mcp_tool (existing_tool_names : list json)
    (existing_tools : json) (tool : pydict) : result json :=
  seen ← py_in_set (dict_get_default "name" JNull tool) existing_tool_names;
  if (seen : bool) then Ok existing_tools
  else py_append existing_tools
         (JObj [("type", JStr "function"); ("function", JObj tool)]).

(** Lines 86-105: the injection of the registry tools into [request_data]. *)
Definition inject_mcp_tools (w : world) (request_data : pydict) : result pydict :=
  let mcp_tools := get_mcp_tools w in
  if nonempty mcp_tools && ENABLE_MCP_TOOLS w then
    let existing_tools := dict_get_default "tools" (JArr []) request_data in
    items ← py_iter existing_tools;
    existing_tool_names ← comprehension existing_tool_name items;
    existing_tools' ← for_each (add_mcp_tool existing_tool_names) mcp_tools existing_tools;
    mret (dict_set "tools" existing_tools' request_data)
  else Ok request_data.

(** The endpoint [/v1/chat/completions].  Nothing catches what the
    injection raises; a dict returned by the non-streaming handler is sent
    by the framework as a JSON body with status 200. *)
Definition handle_chat_completions (w : world) (request_json : pydict) : M http_reply :=
  request_data ← obj_alloc request_json;
  match inject_mcp_tools w request_json with
  | Raise e => mret (UnhandledException e)
  | Ok injected =>
      _ ← obj_update request_data (λ _, injected);
      let is_stream := dict_get_default "stream" (JBool false) injected in
      if truthy is_stream then _handle_streaming_request w request_data
      else
        response_data ← _handle_non_streaming_request w request_data;
        mret (JSONResponse 200 response_data)
  end.

End ChatCompletionsService.

(* ===================================================================== *)
(** * api_controller.py *)
(* ===================================================================== *)

Module ApiController.

(** [{"type": "function", "name": f["name"], "description":
    f.get("description"), "parameters": f.get("parameters", {})}] *)
Definition mcp_tool_of (f : pydict) : result (option json) :=
  name ← py_getitem "name" (JObj f);
  mret (Some (JObj [("type", JStr "function");
                    ("name", name);
                    ("description", dict_get_default "description" JNull f);
                    ("parameters", dict_get_default "parameters" (JObj []) f)])).

(** [tool["name"] for tool in existing_tools if "name" in tool], put in a set *)
Definition declared_name (tool : json) : result (option json) :=
  has_name ← py_contains "name" tool;
  if (has_name : bool) then
    name ← py_getitem "name" tool;
    name' ← py_hash name;
    mret (Some name')
  else Ok None.

(** [tool for tool in mcp_tools if tool["name"] not in existing_tool_names] *)
Definition keep_if_new (existing_tool_names : list json) (tool : json)
    : result (option json) :=
  name ← py_getitem "name" tool;
  seen ← py_in_set name existing_tool_names;
  mret (if (seen : bool) then None else Some tool).

(** Lines 60-85: the registry tools are put into [request_data] before the
    conversion. *)
Definition inject_into_request (w : world) (request_data : pydict) : result pydict :=
  if nonempty (mcp_functions_cache w) && ENABLE_MCP_TOOLS w then
    let existing_tools := dict_get_default "tools" (JArr []) request_data in
    mcp_tools ← comprehension mcp_tool_of (mcp_functions_cache w);
    items ← py_iter existing_tools;
    existing_tool_names ← comprehension declared_name items;
    filtered_mcp_tools ← comprehension (keep_if_new existing_tool_names) mcp_tools;
    tools ← py_list_add existing_tools filtered_mcp_tools;
    mret (dict_set "tools" (JArr tools) request_data)
  else Ok request_data.

(** Lines 100-105: the names already in [chat_request["tools"]]. *)
Definition note_tool_name (existing_tool_names : list json) (tool : json)
    : result (list json) :=
  match tool with
  | JObj t =>
      let by_name :=
        match dict_get "name" t with
        | Some name => name' ← py_hash name; mret (existing_tool_names ++ [name'])
        | None => Ok existing_tool_names
        end in
      match dict_get "function" t with
      | Some function =>
          has_name ← py_contains "name" function;
          if (has_name : bool) then
            name ← py_getitem "name" function;
            name' ← py_hash name;
            mret (existing_tool_names ++ [name'])
          else by_name
      | None => by_name
      end
  | _ => Ok existing_tool_names
  end.

(** Lines 108-114: one turn of [for func in existing_functions]. *)
Definition add_function (acc : json * list json) (func : json)
    : result (json * list json) :=
  let '(tools, existing_tool_names) := acc in
  name ← py_get "name" JNull func;
  seen ← py_in_set name existing_tool_names;
  if (seen : bool) then Ok acc
  else
    tools' ← py_append tools (JObj [("type", JStr "function"); ("function", func)]);
    name_or_empty ← py_get "name" (JStr EmptyString) func;
    name' ← py_hash name_or_empty;
    mret (tools', existing_tool_names ++ [name']).

(** Lines 118-124: one turn of [for func in mcp_manager.mcp_functions_cache]. *)
Definition add_mcp_function (existing_tool_names : list json)
    (tools : json) (func : pydict) : result json :=
  seen ← py_in_set (dict_get_default "name" JNull func) existing_tool_names;
  if (seen : bool) then Ok tools
  else py_append tools (JObj [("type", JStr "function"); ("function", JObj func)]).

(** Lines 90-131: the registry tools are put into [chat_request] after the
    conversion. *)
Definition inject_into_chat_request (w : world) (chat_request : pydict)
    : result pydict :=
  if nonempty (mcp_functions_cache w) && ENABLE_MCP_TOOLS w then
    let existing_functions := dict_get_default "functions" (JArr []) chat_request in
    let chat_request :=
      if dict_has "tools" chat_request then chat_request
      else dict_set "tools" (JArr []) chat_request in
    let tools := dict_get_default "tools" (JArr []) chat_request in
    items ← py_iter tools;
    existing_tool_names ← for_each note_tool_name items [];
    functions ← py_iter existing_functions;
    '(tools, existing_tool_names) ←
      for_each add_function functions (tools, existing_tool_names);
    tools ← for_each (add_mcp_function existing_tool_names)
               (mcp_functions_cache w) tools;
    mret (dict_pop "functions" (dict_set "tools" tools chat_request))
  else Ok chat_request.

(** Lines 133-138: [tool_choice] is popped when there are no functions and
    no tools, and then popped again whatever the request holds. *)
Definition drop_tool_choice (chat_request : pydict) : pydict :=
  let chat_request :=
    if negb (truthy (dict_get_default "functions" JNull chat_request))
       && negb (truthy (dict_get_default "tools" JNull chat_request))
    then dict_pop "tool_choice" chat_request
    else chat_request in
  dict_pop "tool_choice" chat_request.

(** Lines 55-58: the input summary that is logged. *)
Definition log_input_summary (request_data : pydict) : result unit :=
  match dict_get "input" request_data with
  | Some input => if truthy input then _ ← py_len input; mret tt else Ok tt
  | None => Ok tt
  end.

(** Lines 49-141: from the inbound request to the backend request and the
    streaming mode. *)
Definition prepare_chat_request (w : world) (request_data : pydict)
    : result (pydict * json) :=
  _ ← log_input_summary request_data;
  request_data ← inject_into_request w request_data;
  chat_request ← convert_responses_to_chat_completions w request_data;
  chat_request ← inject_into_chat_request w chat_request;
  let chat_request := drop_tool_choice chat_request in
  let stream := dict_get_default "stream" (JBool false) request_data in
  mret (chat_request, stream).

(** [f"data: {json.dumps({'type': 'error', 'error': {'message': m}})}\n\n"] *)
Definition error_event (message : string) : frame :=
  Data (JObj [("type", JStr "error");
              ("error", JObj [("message", JStr message)])]).

(** The generator [stream_response], run to its end. *)
Definition stream_response (w : world) (chat_request : pydict) : M (list frame) :=
  match py_len (dict_get_default "messages" (JArr []) chat_request) with
  | Raise e => mret [error_event (py_str w e)]
  | Ok _ =>
      _ ← record_call (CallStream chat_request);
      mret match llm_stream w chat_request with
           | Raise e => [error_event (py_str w e)]
           | Ok response =>
               if bool_decide (stream_status response ≠ 200%Z) then
                 match aread response with
                 | Raise e => [error_event (py_str w e)]
                 | Ok _ =>
                     [error_event ("Error from LLM API: " +:+
                                   pretty (stream_status response))]
                 end
               else
                 let events := process_chat_completions_stream w response chat_request in
                 yielded events ++
                 match raised events with
                 | Some e => [error_event (py_str w e)]
                 | None => []
                 end
           end
  end.

(** Lines 178-190: the body of the inner [try]. *)
Definition post_and_convert (w : world) (chat_request : pydict) : result json :=
  response ← llm_post w chat_request;
  _ ← raise_for_status response;
  response_data ← json_body response;
  convert_chat_completions_to_responses w response_data chat_request.

(** Lines 199-204: the outer [except Exception]. *)
Definition on_exception (w : world) (e : exn) : http_reply :=
  ErrorResponse 500 ("Error processing request: " +:+ py_str w e).

(** The endpoint [/responses].  The [HTTPException] that the inner handler
    raises is an [Exception] raised inside the outer [try], so the outer
    handler catches it and wraps it again. *)
Definition create_response (w : world) (request_data : pydict) : M http_reply :=
  match prepare_chat_request w request_data with
  | Raise e => mret (on_exception w e)
  | Ok (chat_request, stream) =>
      if truthy stream then
        frames ← stream_response w chat_request;
        mret (StreamingResponse frames)
      else
        _ ← record_call (CallPost chat_request);
        mret match post_and_convert w chat_request with
             | Ok responses_response => JSONResponse 200 responses_response
             | Raise e =>
                 on_exception w
                   (HTTPException 500
                      ("Error processing non-streaming request: " +:+ py_str w e))
             end
  end.

End ApiController.

(* ===================================================================== *)
(** * responses_service.py (FormatTranslator and StreamReconstructor) *)
(* ===================================================================== *)

(** The module is imported by [api_controller] and is not among the sources.
    Its three functions are modelled from sections 3, 4.1 and 4.2 of the
    specification, with the field names of the two public dialects. *)
Module ResponsesService.

(** ** requestToBackend *)

(** Modelled from the spec: the text of one content part of a Message. *)
Definition part_text (part : json) : string :=
  match part with
  | JObj p => match dict_get "text" p with Some (JStr t) => t | _ => EmptyString end
  | _ => EmptyString
  end.

(** Modelled from the spec: the text content of a Message (role,
    content-parts); the chat side holds it as one text. *)
Definition content_text (content : json) : option string :=
  match content with
  | JStr s => Some s
  | JArr parts => Some (String.concat EmptyString (map part_text parts))
  | _ => None
  end.

(** Modelled from the spec: Message to role and content. *)
Definition convert_message (d : pydict) : option json :=
  match dict_get "role" d, content_text (dict_get_default "content" JNull d) with
  | Some (JStr role), Some text =>
      Some (JObj [("role", JStr role); ("content", JStr text)])
  | _, _ => None
  end.

(** Modelled from the spec: FunctionCall to an assistant message with one
    tool_call entry. *)
Definition convert_function_call (d : pydict) : option json :=
  match dict_get "name" d, dict_get "arguments" d, dict_get "call_id" d with
  | Some (JStr name), Some (JStr arguments), Some (JStr call_id) =>
      Some (JObj [("role", JStr "assistant");
                  ("content", JNull);
                  ("tool_calls",
                   JArr [JObj [("id", JStr call_id);
                               ("type", JStr "function");
                               ("function",
                                JObj [("name", JStr name);
                                      ("arguments", JStr arguments)])]])])
  | _, _, _ => None
  end.

(** Modelled from the spec: FunctionCallOutput to a tool-result message
    that refers to its call-id. *)
Definition convert_function_call_output (d : pydict) : option json :=
  match dict_get "call_id" d, dict_get "output" d with
  | Some (JStr call_id), Some (JStr output) =>
      Some (JObj [("role", JStr "tool");
                  ("tool_call_id", JStr call_id);
                  ("content", JStr output)])
  | _, _ => None
  end.

(** The tag of an item of the [input] or [output] sequence. *)
Definition item_type (d : pydict) : option string :=
  match dict_get "type" d with
  | Some (JStr tag) => Some tag
  | _ => None
  end.

(** Modelled from the spec: section 4.1, the mapping of one input item by
    its tag; an item of any other kind, or one that is not well formed, is
    skipped. *)
Definition convert_item (item : json) : option json :=
  match item with
  | JObj d =>
      match item_type d with
      | Some tag =>
          if bool_decide (tag = "message") then convert_message d
          else if bool_decide (tag = "function_call") then convert_function_call d
          else if bool_decide (tag = "function_call_output")
               then convert_function_call_output d
          else None
      | None => None
      end
  | _ => None
  end.

(** Modelled from the spec: the [input] item sequence. *)
Definition input_items (request_data : pydict) : list json :=
  match dict_get "input" request_data with
  | Some (JArr items) => items
  | _ => []
  end.

(** Modelled from the spec: a flat Responses-style tool definition in the
    nested Chat-Completions shape. *)
Definition nest_tool (tool : json) : option json :=
  match tool with
  | JObj t =>
      Some (JObj [("type", JStr "function");
                  ("function",
                   JObj [("name", dict_get_default "name" JNull t);
                         ("description", dict_get_default "description" JNull t);
                         ("parameters", dict_get_default "parameters" (JObj []) t)])])
  | _ => None
  end.

Definition declared_tools (request_data : pydict) : list json :=
  match dict_get "tools" request_data with
  | Some (JArr tools) => tools
  | _ => []
  end.

(** [d[k] = v] when [v] is there, nothing otherwise *)
Definition dict_set_opt (k : string) (v : option json) (d : pydict) : pydict :=
  match v with Some x => dict_set k x d | None => d end.

(** Modelled from the spec: section 4.1, [requestToBackend].  The tools of
    [request_data] are already the merged ones: the controller merges the
    registry tools before it calls the conversion. *)
Definition convert_responses_to_chat_completions (request_data : pydict)
    : result pydict :=
  match dict_get "model" request_data with
  | None => Raise (ValidationError "model is required")
  | Some model =>
      let messages := omap convert_item (input_items request_data) in
      let tools := omap nest_tool (declared_tools request_data) in
      let chat_request :=
        [("model", model);
         ("messages", JArr messages);
         ("stream", dict_get_default "stream" (JBool false) request_data)] in
      let chat_request :=
        if nonempty tools
        then dict_set_opt "tool_choice" (dict_get "tool_choice" request_data)
               (dict_set "tools" (JArr tools) chat_request)
        else chat_request in
      let chat_request :=
        ChatCompletionsService.strip_null_reasoning
          (dict_set_opt "reasoning" (dict_get "reasoning" request_data) chat_request) in
      Ok chat_request
  end.

(** ** responseFromBackend *)

(** Modelled from the spec: one FunctionCall item per tool call. *)
Definition function_call_item (tool_call : json) : option json :=
  match tool_call with
  | JObj tc =>
      match dict_get "function" tc with
      | Some (JObj f) =>
          Some (JObj [("type", JStr "function_call");
                      ("call_id", dict_get_default "id" JNull tc);
                      ("name", dict_get_default "name" JNull f);
                      ("arguments", dict_get_default "arguments" JNull f)])
      | _ => None
      end
  | _ => None
  end.

(** Modelled from the spec: one text item if content is present. *)
Definition text_item (content : json) : list json :=
  match content with
  | JStr text =>
      [JObj [("type", JStr "message");
             ("role", JStr "assistant");
             ("content", JArr [JObj [("type", JStr "output_text");
                                     ("text", JStr text)]])]]
  | _ => []
  end.

(** Modelled from the spec: the usage counters are renamed, prompt to input
    and completion to output, and the total is kept. *)
Definition convert_usage (usage : json) : json :=
  match usage with
  | JObj u =>
      JObj [("input_tokens", dict_get_default "prompt_tokens" (JNum 0) u);
            ("output_tokens", dict_get_default "completion_tokens" (JNum 0) u);
            ("total_tokens", dict_get_default "total_tokens" (JNum 0) u)]
  | _ => JNull
  end.

Section Translator.

(** The spec maps [finish_reason] to a response status without giving
    the table. *)
Variable status_of_finish_reason : json → json.

(** Modelled from the spec: section 4.1, [responseFromBackend]. *)
Definition convert_chat_completions_to_responses
    (response_data : json) (chat_request : pydict) : result json :=
  match response_data with
  | JObj r =>
      match dict_get_default "choices" (JArr []) r with
      | JArr (JObj choice :: _) =>
          let message :=
            match dict_get "message" choice with Some (JObj m) => m | _ => [] end in
          let tool_calls :=
            match dict_get "tool_calls" message with Some (JArr l) => l | _ => [] end in
          Ok (JObj
                [("object", JStr "response");
                 ("model", dict_get_default "model" JNull chat_request);
                 ("status",
                  status_of_finish_reason (dict_get_default "finish_reason" JNull choice));
                 ("output",
                  JArr (text_item (dict_get_default "content" JNull message) ++
                        omap function_call_item tool_calls));
                 ("usage", convert_usage (dict_get_default "usage" JNull r))])
      | _ => Raise (UpstreamShapeError "choices is empty")
      end
  | _ => Raise (UpstreamShapeError "choices is empty")
  end.

End Translator.

End ResponsesService.

(** Modelled from the spec: [process_chat_completions_stream] is absent from
    the sources.  Section 4.2 describes it as a state machine over the parsed
    frames of the backend stream; section 3 gives its state. *)
Module StreamReconstructor.

(** One tool-call delta of a backend frame, keyed by a backend-local index. *)
Record tool_call_delta : Type := ToolCallDelta {
  tc_index : nat;
  tc_id : option string;
  tc_name : option string;
  tc_arguments : string
}.

(** A parsed [data: <json>] frame. *)
Record chunk : Type := Chunk {
  content : option string;
  tool_calls : list tool_call_delta;
  finish_reason : option string;
  usage : json
}.

Inductive backend_frame : Type :=
| DataFrame (c : chunk)
| MalformedFrame
| EndFrame.

(** The client-facing event kinds. *)
Inductive event : Type :=
| Started (response_id : string)
| TextDelta (fragment : string)
| ItemAdded (index output_index : nat) (call_id name : string)
| ArgumentsDelta (index : nat) (fragment : string)
| TextDone (text : string)
| ArgumentsDone (index : nat) (arguments : string)
| Completed (usage : json)
| ErrorEvent (message : string).

Record accumulator : Type := Accumulator {
  acc_id : string;
  acc_name : string;
  acc_output_index : nat;
  argument_buffer : string
}.

Record StreamState : Type := MkStreamState {
  response_id : string;
  has_emitted_start : bool;
  next_output_index : nat;
  text_buffer : option string;
  accumulators : gmap nat accumulator;
  terminal_reason : option string
}.

Definition initial (rid : string) : StreamState :=
  MkStreamState rid false 0 None ∅ None.

(** Step 1: the started event, once. *)
Definition emit_start (st : StreamState) : StreamState * list event :=
  if has_emitted_start st then (st, [])
  else (MkStreamState (response_id st) true (next_output_index st)
          (text_buffer st) (accumulators st) (terminal_reason st),
        [Started (response_id st)]).

(** Step 2: a non-empty text delta is emitted as it is and appended. *)
Definition step_text (st : StreamState) (c : chunk) : StreamState * list event :=
  match content c with
  | Some fragment =>
      if bool_decide (fragment = EmptyString) then (st, [])
      else (MkStreamState (response_id st) (has_emitted_start st)
              (next_output_index st)
              (Some (default EmptyString (text_buffer st) +:+ fragment))
              (accumulators st) (terminal_reason st),
            [TextDelta fragment])
  | None => (st, [])
  end.

(** Step 3, for one tool-call delta: an index seen for the first time gets
    an item-added event and the next output index; the fragment is emitted
    and appended to the buffer of its index. *)
Definition step_tool_call (st : StreamState) (d : tool_call_delta)
    : StreamState * list event :=
  match accumulators st !! tc_index d with
  | None =>
      let acc := Accumulator (default EmptyString (tc_id d))
                   (default EmptyString (tc_name d))
                   (next_output_index st) (tc_arguments d) in
      (MkStreamState (response_id st) (has_emitted_start st)
         (S (next_output_index st)) (text_buffer st)
         (<[tc_index d := acc]> (accumulators st)) (terminal_reason st),
       [ItemAdded (tc_index d) (next_output_index st) (acc_id acc) (acc_name acc);
        ArgumentsDelta (tc_index d) (tc_arguments d)])
  | Some acc =>
      let acc' := Accumulator (acc_id acc) (acc_name acc) (acc_output_index acc)
                    (argument_buffer acc +:+ tc_arguments d) in
      (MkStreamState (response_id st) (has_emitted_start st)
         (next_output_index st) (text_buffer st)
         (<[tc_index d := acc']> (accumulators st)) (terminal_reason st),
       [ArgumentsDelta (tc_index d) (tc_arguments d)])
  end.

Fixpoint step_tool_calls (st : StreamState) (ds : list tool_call_delta)
    : StreamState * list event :=
  match ds with
  | [] => (st, [])
  | d :: ds' =>
      let '(st1, evs1) := step_tool_call st d in
      let '(st2, evs2) := step_tool_calls st1 ds' in
      (st2, evs1 ++ evs2)
  end.

(** Step 4: one item-done event per open accumulator, then completed. *)
Definition done_events (st : StreamState) (u : json) : list event :=
  match text_buffer st with Some text => [TextDone text] | None => [] end ++
  map (λ kv, ArgumentsDone (fst kv) (argument_buffer (snd kv)))
      (map_to_list (accumulators st)) ++
  [Completed u].

Definition step_finish (st : StreamState) (c : chunk) : StreamState * list event :=
  match finish_reason c with
  | Some reason =>
      (MkStreamState (response_id st) (has_emitted_start st)
         (next_output_index st) (text_buffer st) (accumulators st) (Some reason),
       done_events st (usage c))
  | None => (st, [])
  end.

Definition step_chunk (st : StreamState) (c : chunk) : StreamState * list event :=
  let '(st1, evs1) := emit_start st in
  let '(st2, evs2) := step_text st1 c in
  let '(st3, evs3) := step_tool_calls st2 (tool_calls c) in
  let '(st4, evs4) := step_finish st3 c in
  (st4, evs1 ++ evs2 ++ evs3 ++ evs4).

(** The frames produced from a state on the rest of the backend stream.
    Completed and Errored are terminal: nothing is read after them. *)
Fixpoint run (st : StreamState) (frames : list backend_frame) : list event :=
  match frames with
  | [] => []
  | EndFrame :: _ => []
  | MalformedFrame :: _ => [ErrorEvent "malformed backend frame"]
  | DataFrame c :: rest =>
      let '(st', evs) := step_chunk st c in
      evs ++ match terminal_reason st' with
             | Some _ => []
             | None => run st' rest
             end
  end.

Definition reconstruct (rid : string) (frames : list backend_frame) : list event :=
  run (initial rid) frames.

(** The argument fragments emitted for an index, in order. *)
Definition argument_deltas (index : nat) (evs : list event) : list string :=
  omap (λ ev, match ev with
              | ArgumentsDelta i fragment =>
                  if bool_decide (i = index) then Some fragment else None
              | _ => None
              end) evs.

Definition is_item_added (index : nat) (ev : event) : bool :=
  match ev with
  | ItemAdded i _ _ _ => bool_decide (i = index)
  | _ => false
  end.

(** The number of item-added events emitted for an index. *)
Definition added_count (index : nat) (evs : list event) : nat :=
  length (filter (λ ev, is_item_added index ev = true) evs).

(** The concatenation of fragments, in order. *)
Definition concat_fragments (fragments : list string) : string :=
  foldr String.append EmptyString fragments.

(** Every argument-delta event for an index comes after an item-added
    event for that index. *)
Definition added_before_deltas (evs : list event) : Prop :=
  ∀ index before fragment after,
    evs = before ++ ArgumentsDelta index fragment :: after →
    Exists (λ ev, is_item_added index ev = true) before.

Definition is_arguments_done (ev : event) : bool :=
  match ev with ArgumentsDone _ _ => true | _ => false end.

(** An event that says nothing about tool-call arguments. *)
Definition is_plain (ev : event) : bool :=
  match ev with
  | ItemAdded _ _ _ _ | ArgumentsDelta _ _ | ArgumentsDone _ _ => false
  | _ => true
  end.

(** What holds between the events emitted so far and the accumulators. *)
Record consistent (h : list event) (accs : gmap nat accumulator) : Prop := Consistent {
  buffer_is_concat : ∀ i acc, accs !! i = Some acc →
    argument_buffer acc = concat_fragments (argument_deltas i h);
  added_once : ∀ i, added_count i h = match accs !! i with Some _ => 1 | None => 0 end;
  deltas_follow : added_before_deltas h;
  nothing_done : Forall (λ ev, is_arguments_done ev = false) h
}.

(** The events emitted for one request hang together: every argument
    delta follows the item-added event of its index, no index is added twice,
    and an item-done event carries the concatenation of the fragments emitted
    for its index. *)
Definition well_formed (out : list event) : Prop :=
  added_before_deltas out ∧
  (∀ index, added_count index out ≤ 1) ∧
  (∀ index arguments,
     ArgumentsDone index arguments ∈ out →
     arguments = concat_fragments (argument_deltas index out)).

(** ** What the backend stream brings *)

(** The definitions below are about the backend frames alone; none of them
    refers to the reconstructor. *)

(** The tool-call deltas that arrive before the stream ends, in arrival
    order: those of the data frames up to the first frame that carries a
    finish reason, that frame included.  A malformed frame and the end frame
    end the stream. *)
Fixpoint arriving (frames : list backend_frame) : list tool_call_delta :=
  match frames with
  | DataFrame c :: rest =>
      tool_calls c ++
      match finish_reason c with
      | Some _ => []
      | None => arriving rest
      end
  | _ => []
  end.

(** The stream reaches a frame that carries a finish reason. *)
Fixpoint finishes (frames : list backend_frame) : bool :=
  match frames with
  | DataFrame c :: rest =>
      match finish_reason c with
      | Some _ => true
      | None => finishes rest
      end
  | _ => false
  end.

(** The backend-local indexes that are seen. *)
Definition seen (ds : list tool_call_delta) : list nat := map tc_index ds.

(** A delta as it arrives: its index and its fragment. *)
Definition arrival (d : tool_call_delta) : nat * string :=
  (tc_index d, tc_arguments d).

(** The fragments that arrive for an index, in arrival order. *)
Definition fragments_for (index : nat) (ds : list tool_call_delta) : list string :=
  omap (λ d, if bool_decide (tc_index d = index) then Some (tc_arguments d) else None) ds.

(** The argument-delta events among the events emitted, in order: index and
    fragment. *)
Definition delta_events (evs : list event) : list (nat * string) :=
  omap (λ ev, match ev with
              | ArgumentsDelta i fragment => Some (i, fragment)
              | _ => None
              end) evs.

(** An item-added event is followed at once by an argument-delta event of
    its index. *)
Definition added_then_delta (evs : list event) : Prop :=
  ∀ before index output_index call_id name after,
    evs = before ++ ItemAdded index output_index call_id name :: after →
    ∃ fragment after', after = ArgumentsDelta index fragment :: after'.

(** What holds between the deltas read so far, the events emitted so far
    and the accumulators. *)
Record follows (h : list event) (ds : list tool_call_delta)
    (accs : gmap nat accumulator) : Prop := Follows {
  in_arrival_order : delta_events h = map arrival ds;
  open_when_seen : ∀ i, is_Some (accs !! i) ↔ i ∈ seen ds;
  added_with_delta : added_then_delta h
}.

(** What is asked of the events [out] emitted for a stream whose deltas are
    [arrived], and that reaches a finish reason or not. *)
Definition reconstructs (out : list event) (arrived : list tool_call_delta)
    (finished : bool) : Prop :=
  (∀ index,
     added_count index out = if bool_decide (index ∈ seen arrived) then 1 else 0) ∧
  added_before_deltas out ∧
  added_then_delta out ∧
  delta_events out = map arrival arrived ∧
  (∀ index, argument_deltas index out = fragments_for index arrived) ∧
  (∀ index arguments,
     ArgumentsDone index arguments ∈ out →
     arguments = concat_fragments (argument_deltas index out)) ∧
  (finished = true →
   ∀ index, index ∈ seen arrived →
     ArgumentsDone index (concat_fragments (fragments_for index arrived)) ∈ out).

Definition double_quote : string := String (ascii_of_nat 34) EmptyString.

(** The stream of the specification's example: index 0 gets the argument
    fragments [{"a":] and [1}], then the stream finishes with tool_calls. *)
Definition example_stream : list backend_frame :=
  [DataFrame (Chunk None
                [ToolCallDelta 0 (Some "call_1") (Some "f")
                   ("{" +:+ double_quote +:+ "a" +:+ double_quote +:+ ":")]
                None JNull);
   DataFrame (Chunk None [ToolCallDelta 0 None None "1}"] None JNull);
   DataFrame (Chunk None [] (Some "tool_calls") (JObj [("total_tokens", JNum 9)]));
   EndFrame].

End StreamReconstructor.

(* ===================================================================== *)
(** * Vocabulary of the properties *)
(* ===================================================================== *)

Definition call_body (c : backend_call) : pydict :=
  match c with CallPost body | CallStream body => body end.

(** The requests an endpoint sends to the backend when it handles one
    inbound request in a new store. *)
Definition requests_sent {A} (handler : M A) : list pydict :=
  match handler initial_state with
  | Some (_, σ) => map call_body (calls σ)
  | None => []
  end.

(** The same with the kind of each call: a post or a stream. *)
Definition calls_made {A} (handler : M A) : list backend_call :=
  match handler initial_state with
  | Some (_, σ) => calls σ
  | None => []
  end.

(** The reply of an endpoint. *)
Definition reply_of {A} (handler : M A) : option A :=
  match handler initial_state with
  | Some (a, _) => Some a
  | None => None
  end.

(** The tool list of a backend request. *)
Definition tools_of (body : pydict) : list json :=
  match dict_get "tools" body with
  | Some (JArr tools) => tools
  | _ => []
  end.

(** The name of a flat (Responses-style) tool definition and of a registry
    entry, when it is a string. *)
Definition flat_name (tool : json) : option string :=
  match tool with
  | JObj t => match dict_get "name" t with Some (JStr s) => Some s | _ => None end
  | _ => None
  end.

Definition cache_name (f : pydict) : option string := flat_name (JObj f).

(** The function name of a nested (Chat-Completions-style) tool definition. *)
Definition nested_name (tool : json) : option string :=
  match tool with
  | JObj t => match dict_get "function" t with
              | Some function => flat_name function
              | None => None
              end
  | _ => None
  end.

(** No two entries of a tool list have the same function name. *)
Definition distinct_names (tools : list json) : Prop :=
  NoDup (omap nested_name tools).

(** The registry entries that survive the comparison with the names the
    client declared. *)
Definition is_new (declared : list string) (f : pydict) : bool :=
  match cache_name f with
  | Some s => bool_decide (s ∉ declared)
  | None => true
  end.

Definition not_declared (declared : list string) (cache : list pydict) : list pydict :=
  filter (λ f, is_new declared f = true) cache.

(** A registry entry as the chat-completions endpoint appends it. *)
Definition wrap_function (f : pydict) : json :=
  JObj [("type", JStr "function"); ("function", JObj f)].

(** A registry entry as the [/responses] endpoint sends it: made flat before
    the conversion, nested by it. *)
Definition flat_then_nested (f : pydict) : json :=
  JObj [("type", JStr "function");
        ("function",
         JObj [("name", dict_get_default "name" JNull f);
               ("description", dict_get_default "description" JNull f);
               ("parameters", dict_get_default "parameters" (JObj []) f)])].

(** A frame that reports an error to the client: an event whose payload has
    an [error] member. *)
Definition is_error_frame (f : frame) : bool :=
  match f with
  | Data (JObj d) => dict_has "error" d
  | _ => false
  end.

Definition count_error_frames (frames : list frame) : nat :=
  length (filter (λ f, is_error_frame f = true) frames).

(** The backend call of a non-streaming request fails: the backend is
    unreachable, or it answers with a status outside 2xx. *)
Definition backend_failure (w : world) (body : pydict) : option exn :=
  match llm_post w body with
  | Raise e => Some e
  | Ok response =>
      match raise_for_status response with
      | Raise e => Some e
      | Ok _ => None
      end
  end.

(** The same world with another registry cache. *)
Definition with_cache (w : world) (cache : list pydict) : world :=
  World (py_str w) (ENABLE_MCP_TOOLS w) cache (llm_post w) (llm_stream w)
    (convert_responses_to_chat_completions w)
    (convert_chat_completions_to_responses w)
    (process_chat_completions_stream w).

(** The same world with another backend. *)
Definition with_backend (w : world)
    (post : pydict → result http_response)
    (stream : pydict → result stream_response) : world :=
  World (py_str w) (ENABLE_MCP_TOOLS w) (mcp_functions_cache w) post stream
    (convert_responses_to_chat_completions w)
    (convert_chat_completions_to_responses w)
    (process_chat_completions_stream w).

(** Another backend answers a call as the backend of [w] does. *)
Definition same_answer (w : world)
    (post : pydict → result http_response)
    (stream : pydict → result stream_response) (c : backend_call) : Prop :=
  match c with
  | CallPost body => post body = llm_post w body
  | CallStream body => stream body = llm_stream w body
  end.

(** A world whose translator is the one modelled from the specification. *)
Definition translated_world (str : exn → string) (flag : bool) (cache : list pydict)
    (post : pydict → result http_response)
    (stream : pydict → result stream_response)
    (status_of_finish_reason : json → json)
    (reconstruct : stream_response → pydict → gen frame) : world :=
  World str flag cache post stream
    ResponsesService.convert_responses_to_chat_completions
    (ResponsesService.convert_chat_completions_to_responses status_of_finish_reason)
    reconstruct.

(** What the text content of a message is, said on the JSON of the two
    dialects alone: nothing below refers to the conversions. *)

(** The text of one content part of a Message item: its [text] member. *)
Definition text_of_part (part : json) : string :=
  match part with
  | JObj p => match dict_get "text" p with Some (JStr t) => t | _ => EmptyString end
  | _ => EmptyString
  end.

(** The text of a Message item of the Responses dialect, in an [input] or
    an [output] sequence: the item is an object tagged [message] that has a
    role; its content is a text, or a sequence of parts, whose texts are
    joined in order. *)
Definition item_text (item : json) : option string :=
  match item with
  | JObj d =>
      match dict_get "type" d, dict_get "role" d, dict_get "content" d with
      | Some (JStr tag), Some (JStr _), Some (JStr text) =>
          if bool_decide (tag = "message") then Some text else None
      | Some (JStr tag), Some (JStr _), Some (JArr parts) =>
          if bool_decide (tag = "message")
          then Some (String.concat EmptyString (map text_of_part parts))
          else None
      | _, _, _ => None
      end
  | _ => None
  end.

(** The text of the Message items of an inbound request, in order. *)
Definition input_texts (request_data : pydict) : list string :=
  match dict_get "input" request_data with
  | Some (JArr items) => omap item_text items
  | _ => []
  end.

(** A Message item with a role and a text, and the chat message with the
    same role and the same text. *)
Definition message_item (m : string * string) : json :=
  JObj [("type", JStr "message"); ("role", JStr (fst m)); ("content", JStr (snd m))].

Definition chat_message (m : string * string) : json :=
  JObj [("role", JStr (fst m)); ("content", JStr (snd m))].

(** The text of the output items of a Responses-API response, in order. *)
Definition output_texts (response : json) : list string :=
  match response with
  | JObj r =>
      match dict_get "output" r with
      | Some (JArr items) => omap item_text items
      | _ => []
      end
  | _ => []
  end.

(** The text content of a chat message that is neither a tool call nor a
    tool result. *)
Definition message_text (message : json) : option string :=
  match message with
  | JObj d =>
      match dict_get "tool_calls" d, dict_get "tool_call_id" d, dict_get "content" d with
      | None, None, Some (JStr text) => Some text
      | _, _, _ => None
      end
  | _ => None
  end.

(** The text content of the messages of a backend request, in order. *)
Definition message_texts (chat_request : pydict) : list string :=
  match dict_get "messages" chat_request with
  | Some (JArr messages) => omap message_text messages
  | _ => []
  end.

(** The text that the first choice of a backend response carries. *)
Definition first_choice_text (response_data : json) : option string :=
  match response_data with
  | JObj r =>
      match dict_get "choices" r with
      | Some (JArr (JObj choice :: _)) =>
          match dict_get "message" choice with
          | Some (JObj message) =>
              match dict_get "content" message with
              | Some (JStr text) => Some text
              | _ => None
              end
          | _ => None
          end
      | _ => None
      end
  | _ => None
  end.

(** The request the chat-completions endpoint sends for the request data
    it holds after the injection, and its reply. *)
Definition chat_body (injected : pydict) : pydict :=
  if truthy (dict_get_default "stream" (JBool false) injected)
  then ChatCompletionsService.strip_null_reasoning
         (dict_set "stream" (JBool true) injected)
  else dict_pop "stream" (ChatCompletionsService.strip_null_reasoning injected).

Definition chat_reply (w : world) (injected : pydict) : http_reply :=
  if truthy (dict_get_default "stream" (JBool false) injected)
  then StreamingResponse (ChatCompletionsService.stream_proxy w (chat_body injected))
  else JSONResponse 200
         (try_except (ChatCompletionsService.post_and_inspect w (chat_body injected))
            (λ e, JObj [("error", JStr (py_str w e))])).

(** The frames of [stream_response] once the backend has answered. *)
Definition frames_of_stream (w : world) (chat_request : pydict)
    (r : result stream_response) : list frame :=
  match r with
  | Raise e => [ApiController.error_event (py_str w e)]
  | Ok response =>
      if bool_decide (stream_status response ≠ 200%Z) then
        match aread response with
        | Raise e => [ApiController.error_event (py_str w e)]
        | Ok _ =>
            [ApiController.error_event
               ("Error from LLM API: " +:+ pretty (stream_status response))]
        end
      else
        let events := process_chat_completions_stream w response chat_request in
        yielded events ++
        match raised events with
        | Some e => [ApiController.error_event (py_str w e)]
        | None => []
        end
  end.

(** The rule for [tool_choice] as the specification words it: the backend
    request omits the field exactly when its tool list is empty, and keeps
    the client's value when the list is not empty. *)
Definition tool_choice_rule (request_data body : pydict) : Prop :=
  (dict_get "tool_choice" body = None ↔ tools_of body = []) ∧
  (tools_of body ≠ [] →
   dict_get "tool_choice" body = dict_get "tool_choice" request_data).

(** A reply that reports a server-side error, and one that reports a client
    error. *)
Definition server_error (reply : http_reply) : Prop :=
  (500 ≤ reply_status reply < 600)%Z.

Definition client_error (reply : http_reply) : Prop :=
  (400 ≤ reply_status reply < 500)%Z.


(** The chunk that [stream_proxy] yields for an exception. *)
Definition error_chunk (w : world) (e : exn) : frame :=
  Data (JObj [("error", JStr (py_str w e))]).

(** A registry entry as the [/responses] endpoint makes it flat before the
    conversion. *)
Definition flat_function (f : pydict) : json :=
  JObj [("type", JStr "function");
        ("name", dict_get_default "name" JNull f);
        ("description", dict_get_default "description" JNull f);
        ("parameters", dict_get_default "parameters" (JObj []) f)].

(** The registry tools that take part in the injection: the cache when the
    flag is on, nothing when it is off. *)
Definition registry (w : world) : list pydict :=
  if ENABLE_MCP_TOOLS w then mcp_functions_cache w else [].

(** ** Sample data *)

Module Samples.

Definition str (e : exn) : string :=
  match e with
  | TypeError => "TypeError"
  | AttributeError => "AttributeError"
  | KeyError k => k
  | IndexError => "list index out of range"
  | ValidationError m => m
  | UpstreamShapeError m => m
  | HTTPStatusError s => "Server error " +:+ pretty s
  | TransportError d => d
  | JSONDecodeError => "Expecting value"
  | HTTPException s d => pretty s +:+ ": " +:+ d
  end.

Definition no_events (_ : stream_response) (_ : pydict) : gen frame := Gen [] None.

Definition completed (_ : json) : json := JStr "completed".

(** A backend that answers every request with status 503 and an empty
    body. *)
Definition unavailable_post (_ : pydict) : result http_response :=
  Ok (HttpResponse 503 (Raise JSONDecodeError)).
Definition unavailable_stream (_ : pydict) : result stream_response :=
  Ok (StreamResponse 503 (Gen [] None) (Ok EmptyString)).

(** A backend that answers with the text of the last message it got. *)
Definition echo_post (body : pydict) : result http_response :=
  Ok (HttpResponse 200
        (Ok (JObj [("choices",
                    JArr [JObj [("finish_reason", JStr "stop");
                                ("message",
                                 JObj [("role", JStr "assistant");
                                       ("content",
                                        JStr (default EmptyString
                                                (last (message_texts body))))])]])]))).

Definition unavailable (flag : bool) (cache : list pydict) : world :=
  translated_world str flag cache unavailable_post unavailable_stream
    completed no_events.

Definition echo : world :=
  translated_world str false [] echo_post unavailable_stream completed no_events.

Definition search_tool : json :=
  JObj [("type", JStr "function");
        ("function", JObj [("name", JStr "search")])].

Definition flat_search_tool : json :=
  JObj [("type", JStr "function"); ("name", JStr "search")].

Definition lookup_function : pydict :=
  [("name", JStr "lookup"); ("description", JStr "look a key up")].

Definition search_function : pydict :=
  [("name", JStr "search"); ("description", JStr "registry search")].

Definition hello_item : json :=
  JObj [("type", JStr "message"); ("role", JStr "user"); ("content", JStr "hello")].

(** A [/responses] request that declares one tool and asks for it. *)
Definition request_with_tool_choice : pydict :=
  [("model", JStr "m");
   ("input", JArr [hello_item]);
   ("tools", JArr [flat_search_tool]);
   ("tool_choice", JStr "auto")].

(** A chat-completions request with a reasoning field of nulls. *)
Definition request_with_null_reasoning : pydict :=
  [("model", JStr "m");
   ("stream", JBool false);
   ("reasoning", JObj [("effort", JNull); ("summary", JNull)])].

Definition one_object : state := State {[ 0 := request_with_null_reasoning ]} [].

Definition plain_request : pydict := [("model", JStr "m")].

Definition streaming_request : pydict := [("model", JStr "m"); ("stream", JBool true)].

(** A [/responses] request without a model. *)
Definition request_without_model : pydict := [("input", JArr [hello_item])].




(** A chat-completions request that declares the same tool twice. *)
Definition request_with_duplicates : pydict :=
  [("model", JStr "m"); ("tools", JArr [search_tool; search_tool])].

(** The same for [/responses]. *)
Definition flat_request_with_duplicates : pydict :=
  [("model", JStr "m"); ("tools", JArr [flat_search_tool; flat_search_tool])].

(** A chat-completions request that declares the tool [search]. *)
Definition request_with_search : pydict :=
  [("model", JStr "m"); ("tools", JArr [search_tool])].

(** A [/responses] request with one message and one item that is not an
    item. *)
Definition echo_request : pydict :=
  [("model", JStr "m"); ("input", JArr [hello_item; JNum 4])].

End Samples.

(* ===================================================================== *)
(** * api_controller.py: the other endpoints *)
(* ===================================================================== *)

Module Endpoints.

(** The endpoint [/v1/chat/completions] of the controller: whatever the
    service returns is returned, in each of the three branches.  The service
    takes the body from [request.json()], which gives any JSON value, and
    reads it with [request_data.get("tools", [])]: at line 88 when the
    injection is active, at line 107 when it is not.  On a value that is not
    a dict either call raises [AttributeError] before anything is sent, and
    nothing catches it; on a dict the service goes on as
    [handle_chat_completions]. *)
Definition chat_completions (w : world) (request_json : json) : M http_reply :=
  match request_json with
  | JObj request_data => ChatCompletionsService.handle_chat_completions w request_data
  | _ => mret (UnhandledException AttributeError)
  end.

(** [health_check], given what [client.get("/v1/models", timeout=5.0)]
    does: the status code of the answer, or the exception raised. *)
Definition health_check (get_models : result Z) : pydict :=
  let llm_up :=
    try_except (status ← get_models; mret (bool_decide (status = 200%Z)))
               (λ _, false) in
  let overall := if llm_up then "ok" else "degraded" in
  [("status", JStr overall);
   ("adapter", JStr "running");
   ("llm_backend", JBool llm_up)].

(** [root] *)
Definition root : pydict := [("message", JStr "Open Responses Server is running.")].

(** ** The catch-all proxy *)

Definition headers : Type := list (string * string).

(** The inbound request as [proxy_endpoint] reads it. *)
Record proxy_request : Type := ProxyRequest {
  method : string;
  path_name : string;
  request_headers : headers;
  request_body : string
}.

(** The answer of [client.request]. *)
Record backend_answer : Type := BackendAnswer {
  answer_content : string;
  answer_status : Z;
  answer_headers : headers
}.

(** What the proxy reads from outside itself. *)
Record upstream : Type := Upstream {
  (** [client.base_url] *)
  base_url : string;
  (** [json.loads] *)
  json_loads : string → result json;
  (** [client.request(method, url, headers=..., content=..., timeout=120.0)] *)
  client_request : string → string → headers → string → result backend_answer;
  (** [client.stream(method, url, headers=..., content=..., timeout=120.0)]
      followed by [aiter_bytes()] *)
  client_stream : string → string → headers → string → result (gen string);
  (** [str(e)] *)
  exn_str : exn → string
}.

(** What the client of the proxy gets: a plain response, a streaming
    response with its media type, whose generator has no handler of its own
    (an exception ends the stream where it is raised), or an error. *)
Inductive proxy_reply : Type :=
| ProxyResponse (content : string) (status : Z) (h : headers)
| ProxyStream (media_type : string) (chunks : list string) (aborted : option exn)
| ProxyError (status : Z) (detail : string).

(** [d[k] = v] on a dict of texts: an existing key keeps its position and
    gets the new value, a new key goes last. *)
Fixpoint header_set (k v : string) (d : headers) : headers :=
  match d with
  | [] => [(k, v)]
  | (k', v') :: d' =>
      if bool_decide (k = k') then (k', v) :: d' else (k', v') :: header_set k v d'
  end.

(** [{k: v for k, v in items if k.lower() != 'host'}]: the comprehension
    builds a dict, so a name that comes twice is held once, with its last
    value. *)
Definition build_headers (d : headers) (items : headers) : headers :=
  foldl (λ d kv, if bool_decide (Config.lower (fst kv) = "host") then d
                 else header_set (fst kv) (snd kv) d) d items.

Definition dict_of_headers (items : headers) : headers := build_headers [] items.

Definition forwarded_headers (h : headers) : headers := dict_of_headers h.

(** [request.headers.get('accept', 'application/json')]: the lookup ignores
    the case of the name. *)
Fixpoint header_get (name : string) (default : string) (h : headers) : string :=
  match h with
  | [] => default
  | (k, v) :: h' =>
      if bool_decide (Config.lower k = name) then v else header_get name default h'
  end.

(** Lines 252-258: the streaming mode is read from the body when there is
    one; only [JSONDecodeError] is passed over. *)
Definition wants_stream (u : upstream) (body : string) : result json :=
  if bool_decide (body = EmptyString) then Ok (JBool false)
  else
    match json_loads u body with
    | Ok parsed => py_get "stream" (JBool false) parsed
    | Raise JSONDecodeError => Ok (JBool false)
    | Raise e => Raise e
    end.

(** The generator [stream_proxy] of the proxy, run to its end. *)
Definition proxy_stream (u : upstream) (r : proxy_request) (url : string) : gen string :=
  match client_stream u (method r) url (forwarded_headers (request_headers r))
          (request_body r) with
  | Raise e => Gen [] (Some e)
  | Ok g => g
  end.

(** [f"{client.base_url}/v1/{path_name}"] *)
Definition proxy_url (u : upstream) (r : proxy_request) : string :=
  base_url u +:+ "/v1/" +:+ path_name r.

(** The body of the [try] of [proxy_endpoint]. *)
Definition proxy_body (u : upstream) (r : proxy_request) : result proxy_reply :=
  let url := proxy_url u r in
  is_stream ← wants_stream u (request_body r);
  if truthy is_stream then
    let g := proxy_stream u r url in
    mret (ProxyStream (header_get "accept" "application/json" (request_headers r))
            (yielded g) (raised g))
  else
    response ← client_request u (method r) url
                 (forwarded_headers (request_headers r)) (request_body r);
    mret (ProxyResponse (answer_content response) (answer_status response)
            (answer_headers response)).

Definition proxy_endpoint (u : upstream) (r : proxy_request) : proxy_reply :=
  try_except (proxy_body u r)
    (λ e, ProxyError 500 ("Error proxying request: " +:+ exn_str u e)).

(** The HTTP status of a reply of the proxy: a streaming response is sent
    with 200. *)
Definition proxy_status (reply : proxy_reply) : Z :=
  match reply with
  | ProxyResponse _ status _ => status
  | ProxyStream _ _ _ => 200
  | ProxyError status _ => status
  end.

End Endpoints.

(** The entries that the loop over the legacy functions keeps: an entry
    whose name was seen is skipped, and the name of a kept entry is seen from
    then on. *)
Fixpoint keep_first (seen : list string) (fs : list pydict) : list pydict :=
  match fs with
  | [] => []
  | f :: fs' =>
      match cache_name f with
      | Some s =>
          if bool_decide (s ∈ seen) then keep_first seen fs'
          else f :: keep_first (seen ++ [s]) fs'
      | None => f :: keep_first seen fs'
      end
  end.

(** ** More sample data *)

Module MoreSamples.

(** A successful backend answer with one choice. *)
Definition one_choice : json :=
  JObj [("id", JStr "chatcmpl-1");
        ("choices",
         JArr [JObj [("finish_reason", JStr "stop");
                     ("message", JObj [("role", JStr "assistant");
                                       ("content", JStr "hi")])]])].

(** A successful backend answer without choices. *)
Definition no_choices : json := JObj [("id", JStr "chatcmpl-2"); ("choices", JArr [])].

(** A backend answer that finishes with tool calls and holds none. *)
Definition null_tool_calls : json :=
  JObj [("choices",
         JArr [JObj [("finish_reason", JStr "tool_calls");
                     ("message", JObj [("role", JStr "assistant");
                                       ("tool_calls", JNull)])]])].

Definition answering (response_data : json) (_ : pydict) : result http_response :=
  Ok (HttpResponse 200 (Ok response_data)).

(** A backend that answers every request with the given JSON body. *)
Definition backend (flag : bool) (cache : list pydict) (response_data : json) : world :=
  translated_world Samples.str flag cache (answering response_data)
    Samples.unavailable_stream Samples.completed Samples.no_events.

(** A backend whose stream is two chunks and no failure, reconstructed as
    two frames. *)
Definition two_chunks (_ : pydict) : result stream_response :=
  Ok (StreamResponse 200 (Gen ["data: a"; "data: [DONE]"] None) (Ok EmptyString)).

Definition two_frames (_ : stream_response) (_ : pydict) : gen frame :=
  Gen [Raw "event: response.created"; Raw "event: response.completed"] None.

Definition streaming_backend : world :=
  translated_world Samples.str false [] Samples.unavailable_post two_chunks
    Samples.completed two_frames.

(** A backend that answers one request as [Samples.echo_post] does and is
    down for every other request. *)
Definition picky_post (expected : pydict) (body : pydict) : result http_response :=
  if bool_decide (body = expected) then Samples.echo_post body
  else Raise (TransportError "connection refused").

Definition picky_stream (_ : pydict) : result stream_response :=
  Raise (TransportError "connection refused").

(** The backend request that the [/responses] endpoint makes of
    [Samples.echo_request]. *)
Definition echo_body : pydict :=
  [("model", JStr "m");
   ("messages", JArr [JObj [("role", JStr "user"); ("content", JStr "hello")]]);
   ("stream", JBool false)].

(** A registry entry without a name. *)
Definition nameless_function : pydict := [("description", JStr "no name")].

(** A request whose tools are null. *)
Definition request_with_null_tools : pydict :=
  [("model", JStr "m"); ("tools", JNull)].

(** A request whose stream flag is a text. *)
Definition request_with_text_stream : pydict :=
  [("model", JStr "m"); ("stream", JStr "false"); ("temperature", JNum 1)].

(** A [/responses] request whose input is a number. *)
Definition request_with_number_input : pydict :=
  [("model", JStr "m"); ("input", JNum 5)].

(** A chat request in the legacy shape: functions and no tools. *)
Definition legacy_functions : json :=
  JArr [JObj [("name", JStr "search")]; JObj [("name", JStr "fetch")]].

(** A proxy upstream that answers 404 to everything and parses no body. *)
Definition not_found : Endpoints.upstream :=
  Endpoints.Upstream "http://backend"
    (λ _, Raise JSONDecodeError)
    (λ _ _ h _, Ok (Endpoints.BackendAnswer "missing" 404 h))
    (λ _ _ _ _, Ok (Gen ["chunk"] None))
    Samples.str.

(** A proxy upstream whose parser reads every body as the list [[1]]. *)
Definition list_body : Endpoints.upstream :=
  Endpoints.Upstream "http://backend"
    (λ _, Ok (JArr [JNum 1]))
    (λ _ _ h _, Ok (Endpoints.BackendAnswer "ok" 200 h))
    (λ _ _ _ _, Ok (Gen ["chunk"] None))
    Samples.str.

(** A proxy upstream whose parser reads every body as [{"stream": true}] and
    whose stream breaks after one chunk. *)
Definition streaming_upstream : Endpoints.upstream :=
  Endpoints.Upstream "http://backend"
    (λ _, Ok (JObj [("stream", JBool true)]))
    (λ _ _ h _, Ok (Endpoints.BackendAnswer "ok" 200 h))
    (λ _ _ _ _, Ok (Gen ["chunk"] (Some (TransportError "reset"))))
    Samples.str.

Definition models_request : Endpoints.proxy_request :=
  Endpoints.ProxyRequest "POST" "embeddings"
    [("Host", "gateway:8080"); ("accept", "text/event-stream"); ("x-trace", "1")]
    "{}".

End MoreSamples.

(* ===================================================================== *)
(** * Dictionaries *)
(* ===================================================================== *)

Lemma dict_get_pop_eq k d : dict_get k (dict_pop k d) = None.
Proof.
  induction d as [|[k' v] d IH]; simpl; [done|].
  destruct (decide (k = k')) as [->|N]; simpl; [done|].
  by rewrite decide_False.
Qed.

Lemma dict_get_pop_ne k k' d : k ≠ k' → dict_get k' (dict_pop k d) = dict_get k' d.
Proof.
  intros N. induction d as [|[k0 v] d IH]; simpl; [done|].
  destruct (decide (k = k0)) as [->|N0]; simpl.
  - by rewrite decide_False.
  - by rewrite IH.
Qed.

Lemma dict_get_set_eq k v d : dict_get k (dict_set k v d) = Some v.
Proof.
  induction d as [|[k0 v0] d IH]; simpl.
  - by rewrite decide_True.
  - destruct (decide (k = k0)) as [->|N0]; simpl.
    + by rewrite decide_True.
    + by rewrite decide_False.
Qed.

Lemma dict_get_set_ne k k' v d : k ≠ k' → dict_get k' (dict_set k v d) = dict_get k' d.
Proof.
  intros N. induction d as [|[k0 v0] d IH]; simpl.
  - by rewrite decide_False.
  - destruct (decide (k = k0)) as [->|N0]; simpl.
    + by rewrite !decide_False.
    + by rewrite IH.
Qed.

Lemma dict_pop_absent k d : dict_get k d = None → dict_pop k d = d.
Proof.
  induction d as [|[k0 v0] d IH]; simpl; [done|].
  destruct (decide (k = k0)); [done|]. intros H. by rewrite IH.
Qed.

Lemma all_none_true r :
  ChatCompletionsService.all_none r = true ↔ Forall (λ v, v = JNull) (dict_values r).
Proof.
  unfold ChatCompletionsService.all_none. rewrite forallb_forall, Forall_forall.
  split; intros H v Hv.
  - apply list_elem_of_In in Hv. specialize (H v Hv). by apply bool_decide_eq_true in H.
  - apply list_elem_of_In in Hv. apply bool_decide_eq_true. by apply H.
Qed.

Lemma all_none_false r :
  ChatCompletionsService.all_none r = false ↔ Exists (λ v, v ≠ JNull) (dict_values r).
Proof.
  split.
  - intros H. apply not_Forall_Exists; [intros v; apply _|].
    intros F. apply all_none_true in F. congruence.
  - intros E. apply not_true_iff_false. intros T. apply all_none_true in T.
    apply Exists_exists in E as (v & Hv & N). rewrite Forall_forall in T. by apply N, T.
Qed.

Lemma strip_null_reasoning_other k d :
  k ≠ "reasoning" →
  dict_get k (ChatCompletionsService.strip_null_reasoning d) = dict_get k d.
Proof.
  intros N. unfold ChatCompletionsService.strip_null_reasoning.
  destruct (dict_get "reasoning" d) as [[]|]; try done.
  destruct (ChatCompletionsService.all_none fields); [|done].
  by apply dict_get_pop_ne.
Qed.

(* ===================================================================== *)
(** * What the handlers do to the store *)
(* ===================================================================== *)

Section Runs.

Import ChatCompletionsService.

Variable w : world.

Lemma non_streaming_run l σ d :
  heap σ !! l = Some d →
  _handle_non_streaming_request w l σ =
    let body := dict_pop "stream" (strip_null_reasoning d) in
    Some (try_except (post_and_inspect w body)
            (λ e, JObj [("error", JStr (py_str w e))]),
          State (<[fresh (dom (heap σ)) := body]> (heap σ))
                (calls σ ++ [CallPost body])).
Proof.
  intros H. unfold _handle_non_streaming_request, mbind, M_bind, mret, M_ret.
  unfold obj_copy. rewrite H. unfold obj_update, obj_read, record_call. simpl.
  rewrite !lookup_insert_eq. simpl. rewrite !lookup_insert_eq. simpl.
  rewrite !lookup_insert_eq.
  by rewrite !insert_insert_eq.
Qed.

Lemma streaming_run l σ d :
  heap σ !! l = Some d →
  _handle_streaming_request w l σ =
    let body := strip_null_reasoning (dict_set "stream" (JBool true) d) in
    Some (StreamingResponse (stream_proxy w body),
          State (<[fresh (dom (heap σ)) := body]> (heap σ))
                (calls σ ++ [CallStream body])).
Proof.
  intros H. unfold _handle_streaming_request, mbind, M_bind, mret, M_ret.
  unfold obj_copy. rewrite H. unfold obj_update, obj_read, record_call. simpl.
  rewrite !lookup_insert_eq. simpl. rewrite !lookup_insert_eq. simpl.
  rewrite !lookup_insert_eq.
  by rewrite !insert_insert_eq.
Qed.

Lemma chat_completions_run request_json :
  match inject_mcp_tools w request_json with
  | Raise e =>
      reply_of (handle_chat_completions w request_json) = Some (UnhandledException e) ∧
      requests_sent (handle_chat_completions w request_json) = []
  | Ok injected =>
      reply_of (handle_chat_completions w request_json) = Some (chat_reply w injected) ∧
      requests_sent (handle_chat_completions w request_json) = [chat_body injected]
  end.
Proof.
  unfold reply_of, requests_sent, handle_chat_completions.
  unfold mbind at 1 3 5 7, M_bind at 1 3 5 7, obj_alloc at 1 2 3 4.
  destruct (inject_mcp_tools w request_json) as [injected|e]; [|done].
  unfold mbind at 1 3, M_bind at 1 3, obj_update at 1 2. simpl heap.
  rewrite lookup_insert_eq, insert_insert_eq. simpl calls.
  unfold chat_reply, chat_body.
  destruct (truthy (dict_get_default "stream" (JBool false) injected)).
  - erewrite streaming_run by (simpl; apply lookup_insert_eq). done.
  - unfold mbind, M_bind.
    erewrite non_streaming_run by (simpl; apply lookup_insert_eq). done.
Qed.

Import ApiController.

Lemma create_response_run request_data :
  match prepare_chat_request w request_data with
  | Raise e =>
      reply_of (create_response w request_data) = Some (on_exception w e) ∧
      requests_sent (create_response w request_data) = []
  | Ok (chat_request, stream) =>
      if truthy stream then
        match py_len (dict_get_default "messages" (JArr []) chat_request) with
        | Raise e =>
            reply_of (create_response w request_data) =
              Some (StreamingResponse [error_event (py_str w e)]) ∧
            requests_sent (create_response w request_data) = []
        | Ok _ =>
            reply_of (create_response w request_data) =
              Some (StreamingResponse
                      (frames_of_stream w chat_request (llm_stream w chat_request))) ∧
            requests_sent (create_response w request_data) = [chat_request]
        end
      else
        reply_of (create_response w request_data) =
          Some match post_and_convert w chat_request with
               | Ok responses_response => JSONResponse 200 responses_response
               | Raise e =>
                   on_exception w
                     (HTTPException 500
                        ("Error processing non-streaming request: " +:+ py_str w e))
               end ∧
        requests_sent (create_response w request_data) = [chat_request]
  end.
Proof.
  unfold reply_of, requests_sent, create_response.
  destruct (prepare_chat_request w request_data) as [[chat_request stream]|e]; [|done].
  destruct (truthy stream); [|done].
  unfold stream_response, frames_of_stream.
  destruct (py_len _); done.
Qed.

End Runs.

(* ===================================================================== *)
(** * The handlers work on a copy *)
(* ===================================================================== *)

(** C10.  Both chat-completions handlers leave the caller's [request_data]
    as it was: whatever the object held before the call it holds after it,
    and so does every other object of the store.  The keys that are removed
    or forced are removed or forced in the copy, which is a new object. *)
Theorem handlers_leave_request_data_unchanged
    (w : world) (σ : state) (request_data : loc) (d : pydict) :
  heap σ !! request_data = Some d →
  (∃ reply σ',
     ChatCompletionsService._handle_non_streaming_request w request_data σ
       = Some (reply, σ') ∧
     heap σ' !! request_data = Some d ∧
     (∀ l, is_Some (heap σ !! l) → heap σ' !! l = heap σ !! l) ∧
     ∃ copy, copy ≠ request_data ∧ heap σ !! copy = None ∧
       heap σ' !! copy =
         Some (dict_pop "stream" (ChatCompletionsService.strip_null_reasoning d))) ∧
  (∃ reply σ',
     ChatCompletionsService._handle_streaming_request w request_data σ
       = Some (reply, σ') ∧
     heap σ' !! request_data = Some d ∧
     (∀ l, is_Some (heap σ !! l) → heap σ' !! l = heap σ !! l) ∧
     ∃ copy, copy ≠ request_data ∧ heap σ !! copy = None ∧
       heap σ' !! copy =
         Some (ChatCompletionsService.strip_null_reasoning
                 (dict_set "stream" (JBool true) d))).
Proof.
  intros H.
  assert (F : ∀ l, is_Some (heap σ !! l) → fresh (dom (heap σ)) ≠ l).
  { intros l Hl <-. apply elem_of_dom in Hl. by apply is_fresh in Hl. }
  assert (N : heap σ !! fresh (dom (heap σ)) = None).
  { apply not_elem_of_dom, is_fresh. }
  split.
  - rewrite (non_streaming_run w _ _ _ H). eexists _, _. split; [reflexivity|].
    simpl. repeat split.
    + rewrite lookup_insert_ne; [done|]. apply F. by rewrite H.
    + intros l Hl. rewrite lookup_insert_ne; [done|]. by apply F.
    + exists (fresh (dom (heap σ))). repeat split; [|done|apply lookup_insert_eq].
      apply F. by rewrite H.
  - rewrite (streaming_run w _ _ _ H). eexists _, _. split; [reflexivity|].
    simpl. repeat split.
    + rewrite lookup_insert_ne; [done|]. apply F. by rewrite H.
    + intros l Hl. rewrite lookup_insert_ne; [done|]. by apply F.
    + exists (fresh (dom (heap σ))). repeat split; [|done|apply lookup_insert_eq].
      apply F. by rewrite H.
Qed.

Lemma handlers_leave_request_data_unchanged_witness :
  heap Samples.one_object !! 0 = Some Samples.request_with_null_reasoning ∧
  ∃ reply σ',
    ChatCompletionsService._handle_non_streaming_request
      (Samples.unavailable false []) 0 Samples.one_object = Some (reply, σ') ∧
    heap σ' !! 0 = Some Samples.request_with_null_reasoning.
Proof.
  assert (H : heap Samples.one_object !! 0 = Some Samples.request_with_null_reasoning)
    by reflexivity.
  split; [exact H|].
  destruct (handlers_leave_request_data_unchanged
              (Samples.unavailable false []) Samples.one_object 0 _ H)
    as [(reply & σ' & E & K & _) _].
  exists reply, σ'. split; [exact E|exact K].
Defined.

(* ===================================================================== *)
(** * The reasoning field *)
(* ===================================================================== *)

(** C5.  A request whose [reasoning] field is a mapping: when every value of
    the mapping is null (an empty mapping included), the request that either
    chat-completions handler sends to the backend has no [reasoning] field;
    when some value is not null, the field is sent as it came. *)
Theorem null_reasoning_is_stripped
    (w : world) (σ : state) (request_data : loc) (d reasoning : pydict) :
  heap σ !! request_data = Some d →
  dict_get "reasoning" d = Some (JObj reasoning) →
  ∃ reply1 σ1 body1 reply2 σ2 body2,
    ChatCompletionsService._handle_non_streaming_request w request_data σ
      = Some (reply1, σ1) ∧
    calls σ1 = calls σ ++ [CallPost body1] ∧
    ChatCompletionsService._handle_streaming_request w request_data σ
      = Some (reply2, σ2) ∧
    calls σ2 = calls σ ++ [CallStream body2] ∧
    (Forall (λ v, v = JNull) (dict_values reasoning) →
     dict_get "reasoning" body1 = None ∧ dict_get "reasoning" body2 = None) ∧
    (Exists (λ v, v ≠ JNull) (dict_values reasoning) →
     dict_get "reasoning" body1 = Some (JObj reasoning) ∧
     dict_get "reasoning" body2 = Some (JObj reasoning)).
Proof.
  intros H R.
  rewrite (non_streaming_run w _ _ _ H), (streaming_run w _ _ _ H).
  eexists _, _, _, _, _, _.
  split; [reflexivity|]. split; [reflexivity|].
  split; [reflexivity|]. split; [reflexivity|].
  assert (R' : dict_get "reasoning" (dict_set "stream" (JBool true) d)
               = Some (JObj reasoning)) by (by rewrite dict_get_set_ne).
  split.
  - intros A. apply all_none_true in A.
    rewrite dict_get_pop_ne by done.
    unfold ChatCompletionsService.strip_null_reasoning. rewrite R, R', A.
    by rewrite !dict_get_pop_eq.
  - intros E. apply all_none_false in E.
    rewrite dict_get_pop_ne by done.
    unfold ChatCompletionsService.strip_null_reasoning. rewrite R, R', E.
    by rewrite R, R'.
Qed.

Lemma null_reasoning_is_stripped_witness :
  ∃ reply σ' body,
    ChatCompletionsService._handle_non_streaming_request
      (Samples.unavailable false []) 0 Samples.one_object = Some (reply, σ') ∧
    calls σ' = [CallPost body] ∧
    dict_get "reasoning" body = None.
Proof.
  destruct (null_reasoning_is_stripped (Samples.unavailable false [])
              Samples.one_object 0 Samples.request_with_null_reasoning
              [("effort", JNull); ("summary", JNull)] eq_refl eq_refl)
    as (reply1 & σ1 & body1 & reply2 & σ2 & body2 & E1 & C1 & E2 & C2 & A & B).
  exists reply1, σ1, body1. split; [exact E1|]. split; [exact C1|].
  apply A. repeat constructor.
Defined.

(* ===================================================================== *)
(** * The feature flag *)
(* ===================================================================== *)

(** The flag is off unless the environment sets it to 1, true or yes. *)
Lemma flag_is_off_by_default : Config.ENABLE_MCP_TOOLS None = false.
Proof. reflexivity. Qed.

Lemma flag_ignores_case :
  Config.ENABLE_MCP_TOOLS (Some "TRUE") = true ∧
  Config.ENABLE_MCP_TOOLS (Some "Yes") = true ∧
  Config.ENABLE_MCP_TOOLS (Some "on") = false.
Proof. repeat split; reflexivity. Qed.

Lemma prepare_with_flag_off w request_data :
  ENABLE_MCP_TOOLS w = false →
  ApiController.prepare_chat_request w request_data =
    (_ ← ApiController.log_input_summary request_data;
     chat_request ← convert_responses_to_chat_completions w request_data;
     mret (ApiController.drop_tool_choice chat_request,
           dict_get_default "stream" (JBool false) request_data)).
Proof.
  intros H. unfold ApiController.prepare_chat_request,
    ApiController.inject_into_request, ApiController.inject_into_chat_request.
  rewrite H, andb_false_r.
  destruct (ApiController.log_input_summary request_data); [|done]. simpl.
  destruct (convert_responses_to_chat_completions w request_data); done.
Qed.

(** C7.  With [ENABLE_MCP_TOOLS] off, the three injection steps return the
    request they are given: the [/responses] endpoint converts the client's
    request as it came and sends the converted request with nothing added,
    the chat-completions endpoint sends the client's [tools] as they came,
    and both endpoints behave the same whatever the registry cache holds. *)
Theorem disabled_flag_injects_nothing (w : world) (request_data : pydict) :
  ENABLE_MCP_TOOLS w = false →
  ApiController.inject_into_request w request_data = Ok request_data ∧
  (∀ chat_request,
     ApiController.inject_into_chat_request w chat_request = Ok chat_request) ∧
  ChatCompletionsService.inject_mcp_tools w request_data = Ok request_data ∧
  ApiController.prepare_chat_request w request_data =
    (_ ← ApiController.log_input_summary request_data;
     chat_request ← convert_responses_to_chat_completions w request_data;
     mret (ApiController.drop_tool_choice chat_request,
           dict_get_default "stream" (JBool false) request_data)) ∧
  (∃ body,
     requests_sent (ChatCompletionsService.handle_chat_completions w request_data)
       = [body] ∧
     dict_get "tools" body = dict_get "tools" request_data) ∧
  (∀ cache σ,
     ApiController.create_response (with_cache w cache) request_data σ
       = ApiController.create_response w request_data σ) ∧
  (∀ cache σ,
     ChatCompletionsService.handle_chat_completions (with_cache w cache) request_data σ
       = ChatCompletionsService.handle_chat_completions w request_data σ).
Proof.
  intros H.
  assert (I : ChatCompletionsService.inject_mcp_tools w request_data = Ok request_data).
  { unfold ChatCompletionsService.inject_mcp_tools. by rewrite H, andb_false_r. }
  split; [unfold ApiController.inject_into_request; by rewrite H, andb_false_r|].
  split; [intros c; unfold ApiController.inject_into_chat_request;
          by rewrite H, andb_false_r|].
  split; [exact I|].
  split; [by apply prepare_with_flag_off|].
  split; [|split].
  - pose proof (chat_completions_run w request_data) as R. rewrite I in R.
    destruct R as [_ R]. exists (chat_body request_data). split; [exact R|].
    unfold chat_body. destruct (truthy _).
    + rewrite strip_null_reasoning_other by done. by rewrite dict_get_set_ne.
    + rewrite dict_get_pop_ne by done. by rewrite strip_null_reasoning_other.
  - intros cache σ. unfold ApiController.create_response.
    rewrite !prepare_with_flag_off by done. reflexivity.
  - intros cache σ. unfold ChatCompletionsService.handle_chat_completions.
    assert (I' : ChatCompletionsService.inject_mcp_tools (with_cache w cache) request_data
                 = Ok request_data).
    { unfold ChatCompletionsService.inject_mcp_tools. simpl.
      by rewrite H, andb_false_r. }
    rewrite I, I'. reflexivity.
Qed.

Lemma disabled_flag_injects_nothing_witness :
  ENABLE_MCP_TOOLS (Samples.unavailable false [Samples.lookup_function]) = false ∧
  ∃ body,
    requests_sent (ChatCompletionsService.handle_chat_completions
                     (Samples.unavailable false [Samples.lookup_function])
                     Samples.request_with_tool_choice) = [body] ∧
    dict_get "tools" body = Some (JArr [Samples.flat_search_tool]).
Proof.
  split; [reflexivity|].
  destruct (disabled_flag_injects_nothing
              (Samples.unavailable false [Samples.lookup_function])
              Samples.request_with_tool_choice eq_refl)
    as (_ & _ & _ & _ & (body & E & T) & _).
  exists body. split; [exact E|]. rewrite T. reflexivity.
Defined.

(* ===================================================================== *)
(** * [tool_choice] *)
(* ===================================================================== *)

Lemma drop_tool_choice_drops chat_request :
  dict_get "tool_choice" (ApiController.drop_tool_choice chat_request) = None.
Proof. unfold ApiController.drop_tool_choice. apply dict_get_pop_eq. Qed.

Lemma drop_tool_choice_other k chat_request :
  k ≠ "tool_choice" →
  dict_get k (ApiController.drop_tool_choice chat_request) = dict_get k chat_request.
Proof.
  intros N. unfold ApiController.drop_tool_choice.
  rewrite dict_get_pop_ne by done.
  destruct (_ && _); [|done]. by rewrite dict_get_pop_ne.
Qed.

Lemma prepared_request_has_no_tool_choice w request_data chat_request stream :
  ApiController.prepare_chat_request w request_data = Ok (chat_request, stream) →
  dict_get "tool_choice" chat_request = None.
Proof.
  unfold ApiController.prepare_chat_request. intros H.
  destruct (ApiController.log_input_summary request_data); [|done]. simpl in H.
  destruct (ApiController.inject_into_request w request_data); [|done]. simpl in H.
  destruct (convert_responses_to_chat_completions w a0); [|done]. simpl in H.
  destruct (ApiController.inject_into_chat_request w a1); [|done]. simpl in H.
  injection H as <- _. apply drop_tool_choice_drops.
Qed.

(** C2, as the code has it.  No request that the [/responses] endpoint sends
    to the backend holds a [tool_choice] field, whether its tool list is
    empty or not and whatever the client supplied: the field is popped
    unconditionally before the request is sent. *)
Theorem tool_choice_is_never_sent (w : world) (request_data : pydict) :
  Forall (λ body, dict_get "tool_choice" body = None)
    (requests_sent (ApiController.create_response w request_data)) ∧
  match ApiController.prepare_chat_request w request_data with
  | Ok (chat_request, _) => dict_get "tool_choice" chat_request = None
  | Raise _ => True
  end.
Proof.
  pose proof (create_response_run w request_data) as R.
  pose proof (prepared_request_has_no_tool_choice w request_data) as P.
  destruct (ApiController.prepare_chat_request w request_data)
    as [[chat_request stream]|e].
  - specialize (P _ _ eq_refl). split; [|exact P].
    destruct (truthy stream).
    + destruct (py_len _); destruct R as [_ ->]; repeat constructor; exact P.
    + destruct R as [_ ->]. repeat constructor; exact P.
  - destruct R as [_ ->]. split; [constructor|exact I].
Qed.

(** C2, as the specification words it, fails: the client declares a tool and
    asks for [tool_choice] auto; the request sent has the tool and no
    [tool_choice]. *)
Lemma tool_choice_rule_fails :
  ∃ body,
    requests_sent (ApiController.create_response (Samples.unavailable false [])
                     Samples.request_with_tool_choice) = [body] ∧
    dict_get "tool_choice" Samples.request_with_tool_choice = Some (JStr "auto") ∧
    length (tools_of body) = 1 ∧
    dict_get "tool_choice" body = None ∧
    ¬ tool_choice_rule Samples.request_with_tool_choice body.
Proof.
  eexists. split; [vm_compute; reflexivity|].
  split; [reflexivity|]. split; [reflexivity|]. split; [reflexivity|].
  intros [[A _] _]. specialize (A eq_refl). discriminate A.
Qed.

(* ===================================================================== *)
(** * Failures of the backend, non-streaming *)
(* ===================================================================== *)

Lemma backend_failure_status w body response :
  llm_post w body = Ok response →
  raise_for_status response ≠ Ok tt →
  backend_failure w body = Some (HTTPStatusError (status_code response)).
Proof.
  intros P N. unfold backend_failure. rewrite P.
  unfold raise_for_status in *. destruct (_ && _); done.
Qed.

Lemma post_and_convert_fails w body e :
  backend_failure w body = Some e → ApiController.post_and_convert w body = Raise e.
Proof.
  unfold backend_failure, ApiController.post_and_convert.
  destruct (llm_post w body) as [response|e']; simpl; [|congruence].
  destruct (raise_for_status response); simpl; congruence.
Qed.

Lemma post_and_inspect_fails w body e :
  backend_failure w body = Some e →
  ChatCompletionsService.post_and_inspect w body = Raise e.
Proof.
  unfold backend_failure, ChatCompletionsService.post_and_inspect.
  destruct (llm_post w body) as [response|e']; simpl; [|congruence].
  destruct (raise_for_status response); simpl; congruence.
Qed.

(** Every reply of the [/responses] endpoint has status 200 or 500. *)
Lemma create_response_status w request_data reply :
  reply_of (ApiController.create_response w request_data) = Some reply →
  reply_status reply = 200%Z ∨ reply_status reply = 500%Z.
Proof.
  pose proof (create_response_run w request_data) as R.
  destruct (ApiController.prepare_chat_request w request_data)
    as [[chat_request stream]|e].
  - destruct (truthy stream).
    + destruct (py_len _); destruct R as [-> _]; intros [= <-]; by left.
    + destruct R as [-> _]. intros [= <-].
      destruct (ApiController.post_and_convert w chat_request); [by left|by right].
  - destruct R as [-> _]. intros [= <-]. by right.
Qed.

(** C4, as the code has it.  A non-streaming request whose backend call
    fails (the backend is unreachable or answers outside 2xx):
    [/responses] replies with status 500, whatever the backend's status was,
    and a detail that wraps the text of the failure twice;
    [/v1/chat/completions] replies with status 200 and the body
    [{"error": <text of the failure>}].  The backend's status is in the
    failure ([HTTPStatusError]) and reaches the client only through that
    text. *)
Theorem upstream_failure_replies (w : world) (request_data : pydict) (e : exn) :
  (∀ chat_request stream,
     ApiController.prepare_chat_request w request_data = Ok (chat_request, stream) →
     truthy stream = false →
     backend_failure w chat_request = Some e →
     reply_of (ApiController.create_response w request_data) =
       Some (ErrorResponse 500
               ("Error processing request: " +:+
                py_str w (HTTPException 500
                            ("Error processing non-streaming request: " +:+
                             py_str w e))))) ∧
  (∀ injected,
     ChatCompletionsService.inject_mcp_tools w request_data = Ok injected →
     truthy (dict_get_default "stream" (JBool false) injected) = false →
     backend_failure w (chat_body injected) = Some e →
     reply_of (ChatCompletionsService.handle_chat_completions w request_data) =
       Some (JSONResponse 200 (JObj [("error", JStr (py_str w e))]))) ∧
  (∀ body response,
     llm_post w body = Ok response →
     raise_for_status response ≠ Ok tt →
     backend_failure w body = Some (HTTPStatusError (status_code response))).
Proof.
  split; [|split].
  - intros chat_request stream P S F.
    pose proof (create_response_run w request_data) as R.
    rewrite P, S in R. destruct R as [-> _].
    by rewrite (post_and_convert_fails _ _ _ F).
  - intros injected I S F.
    pose proof (chat_completions_run w request_data) as R.
    rewrite I in R. destruct R as [-> _].
    unfold chat_reply. rewrite S.
    by rewrite (post_and_inspect_fails _ _ _ F).
  - apply backend_failure_status.
Qed.

Lemma upstream_failure_replies_witness :
  reply_of (ApiController.create_response (Samples.unavailable false [])
              Samples.plain_request) =
    Some (ErrorResponse 500
            "Error processing request: 500: Error processing non-streaming request: Server error 503") ∧
  reply_of (ChatCompletionsService.handle_chat_completions
              (Samples.unavailable false []) Samples.plain_request) =
    Some (JSONResponse 200 (JObj [("error", JStr "Server error 503")])).
Proof.
  destruct (upstream_failure_replies (Samples.unavailable false [])
              Samples.plain_request (HTTPStatusError 503)) as (A & B & _).
  split.
  - apply (A [("model", JStr "m"); ("messages", JArr []); ("stream", JBool false)]
             (JBool false)); reflexivity.
  - apply (B Samples.plain_request); reflexivity.
Defined.

(** C4, as the specification words it, fails on [/v1/chat/completions]: the
    backend answers 503 and the client gets a reply with status 200. *)
Lemma upstream_failure_is_not_always_a_server_error :
  ∃ reply,
    backend_failure (Samples.unavailable false []) (chat_body Samples.plain_request)
      = Some (HTTPStatusError 503) ∧
    requests_sent (ChatCompletionsService.handle_chat_completions
                     (Samples.unavailable false []) Samples.plain_request)
      = [chat_body Samples.plain_request] ∧
    reply_of (ChatCompletionsService.handle_chat_completions
                (Samples.unavailable false []) Samples.plain_request) = Some reply ∧
    reply_status reply = 200%Z ∧
    ¬ server_error reply.
Proof.
  eexists. split; [reflexivity|]. split; [reflexivity|].
  split; [vm_compute; reflexivity|]. split; [reflexivity|].
  unfold server_error. simpl. lia.
Qed.

(* ===================================================================== *)
(** * Failures of the backend, streaming *)
(* ===================================================================== *)

Lemma error_event_is_error m : is_error_frame (ApiController.error_event m) = true.
Proof. reflexivity. Qed.

Lemma error_chunk_is_error w e : is_error_frame (error_chunk w e) = true.
Proof. reflexivity. Qed.

Lemma count_error_frames_app l1 l2 :
  count_error_frames (l1 ++ l2) = count_error_frames l1 + count_error_frames l2.
Proof. unfold count_error_frames. by rewrite filter_app, length_app. Qed.







(* ===================================================================== *)
(** * Failures of the conversion *)
(* ===================================================================== *)

Lemma conversion_messages request_data model :
  dict_get "model" request_data = Some model →
  ∃ chat_request,
    ResponsesService.convert_responses_to_chat_completions request_data
      = Ok chat_request ∧
    dict_get "messages" chat_request =
      Some (JArr (omap ResponsesService.convert_item
                    (ResponsesService.input_items request_data))).
Proof.
  intros H. unfold ResponsesService.convert_responses_to_chat_completions.
  rewrite H. eexists. split; [reflexivity|].
  rewrite strip_null_reasoning_other by done.
  assert (S : ∀ k v d, k ≠ "messages" →
            dict_get "messages" (ResponsesService.dict_set_opt k v d)
            = dict_get "messages" d).
  { intros k [v|] d N; simpl; [|done]. by rewrite dict_get_set_ne. }
  rewrite S by done.
  destruct (nonempty _); [|reflexivity].
  rewrite S by done. by rewrite dict_get_set_ne.
Qed.

(** C6, as the code has it.  The conversion modelled from the
    specification fails exactly when [model] is absent, with
    [ValidationError]; with a model it succeeds whatever the input items are,
    and the items it cannot map leave no message.  The endpoint surfaces a
    failed conversion as a reply with status 500 and the detail
    [Error processing request: <text of the failure>], and sends nothing to the
    backend; no reply of the endpoint has a status other than 200 or 500. *)
Theorem conversion_failure_is_a_500 (w : world) (request_data : pydict) :
  ((∃ message,
      ResponsesService.convert_responses_to_chat_completions request_data
        = Raise (ValidationError message))
   ↔ dict_get "model" request_data = None) ∧
  (∀ model, dict_get "model" request_data = Some model →
     ∃ chat_request,
       ResponsesService.convert_responses_to_chat_completions request_data
         = Ok chat_request ∧
       dict_get "messages" chat_request =
         Some (JArr (omap ResponsesService.convert_item
                       (ResponsesService.input_items request_data)))) ∧
  (∀ injected e,
     ApiController.log_input_summary request_data = Ok tt →
     ApiController.inject_into_request w request_data = Ok injected →
     convert_responses_to_chat_completions w injected = Raise e →
     reply_of (ApiController.create_response w request_data) =
       Some (ErrorResponse 500 ("Error processing request: " +:+ py_str w e)) ∧
     requests_sent (ApiController.create_response w request_data) = []) ∧
  (∀ reply,
     reply_of (ApiController.create_response w request_data) = Some reply →
     reply_status reply = 200%Z ∨ reply_status reply = 500%Z).
Proof.
  split; [|split; [|split]].
  - unfold ResponsesService.convert_responses_to_chat_completions.
    destruct (dict_get "model" request_data); split; try done.
    + by intros [m ?].
    + intros _. by eexists.
  - apply conversion_messages.
  - intros injected e L I C.
    pose proof (create_response_run w request_data) as R.
    unfold ApiController.prepare_chat_request in R.
    rewrite L in R. simpl in R. rewrite I in R. simpl in R. rewrite C in R.
    exact R.
  - apply create_response_status.
Qed.

Lemma conversion_failure_is_a_500_witness :
  reply_of (ApiController.create_response (Samples.unavailable false [])
              Samples.request_without_model)
    = Some (ErrorResponse 500 "Error processing request: model is required") ∧
  ∃ chat_request,
    ResponsesService.convert_responses_to_chat_completions
      [("model", JStr "m"); ("input", JArr [JNum 7; Samples.hello_item; JObj []])]
      = Ok chat_request ∧
    dict_get "messages" chat_request =
      Some (JArr [JObj [("role", JStr "user"); ("content", JStr "hello")]]).
Proof.
  split.
  - destruct (conversion_failure_is_a_500 (Samples.unavailable false [])
                Samples.request_without_model) as (_ & _ & A & _).
    exact (proj1 (A Samples.request_without_model
                    (ValidationError "model is required") eq_refl eq_refl eq_refl)).
  - destruct (conversion_failure_is_a_500 (Samples.unavailable false [])
                [("model", JStr "m");
                 ("input", JArr [JNum 7; Samples.hello_item; JObj []])])
      as (_ & A & _).
    exact (A (JStr "m") eq_refl).
Defined.

(** C6, as the specification words it, fails: a request without [model]
    makes the conversion fail with [ValidationError], and the client gets a
    reply with status 500, which is not a client error. *)
Lemma validation_error_is_not_a_client_error :
  ∃ reply,
    ResponsesService.convert_responses_to_chat_completions
      Samples.request_without_model = Raise (ValidationError "model is required") ∧
    reply_of (ApiController.create_response (Samples.unavailable false [])
                Samples.request_without_model) = Some reply ∧
    reply_status reply = 500%Z ∧
    ¬ client_error reply.
Proof.
  eexists. split; [reflexivity|]. split; [reflexivity|]. split; [reflexivity|].
  unfold client_error. simpl. lia.
Qed.

(* ===================================================================== *)
(** * The merged tool list *)
(* ===================================================================== *)

Lemma comprehension_total {A B} (f : A → result (option B)) (g : A → option B) l :
  Forall (λ x, f x = Ok (g x)) l → comprehension f l = Ok (omap g l).
Proof.
  induction 1 as [|x l H F IH]; simpl; [done|].
  rewrite H. simpl. rewrite IH. simpl. by destruct (g x).
Qed.

Lemma set_mem_strings s ns : set_mem (JStr s) (map JStr ns) = bool_decide (s ∈ ns).
Proof.
  unfold set_mem. induction ns as [|n ns IH]; simpl.
  - done.
  - rewrite IH. destruct (decide (s = n)) as [->|N].
    + rewrite bool_decide_eq_true_2 by done. simpl. symmetry.
      apply bool_decide_eq_true. left.
    + rewrite (bool_decide_eq_false_2 (JStr s = JStr n)) by congruence. simpl.
      apply bool_decide_ext. rewrite elem_of_cons. split; [by right|by intros [?|?]].
Qed.

Lemma nested_name_inv tool s :
  nested_name tool = Some s →
  ∃ t f, tool = JObj t ∧ dict_get "function" t = Some (JObj f) ∧
         dict_get "name" f = Some (JStr s).
Proof.
  destruct tool as [| | | | |t]; try done. simpl.
  destruct (dict_get "function" t) as [fn|] eqn:E; [|done].
  destruct fn as [| | | | |f]; try done. simpl.
  destruct (dict_get "name" f) as [[]|] eqn:E'; try done.
  intros [= <-]. by exists t, f.
Qed.

Lemma cache_name_inv f s : cache_name f = Some s → dict_get "name" f = Some (JStr s).
Proof.
  unfold cache_name. simpl. destruct (dict_get "name" f) as [[]|]; try done. by intros [= <-].
Qed.

Lemma existing_tool_names_chat ts :
  Forall (λ t, is_Some (nested_name t)) ts →
  comprehension ChatCompletionsService.existing_tool_name ts
    = Ok (map JStr (omap nested_name ts)).
Proof.
  intros F.
  rewrite (comprehension_total _ (λ t, JStr <$> nested_name t)).
  - f_equal. clear F. induction ts as [|t ts IH]; simpl; [done|].
    destruct (nested_name t); simpl; [f_equal|]; exact IH.
  - eapply Forall_impl; [exact F|]. intros t [s H]. rewrite H.
    apply nested_name_inv in H as (d & f & -> & Hf & Hn).
    unfold ChatCompletionsService.existing_tool_name. simpl.
    unfold dict_get_default. rewrite Hf. simpl. unfold dict_get_default. rewrite Hn. done.
Qed.

Lemma add_mcp_tool_step ns acc f s :
  cache_name f = Some s →
  ChatCompletionsService.add_mcp_tool (map JStr ns) (JArr acc) f
    = Ok (JArr (if bool_decide (s ∈ ns) then acc else acc ++ [wrap_function f])).
Proof.
  intros H. unfold ChatCompletionsService.add_mcp_tool, dict_get_default.
  rewrite (cache_name_inv _ _ H). unfold py_in_set. simpl.
  rewrite set_mem_strings. by destruct (bool_decide (s ∈ ns)).
Qed.

Lemma not_declared_cons ns f cache s :
  cache_name f = Some s →
  not_declared ns (f :: cache) =
    if bool_decide (s ∈ ns) then not_declared ns cache else f :: not_declared ns cache.
Proof.
  intros H. unfold not_declared. rewrite filter_cons.
  assert (E : is_new ns f = bool_decide (s ∉ ns)) by (unfold is_new; by rewrite H).
  destruct (decide (is_new ns f = true)) as [Y|Y]; rewrite E in Y.
  - apply bool_decide_eq_true in Y. by rewrite bool_decide_eq_false_2.
  - rewrite bool_decide_eq_true_2; [done|].
    destruct (decide (s ∈ ns)); [done|]. exfalso. apply Y. by apply bool_decide_eq_true.
Qed.

Lemma add_mcp_tools_chat ns cache acc :
  Forall (λ f, is_Some (cache_name f)) cache →
  for_each (ChatCompletionsService.add_mcp_tool (map JStr ns)) cache (JArr acc)
    = Ok (JArr (acc ++ map wrap_function (not_declared ns cache))).
Proof.
  intros F. revert acc. induction F as [|f cache [s H] F IH]; intros acc.
  - simpl. by rewrite app_nil_r.
  - cbn [for_each]. rewrite (add_mcp_tool_step _ _ _ _ H).
    rewrite (not_declared_cons _ _ _ _ H). cbn [mbind result_bind].
    rewrite IH. destruct (bool_decide (s ∈ ns)); [done|].
    simpl. by rewrite <- app_assoc.
Qed.

Lemma inject_mcp_tools_merged w request_data ts :
  dict_get_default "tools" (JArr []) request_data = JArr ts →
  Forall (λ t, is_Some (nested_name t)) ts →
  Forall (λ f, is_Some (cache_name f)) (mcp_functions_cache w) →
  ∃ injected,
    ChatCompletionsService.inject_mcp_tools w request_data = Ok injected ∧
    tools_of injected
      = ts ++ map wrap_function (not_declared (omap nested_name ts) (registry w)) ∧
    dict_get "stream" injected = dict_get "stream" request_data.
Proof.
  intros T Fts Fc. unfold ChatCompletionsService.inject_mcp_tools, registry, get_mcp_tools.
  assert (T0 : tools_of request_data = ts).
  { unfold tools_of. unfold dict_get_default in T.
    destruct (dict_get "tools" request_data); [by subst|]. by injection T as <-. }
  destruct (ENABLE_MCP_TOOLS w).
  - destruct (mcp_functions_cache w) as [|f cache] eqn:C.
    + simpl. eexists. split; [reflexivity|]. by rewrite app_nil_r.
    + cbn [nonempty andb]. rewrite T. cbn [py_iter mbind result_bind].
      rewrite (existing_tool_names_chat _ Fts). cbn [mbind result_bind].
      rewrite (add_mcp_tools_chat _ _ _ Fc). cbn [mbind result_bind mret result_ret].
      eexists. split; [reflexivity|]. split.
      * unfold tools_of. by rewrite dict_get_set_eq.
      * by rewrite dict_get_set_ne.
  - rewrite andb_false_r. eexists. split; [reflexivity|]. by rewrite app_nil_r.
Qed.

Lemma names_of_filtered (P : pydict → Prop) `{∀ f, Decision (P f)}
    (cache : list pydict) (s : string) :
  s ∈ omap cache_name (filter P cache) → s ∈ omap cache_name cache.
Proof.
  rewrite !list_elem_of_omap. intros (f & I & E). exists f. split; [|done].
  by apply list_elem_of_filter in I as [_ I].
Qed.

Lemma not_declared_names ns (cache : list pydict) (s : string) :
  s ∈ omap cache_name (not_declared ns cache) → s ∉ ns.
Proof.
  rewrite list_elem_of_omap. intros (f & I & E).
  apply list_elem_of_filter in I as [I _]. unfold is_new in I. rewrite E in I.
  by apply bool_decide_eq_true in I.
Qed.

Lemma not_declared_NoDup ns cache :
  NoDup (omap cache_name cache) → NoDup (omap cache_name (not_declared ns cache)).
Proof.
  unfold not_declared. induction cache as [|f cache IH]; [done|].
  rewrite filter_cons. cbn [omap list_omap].
  destruct (cache_name f) as [s|] eqn:E.
  - intros N. apply NoDup_cons in N as [N1 N2].
    destruct (decide _); [|by apply IH].
    cbn [omap list_omap]. rewrite E. apply NoDup_cons. split; [|by apply IH].
    intros I. apply N1. eapply names_of_filtered, I.
  - intros N. destruct (decide _); [|by apply IH].
    cbn [omap list_omap]. rewrite E. by apply IH.
Qed.

Lemma merged_NoDup ns cache :
  NoDup ns → NoDup (omap cache_name cache) →
  NoDup (ns ++ omap cache_name (not_declared ns cache)).
Proof.
  intros N1 N2. apply NoDup_app. split; [done|]. split.
  - intros s I J. by apply not_declared_names in J.
  - by apply not_declared_NoDup.
Qed.

Lemma names_of_wrapped cache :
  omap nested_name (map wrap_function cache) = omap cache_name cache.
Proof. induction cache as [|f cache IH]; [done|]. cbn [map omap list_omap].
  change (nested_name (wrap_function f)) with (cache_name f).
  destruct (cache_name f); [f_equal|]; exact IH.
Qed.

Lemma flat_name_inv tool s :
  flat_name tool = Some s → ∃ t, tool = JObj t ∧ dict_get "name" t = Some (JStr s).
Proof.
  destruct tool as [| | | | |t]; try done. simpl.
  destruct (dict_get "name" t) as [[]|] eqn:E; try done.
  intros [= <-]. by exists t.
Qed.

Lemma omap_fmap_names {A} (name : A → option string) (l : list A) :
  omap (λ x, JStr <$> name x) l = map JStr (omap name l).
Proof.
  induction l as [|x l IH]; [done|]. cbn [omap list_omap map].
  destruct (name x); simpl; [f_equal|]; exact IH.
Qed.

Lemma mcp_tools_of_cache cache :
  Forall (λ f, is_Some (cache_name f)) cache →
  comprehension ApiController.mcp_tool_of cache = Ok (map flat_function cache).
Proof.
  intros F. rewrite (comprehension_total _ (λ f, Some (flat_function f))).
  - reflexivity.
  - eapply Forall_impl; [exact F|]. intros f [s H].
    pose proof (cache_name_inv _ _ H) as Hn.
    unfold ApiController.mcp_tool_of, flat_function, py_getitem, dict_get_default.
    by rewrite Hn.
Qed.

Lemma declared_names_of ts :
  Forall (λ t, is_Some (flat_name t)) ts →
  comprehension ApiController.declared_name ts = Ok (map JStr (omap flat_name ts)).
Proof.
  intros F. rewrite (comprehension_total _ (λ t, JStr <$> flat_name t)).
  - by rewrite omap_fmap_names.
  - eapply Forall_impl; [exact F|]. intros t [s H]. rewrite H.
    apply flat_name_inv in H as (d & -> & Hn).
    unfold ApiController.declared_name, py_contains, py_getitem, dict_has.
    by rewrite Hn.
Qed.

Lemma name_of_flat_function f s :
  cache_name f = Some s → py_getitem "name" (flat_function f) = Ok (JStr s).
Proof.
  intros H. pose proof (cache_name_inv _ _ H) as Hn.
  unfold flat_function, dict_get_default. rewrite Hn. reflexivity.
Qed.

Lemma keep_if_new_step ns f s :
  cache_name f = Some s →
  ApiController.keep_if_new (map JStr ns) (flat_function f)
    = Ok (if bool_decide (s ∈ ns) then None else Some (flat_function f)).
Proof.
  intros H. unfold ApiController.keep_if_new.
  rewrite (name_of_flat_function _ _ H). cbn [mbind result_bind].
  unfold py_in_set. cbn [py_hash hashable mbind result_bind].
  rewrite set_mem_strings. by destruct (bool_decide (s ∈ ns)).
Qed.

Lemma keep_new_of ns cache :
  Forall (λ f, is_Some (cache_name f)) cache →
  comprehension (ApiController.keep_if_new (map JStr ns)) (map flat_function cache)
    = Ok (map flat_function (not_declared ns cache)).
Proof.
  induction 1 as [|f cache [s H] F IH]; [done|].
  cbn [map comprehension]. rewrite IH, (not_declared_cons _ _ _ _ H).
  rewrite (keep_if_new_step _ _ _ H).
  by destruct (bool_decide (s ∈ ns)).
Qed.

Lemma inject_into_request_merged w request_data ts :
  dict_get_default "tools" (JArr []) request_data = JArr ts →
  Forall (λ t, is_Some (flat_name t)) ts →
  Forall (λ f, is_Some (cache_name f)) (mcp_functions_cache w) →
  ∃ injected,
    ApiController.inject_into_request w request_data = Ok injected ∧
    dict_get_default "tools" (JArr []) injected
      = JArr (ts ++ map flat_function (not_declared (omap flat_name ts) (registry w))) ∧
    ∀ k, k ≠ "tools" → dict_get k injected = dict_get k request_data.
Proof.
  intros T Fts Fc. unfold ApiController.inject_into_request, registry.
  destruct (ENABLE_MCP_TOOLS w).
  - destruct (mcp_functions_cache w) as [|f cache] eqn:C.
    + simpl. eexists. split; [reflexivity|]. by rewrite app_nil_r.
    + cbn [nonempty andb]. rewrite T.
      rewrite (mcp_tools_of_cache _ Fc). cbn [py_iter mbind result_bind].
      rewrite (declared_names_of _ Fts). cbn [mbind result_bind].
      rewrite (keep_new_of _ _ Fc). cbn [mbind result_bind mret result_ret py_list_add].
      eexists. split; [reflexivity|]. split.
      * unfold dict_get_default. by rewrite dict_get_set_eq.
      * intros k N. by rewrite dict_get_set_ne.
  - rewrite andb_false_r. eexists. split; [reflexivity|]. by rewrite app_nil_r.
Qed.

Lemma dict_get_set_opt_ne k k' v d :
  k ≠ k' → dict_get k' (ResponsesService.dict_set_opt k v d) = dict_get k' d.
Proof. intros N. destruct v; simpl; [by rewrite dict_get_set_ne|done]. Qed.

Lemma tools_default_declared request_data l :
  dict_get_default "tools" (JArr []) request_data = JArr l →
  ResponsesService.declared_tools request_data = l.
Proof.
  unfold dict_get_default, ResponsesService.declared_tools.
  destruct (dict_get "tools" request_data); [by intros ->|by intros [= <-]].
Qed.

Lemma converted_request request_data model l :
  dict_get "model" request_data = Some model →
  dict_get_default "tools" (JArr []) request_data = JArr l →
  ∃ chat_request,
    ResponsesService.convert_responses_to_chat_completions request_data
      = Ok chat_request ∧
    dict_get_default "tools" (JArr []) chat_request
      = JArr (omap ResponsesService.nest_tool l) ∧
    dict_get "functions" chat_request = None ∧
    ∃ messages, dict_get "messages" chat_request = Some (JArr messages).
Proof.
  intros Hm Ht. unfold ResponsesService.convert_responses_to_chat_completions.
  rewrite Hm, (tools_default_declared _ _ Ht). eexists. split; [reflexivity|].
  unfold dict_get_default.
  rewrite !strip_null_reasoning_other by done.
  rewrite !dict_get_set_opt_ne by done.
  destruct (omap ResponsesService.nest_tool l) as [|t ts] eqn:E; cbn [nonempty].
  - split; [reflexivity|]. split; [reflexivity|]. by eexists.
  - rewrite !dict_get_set_opt_ne by done.
    rewrite dict_get_set_eq, !dict_get_set_ne by done.
    split; [reflexivity|]. split; [reflexivity|]. by eexists.
Qed.

Lemma note_tool_name_step acc tool s :
  nested_name tool = Some s →
  ApiController.note_tool_name acc tool = Ok (acc ++ [JStr s]).
Proof.
  intros H. apply nested_name_inv in H as (t & f & -> & Hf & Hn).
  unfold ApiController.note_tool_name. rewrite Hf.
  unfold py_contains, py_getitem, dict_has. by rewrite Hn.
Qed.

Lemma note_tool_names acc tools :
  Forall (λ t, is_Some (nested_name t)) tools →
  for_each ApiController.note_tool_name tools acc
    = Ok (acc ++ map JStr (omap nested_name tools)).
Proof.
  intros F. revert acc. induction F as [|t tools [s H] F IH]; intros acc.
  - simpl. by rewrite app_nil_r.
  - cbn [for_each]. rewrite (note_tool_name_step _ _ _ H). cbn [mbind result_bind].
    rewrite IH. cbn [omap list_omap]. rewrite H. simpl. by rewrite <- app_assoc.
Qed.

Lemma inject_into_chat_request_merged w chat_request tools :
  dict_get_default "tools" (JArr []) chat_request = JArr tools →
  dict_get "functions" chat_request = None →
  Forall (λ t, is_Some (nested_name t)) tools →
  Forall (λ f, is_Some (cache_name f)) (mcp_functions_cache w) →
  ∃ injected,
    ApiController.inject_into_chat_request w chat_request = Ok injected ∧
    dict_get_default "tools" (JArr []) injected
      = JArr (tools ++ map wrap_function
                         (not_declared (omap nested_name tools) (registry w))) ∧
    ∀ k, k ≠ "tools" → k ≠ "functions" → dict_get k injected = dict_get k chat_request.
Proof.
  intros T Fn Ft Fc. unfold ApiController.inject_into_chat_request, registry.
  destruct (ENABLE_MCP_TOOLS w).
  - destruct (nonempty (mcp_functions_cache w)) eqn:NE.
    + cbn [andb].
      set (cr := if dict_has "tools" chat_request then chat_request
                 else dict_set "tools" (JArr []) chat_request).
      assert (T' : dict_get_default "tools" (JArr []) cr = JArr tools).
      { unfold cr, dict_has. destruct (dict_get "tools" chat_request) eqn:E; [exact T|].
        unfold dict_get_default in *. rewrite E in T. by rewrite dict_get_set_eq. }
      rewrite T'. cbn [py_iter mbind result_bind].
      rewrite (note_tool_names _ _ Ft). cbn [mbind result_bind app].
      unfold dict_get_default at 1. rewrite Fn. cbn [py_iter mbind result_bind for_each].
      change ApiController.add_mcp_function with ChatCompletionsService.add_mcp_tool.
      rewrite (add_mcp_tools_chat _ _ _ Fc). cbn [mbind result_bind mret result_ret].
      eexists. split; [reflexivity|]. split.
      * unfold dict_get_default. rewrite dict_get_pop_ne by done.
        by rewrite dict_get_set_eq.
      * intros k N1 N2. rewrite dict_get_pop_ne by done.
        rewrite dict_get_set_ne by done. unfold cr.
        destruct (dict_has "tools" chat_request); [done|]. by rewrite dict_get_set_ne.
    + destruct (mcp_functions_cache w); [|done].
      simpl. eexists. split; [reflexivity|]. by rewrite app_nil_r.
  - rewrite andb_false_r. eexists. split; [reflexivity|]. by rewrite app_nil_r.
Qed.

Lemma not_declared_all ns (cache : list pydict) :
  (∀ f, f ∈ cache → ∃ s, cache_name f = Some s ∧ s ∈ ns) →
  not_declared ns cache = [].
Proof.
  induction cache as [|f cache IH]; [done|]. intros H.
  destruct (H f) as (s & E & I); [left|].
  rewrite (not_declared_cons _ _ _ _ E), bool_decide_eq_true_2 by done.
  apply IH. intros g G. apply H. by right.
Qed.

Lemma tools_of_default body tools :
  dict_get_default "tools" (JArr []) body = JArr tools → tools_of body = tools.
Proof.
  unfold dict_get_default, tools_of.
  destruct (dict_get "tools" body); [by intros ->|by intros [= <-]].
Qed.

Lemma nested_name_of_nested f :
  nested_name (flat_then_nested f) = cache_name f.
Proof.
  unfold cache_name, flat_then_nested, dict_get_default. simpl.
  by destruct (dict_get "name" f) as [[]|].
Qed.

Lemma nest_flat_function f :
  ResponsesService.nest_tool (flat_function f) = Some (flat_then_nested f).
Proof. reflexivity. Qed.

Lemma nest_declared_tool t s :
  flat_name t = Some s →
  ∃ n, ResponsesService.nest_tool t = Some n ∧ nested_name n = Some s.
Proof.
  intros H. apply flat_name_inv in H as (d & -> & Hn).
  eexists. split; [reflexivity|]. simpl. unfold dict_get_default. by rewrite Hn.
Qed.

Lemma nested_declared_tools ts :
  Forall (λ t, is_Some (flat_name t)) ts →
  Forall (λ t, is_Some (nested_name t)) (omap ResponsesService.nest_tool ts) ∧
  omap nested_name (omap ResponsesService.nest_tool ts) = omap flat_name ts.
Proof.
  induction 1 as [|t ts [s H] F [IH1 IH2]]; [done|].
  destruct (nest_declared_tool _ _ H) as (n & E & N).
  cbn [omap list_omap]. rewrite E, H. cbn [omap list_omap]. rewrite N. split.
  - constructor; [by rewrite N|exact IH1].
  - f_equal. exact IH2.
Qed.

Lemma nested_registry_tools (cache : list pydict) :
  Forall (λ f, is_Some (cache_name f)) cache →
  omap ResponsesService.nest_tool (map flat_function cache) = map flat_then_nested cache ∧
  Forall (λ t, is_Some (nested_name t)) (map flat_then_nested cache) ∧
  omap nested_name (map flat_then_nested cache) = omap cache_name cache.
Proof.
  induction 1 as [|f cache [s H] F (IH1 & IH2 & IH3)]; [done|].
  cbn [map omap list_omap]. rewrite nest_flat_function, nested_name_of_nested, H.
  split; [by f_equal|]. split; [|by f_equal].
  constructor; [by rewrite nested_name_of_nested, H|exact IH2].
Qed.

Lemma not_declared_named ns (cache : list pydict) :
  Forall (λ f, is_Some (cache_name f)) cache →
  Forall (λ f, is_Some (cache_name f)) (not_declared ns cache).
Proof.
  rewrite !Forall_forall. intros H f I. apply H.
  by apply list_elem_of_filter in I as [_ I].
Qed.

Lemma not_declared_complete ns (cache : list pydict) f s :
  f ∈ cache → cache_name f = Some s →
  s ∈ ns ++ omap cache_name (not_declared ns cache).
Proof.
  intros I E. destruct (decide (s ∈ ns)) as [Y|N]; apply elem_of_app; [by left|right].
  apply list_elem_of_omap. exists f. split; [|done].
  apply list_elem_of_filter. split; [|done].
  unfold is_new. rewrite E. by apply bool_decide_eq_true.
Qed.

Lemma registry_named w :
  Forall (λ f, is_Some (cache_name f)) (mcp_functions_cache w) →
  Forall (λ f, is_Some (cache_name f)) (registry w).
Proof. unfold registry. by destruct (ENABLE_MCP_TOOLS w). Qed.

Lemma responses_tools_merged w request_data ts model :
  convert_responses_to_chat_completions w
    = ResponsesService.convert_responses_to_chat_completions →
  dict_get "model" request_data = Some model →
  ApiController.log_input_summary request_data = Ok tt →
  dict_get_default "tools" (JArr []) request_data = JArr ts →
  Forall (λ t, is_Some (flat_name t)) ts →
  Forall (λ f, is_Some (cache_name f)) (mcp_functions_cache w) →
  ∃ body,
    requests_sent (ApiController.create_response w request_data) = [body] ∧
    tools_of body
      = omap ResponsesService.nest_tool ts ++
        map flat_then_nested (not_declared (omap flat_name ts) (registry w)).
Proof.
  intros Hc Hm Hl Ht Fts Fc.
  destruct (inject_into_request_merged w _ _ Ht Fts Fc) as (inj1 & E1 & T1 & K1).
  assert (Hm1 : dict_get "model" inj1 = Some model) by (by rewrite K1).
  destruct (converted_request _ _ _ Hm1 T1) as (cr & E2 & T2 & Fn & ms & Ms).
  set (new := not_declared (omap flat_name ts) (registry w)) in *.
  assert (Fnew : Forall (λ f, is_Some (cache_name f)) new)
    by (by apply not_declared_named, registry_named).
  destruct (nested_declared_tools _ Fts) as [N1 N2].
  destruct (nested_registry_tools _ Fnew) as (R1 & R2 & R3).
  rewrite omap_app, R1 in T2.
  assert (Fall : Forall (λ t, is_Some (nested_name t))
                   (omap ResponsesService.nest_tool ts ++ map flat_then_nested new))
    by (by apply Forall_app).
  destruct (inject_into_chat_request_merged w _ _ T2 Fn Fall Fc) as (inj2 & E3 & T3 & K3).
  rewrite not_declared_all, app_nil_r in T3.
  2:{ intros f I.
      assert (I' : f ∈ mcp_functions_cache w).
      { unfold registry in I. destruct (ENABLE_MCP_TOOLS w); [done|]. by inversion I. }
      rewrite Forall_forall in Fc. destruct (Fc f I') as [s E]. exists s. split; [done|].
      rewrite omap_app, N2, R3. by apply not_declared_complete with f. }
  exists (ApiController.drop_tool_choice inj2). split.
  - pose proof (create_response_run w request_data) as R.
    unfold ApiController.prepare_chat_request in R.
    rewrite Hl in R. cbn [mbind result_bind] in R. rewrite E1 in R.
    cbn [mbind result_bind] in R. rewrite Hc, E2 in R.
    cbn [mbind result_bind] in R. rewrite E3 in R.
    cbn [mbind result_bind mret result_ret] in R.
    destruct (truthy _); [|by destruct R].
    unfold dict_get_default at 1 in R.
    rewrite drop_tool_choice_other, K3, Ms in R by done. by destruct R.
  - apply tools_of_default. unfold dict_get_default.
    rewrite drop_tool_choice_other by done. exact T3.
Qed.

Lemma chat_body_tools injected : tools_of (chat_body injected) = tools_of injected.
Proof.
  unfold tools_of, chat_body. destruct (truthy _).
  - rewrite strip_null_reasoning_other by done. by rewrite dict_get_set_ne.
  - rewrite dict_get_pop_ne by done. by rewrite strip_null_reasoning_other.
Qed.

Lemma merged_names_distinct (declared : list string) (new : list pydict) tools :
  omap nested_name tools = declared ++ omap cache_name (not_declared declared new) →
  NoDup declared → NoDup (omap cache_name new) → distinct_names tools.
Proof. intros E N1 N2. unfold distinct_names. rewrite E. by apply merged_NoDup. Qed.

(** C1, as the code has it.  On both endpoints the tool list sent to the
    backend is the client's tool list, in order and (on [/responses]) in the
    nested shape, followed by those registry tools whose name no client tool
    has: a registry tool whose name the client declared is dropped and the
    client's definition stays.  The list has no two entries with the same
    function name when the client's names are pairwise distinct and the
    registry's names are pairwise distinct; neither endpoint removes a
    duplicate that is inside one of the two sources. *)
Theorem merged_tools_keep_client_definitions
    (w : world) (request_data : pydict) (ts : list json) :
  dict_get_default "tools" (JArr []) request_data = JArr ts →
  Forall (λ f, is_Some (cache_name f)) (mcp_functions_cache w) →
  (Forall (λ t, is_Some (nested_name t)) ts →
   ∃ body,
     requests_sent (ChatCompletionsService.handle_chat_completions w request_data)
       = [body] ∧
     tools_of body
       = ts ++ map wrap_function (not_declared (omap nested_name ts) (registry w)) ∧
     (NoDup (omap nested_name ts) → NoDup (omap cache_name (registry w)) →
      distinct_names (tools_of body))) ∧
  (Forall (λ t, is_Some (flat_name t)) ts →
   convert_responses_to_chat_completions w
     = ResponsesService.convert_responses_to_chat_completions →
   is_Some (dict_get "model" request_data) →
   ApiController.log_input_summary request_data = Ok tt →
   ∃ body,
     requests_sent (ApiController.create_response w request_data) = [body] ∧
     tools_of body
       = omap ResponsesService.nest_tool ts ++
         map flat_then_nested (not_declared (omap flat_name ts) (registry w)) ∧
     (NoDup (omap flat_name ts) → NoDup (omap cache_name (registry w)) →
      distinct_names (tools_of body))).
Proof.
  intros Ht Fc. split.
  - intros Fts.
    destruct (inject_mcp_tools_merged w _ _ Ht Fts Fc) as (injected & E & T & _).
    pose proof (chat_completions_run w request_data) as R. rewrite E in R.
    destruct R as [_ R]. exists (chat_body injected). split; [exact R|].
    rewrite chat_body_tools. split; [exact T|].
    apply merged_names_distinct. rewrite T, omap_app. f_equal. apply names_of_wrapped.
  - intros Fts Hc [model Hm] Hl.
    destruct (responses_tools_merged w _ _ _ Hc Hm Hl Ht Fts Fc) as (body & E & T).
    exists body. split; [exact E|]. split; [exact T|].
    apply merged_names_distinct. rewrite T, omap_app.
    destruct (nested_declared_tools _ Fts) as [_ ->]. f_equal.
    apply nested_registry_tools, not_declared_named, registry_named, Fc.
Qed.

Lemma merged_tools_keep_client_definitions_witness :
  (∃ body,
     requests_sent (ChatCompletionsService.handle_chat_completions
                      (Samples.unavailable true
                         [Samples.search_function; Samples.lookup_function])
                      Samples.request_with_search) = [body] ∧
     tools_of body = [Samples.search_tool; wrap_function Samples.lookup_function] ∧
     distinct_names (tools_of body)) ∧
  (∃ body,
     requests_sent (ApiController.create_response
                      (Samples.unavailable true
                         [Samples.search_function; Samples.lookup_function])
                      Samples.request_with_tool_choice) = [body] ∧
     omap nested_name (tools_of body) = ["search"; "lookup"] ∧
     distinct_names (tools_of body)).
Proof.
  assert (Fc : Forall (λ f, is_Some (cache_name f))
                 [Samples.search_function; Samples.lookup_function])
    by (repeat constructor; by eexists).
  assert (N1 : NoDup ["search"]) by compute_done.
  assert (N2 : NoDup ["search"; "lookup"]) by compute_done.
  split.
  - destruct (merged_tools_keep_client_definitions
                (Samples.unavailable true
                   [Samples.search_function; Samples.lookup_function])
                Samples.request_with_search [Samples.search_tool] eq_refl Fc)
      as [A _].
    destruct A as (body & E & T & D); [repeat constructor; by eexists|].
    exists body. split; [exact E|]. split; [exact T|]. by apply D.
  - destruct (merged_tools_keep_client_definitions
                (Samples.unavailable true
                   [Samples.search_function; Samples.lookup_function])
                Samples.request_with_tool_choice [Samples.flat_search_tool] eq_refl Fc)
      as [_ A].
    destruct A as (body & E & T & D);
      [repeat constructor; by eexists|reflexivity|by eexists|reflexivity|].
    exists body. split; [exact E|]. split; [by rewrite T|]. by apply D.
Defined.

(** C1, as the specification words it, fails: the client declares the tool
    [search] twice; on both endpoints the tool list sent to the backend holds
    both entries, next to the registry tool. *)
Lemma client_duplicates_are_sent :
  (∃ body,
     requests_sent (ChatCompletionsService.handle_chat_completions
                      (Samples.unavailable true [Samples.lookup_function])
                      Samples.request_with_duplicates) = [body] ∧
     tools_of body = [Samples.search_tool; Samples.search_tool;
                      wrap_function Samples.lookup_function] ∧
     ¬ distinct_names (tools_of body)) ∧
  (∃ body,
     requests_sent (ApiController.create_response
                      (Samples.unavailable true [Samples.lookup_function])
                      Samples.flat_request_with_duplicates) = [body] ∧
     omap nested_name (tools_of body) = ["search"; "search"; "lookup"] ∧
     ¬ distinct_names (tools_of body)).
Proof.
  split; eexists; (split; [vm_compute; reflexivity|]); (split; [reflexivity|]);
    intros N; apply NoDup_cons in N as [N _]; apply N; left.
Qed.

(** The registry is not searched for duplicates either: two registry entries
    with one name are both appended. *)
Lemma registry_duplicates_are_sent :
  ∃ body,
    requests_sent (ChatCompletionsService.handle_chat_completions
                     (Samples.unavailable true
                        [Samples.lookup_function; Samples.lookup_function])
                     Samples.plain_request) = [body] ∧
    omap nested_name (tools_of body) = ["lookup"; "lookup"].
Proof. eexists. split; [vm_compute; reflexivity|reflexivity]. Qed.

(* ===================================================================== *)
(** * Text through the two conversions *)
(* ===================================================================== *)

Lemma converted_item_text item :
  ResponsesService.convert_item item ≫= message_text = item_text item.
Proof.
  destruct item as [| | | | |d]; try done.
  unfold ResponsesService.convert_item, ResponsesService.item_type, item_text.
  destruct (dict_get "type" d) as [[| | |tag| |]|]; try done.
  case_bool_decide as M.
  - unfold ResponsesService.convert_message, dict_get_default.
    destruct (dict_get "role" d) as [[| | |role| |]|]; try done.
    destruct (dict_get "content" d) as [[| | |text|parts|]|]; try done.
  - assert (E : match dict_get "role" d, dict_get "content" d with
                | Some (JStr _), Some (JStr text) => @None string
                | Some (JStr _), Some (JArr parts) => None
                | _, _ => None
                end = None).
    { destruct (dict_get "role" d) as [[]|]; try done.
      by destruct (dict_get "content" d) as [[]|]. }
    rewrite E. clear E.
    case_bool_decide.
    { unfold ResponsesService.convert_function_call.
      destruct (dict_get "name" d) as [[]|]; try done.
      destruct (dict_get "arguments" d) as [[]|]; try done.
      by destruct (dict_get "call_id" d) as [[]|]. }
    case_bool_decide; [|done].
    unfold ResponsesService.convert_function_call_output.
    destruct (dict_get "call_id" d) as [[]|]; try done.
    by destruct (dict_get "output" d) as [[]|].
Qed.

Lemma converted_items_texts (items : list json) :
  omap message_text (omap ResponsesService.convert_item items) = omap item_text items.
Proof.
  induction items as [|item items IH]; [done|].
  cbn [omap list_omap]. rewrite <- converted_item_text.
  destruct (ResponsesService.convert_item item) as [m|]; cbn [omap list_omap mbind option_bind].
  - destruct (message_text m); [f_equal|]; exact IH.
  - exact IH.
Qed.

Lemma converted_message_items (msgs : list (string * string)) :
  omap ResponsesService.convert_item (map message_item msgs) = map chat_message msgs.
Proof.
  induction msgs as [|[role text] msgs IH]; [done|].
  cbn [map omap list_omap].
  change (ResponsesService.convert_item (message_item (role, text)))
    with (Some (chat_message (role, text))).
  f_equal. exact IH.
Qed.

Lemma function_call_items_have_no_text (tool_calls : list json) :
  omap item_text (omap ResponsesService.function_call_item tool_calls) = [].
Proof.
  induction tool_calls as [|tc tcs IH]; [done|].
  cbn [omap list_omap].
  destruct (ResponsesService.function_call_item tc) as [i|] eqn:E; [|exact IH].
  cbn [omap list_omap].
  assert (N : item_text i = None).
  { destruct tc as [| | | | |t]; try done. simpl in E.
    destruct (dict_get "function" t) as [[]|]; try done. by injection E as <-. }
  rewrite N. exact IH.
Qed.

Lemma text_item_text (text : string) :
  omap item_text (ResponsesService.text_item (JStr text)) = [text].
Proof. reflexivity. Qed.

Lemma converted_response_text f response_data chat_request text :
  first_choice_text response_data = Some text →
  ∃ out,
    ResponsesService.convert_chat_completions_to_responses f response_data chat_request
      = Ok out ∧
    output_texts out = [text].
Proof.
  destruct response_data as [| | | | |r]; try done. simpl.
  unfold dict_get_default.
  destruct (dict_get "choices" r) as [[| | | |choices|]|]; try done.
  destruct choices as [|[| | | | |choice] rest]; try done.
  destruct (dict_get "message" choice) as [[| | | | |message]|]; try done.
  destruct (dict_get "content" message) as [[]|] eqn:C; try done.
  intros [= <-]. eexists. split; [reflexivity|].
  unfold output_texts. cbn [dict_get]. repeat (case_decide; try done).
  rewrite omap_app, function_call_items_have_no_text, text_item_text. reflexivity.
Qed.

(** C8.  A [/responses] request that declares no tools, with an empty
    registry cache, not streaming: the request sent to the backend carries no
    tools, and the text content of its messages is the text content of the
    Message items of the input, in order; when the input is a sequence of
    Message items that each hold a role and a text, the messages sent are
    the chat messages with the same roles and the same texts, in order.  The
    text that the first choice of the backend response carries is the text of
    the output item of the reply.  The text content of both dialects is read
    off their JSON; both conversions are the ones modelled from the
    specification. *)
Theorem text_round_trip (w : world) (request_data : pydict) :
  convert_responses_to_chat_completions w
    = ResponsesService.convert_responses_to_chat_completions →
  (∃ f, convert_chat_completions_to_responses w
        = ResponsesService.convert_chat_completions_to_responses f) →
  dict_get "tools" request_data = None →
  mcp_functions_cache w = [] →
  is_Some (dict_get "model" request_data) →
  ApiController.log_input_summary request_data = Ok tt →
  truthy (dict_get_default "stream" (JBool false) request_data) = false →
  ∃ body,
    requests_sent (ApiController.create_response w request_data) = [body] ∧
    tools_of body = [] ∧
    message_texts body = input_texts request_data ∧
    (∀ msgs,
       dict_get "input" request_data = Some (JArr (map message_item msgs)) →
       dict_get "messages" body = Some (JArr (map chat_message msgs))) ∧
    ∀ response response_data text,
      llm_post w body = Ok response →
      raise_for_status response = Ok tt →
      json_body response = Ok response_data →
      first_choice_text response_data = Some text →
      ∃ out,
        reply_of (ApiController.create_response w request_data)
          = Some (JSONResponse 200 out) ∧
        output_texts out = [text].
Proof.
  intros Hc [f Hb] Ht Hcache [model Hm] Hl Hs.
  assert (T0 : dict_get_default "tools" (JArr []) request_data = JArr [])
    by (unfold dict_get_default; by rewrite Ht).
  destruct (converted_request _ _ _ Hm T0) as (cr & E & T & _ & _).
  destruct (conversion_messages _ _ Hm) as (cr' & E' & Ms).
  rewrite E in E'. injection E' as <-.
  assert (P : ApiController.prepare_chat_request w request_data
              = Ok (ApiController.drop_tool_choice cr,
                    dict_get_default "stream" (JBool false) request_data)).
  { unfold ApiController.prepare_chat_request, ApiController.inject_into_request,
      ApiController.inject_into_chat_request.
    rewrite Hl, Hcache, Hc. cbn [nonempty andb mbind result_bind]. by rewrite E. }
  pose proof (create_response_run w request_data) as R. rewrite P, Hs in R.
  destruct R as [R1 R2].
  exists (ApiController.drop_tool_choice cr). split; [exact R2|].
  split; [|split; [|split]].
  - apply tools_of_default. unfold dict_get_default.
    rewrite drop_tool_choice_other by done. exact T.
  - unfold message_texts, input_texts.
    rewrite drop_tool_choice_other, Ms by done.
    unfold ResponsesService.input_items.
    destruct (dict_get "input" request_data) as [[| | | |items|]|]; try done.
    apply converted_items_texts.
  - intros msgs I. rewrite drop_tool_choice_other, Ms by done.
    unfold ResponsesService.input_items. rewrite I.
    by rewrite converted_message_items.
  - intros response response_data text Hp Hr Hj Hf.
    destruct (converted_response_text f response_data
                (ApiController.drop_tool_choice cr) text Hf) as (out & Eo & To).
    exists out. split; [|exact To]. rewrite R1.
    unfold ApiController.post_and_convert.
    rewrite Hp. cbn [mbind result_bind]. rewrite Hr. cbn [mbind result_bind].
    rewrite Hj. cbn [mbind result_bind]. by rewrite Hb, Eo.
Qed.

Lemma text_round_trip_witness :
  input_texts Samples.echo_request = ["hello"] ∧
  ∃ body out,
    requests_sent (ApiController.create_response Samples.echo Samples.echo_request)
      = [body] ∧
    message_texts body = ["hello"] ∧
    reply_of (ApiController.create_response Samples.echo Samples.echo_request)
      = Some (JSONResponse 200 out) ∧
    output_texts out = ["hello"].
Proof.
  split; [reflexivity|].
  destruct (text_round_trip Samples.echo Samples.echo_request eq_refl
              (ex_intro _ Samples.completed eq_refl) eq_refl eq_refl
              (ex_intro _ (JStr "m") eq_refl) eq_refl eq_refl)
    as (body & E & T & M & _ & A).
  pose proof E as E0. vm_compute in E0. injection E0 as <-.
  destruct (A _ _ "hello" eq_refl eq_refl eq_refl eq_refl) as (out & R & O).
  eexists _, out. split; [exact E|]. split; [exact M|]. split; [exact R|exact O].
Defined.

(* ===================================================================== *)
(** * The stream reconstructor *)
(* ===================================================================== *)

Section Reconstructor.

Import StreamReconstructor.

Lemma append_nil_r s : s +:+ EmptyString = s.
Proof.
induction s as [|c s IH]; [done|].
change (String c (s +:+ EmptyString) = String c s). by rewrite IH.
Qed.

Lemma append_assoc s1 s2 s3 : (s1 +:+ s2) +:+ s3 = s1 +:+ (s2 +:+ s3).
Proof.
induction s1 as [|c s1 IH]; [done|].
change (String c ((s1 +:+ s2) +:+ s3) = String c (s1 +:+ (s2 +:+ s3))). by rewrite IH.
Qed.

Lemma concat_fragments_app l1 l2 :
concat_fragments (l1 ++ l2) = concat_fragments l1 +:+ concat_fragments l2.
Proof.
induction l1 as [|f l1 IH]; [done|].
change (f +:+ concat_fragments (l1 ++ l2)
        = (f +:+ concat_fragments l1) +:+ concat_fragments l2).
by rewrite IH, append_assoc.
Qed.

Lemma argument_deltas_app i (l1 l2 : list event) :
argument_deltas i (l1 ++ l2) = argument_deltas i l1 ++ argument_deltas i l2.
Proof. apply omap_app. Qed.

Lemma added_count_app i (l1 l2 : list event) :
added_count i (l1 ++ l2) = added_count i l1 + added_count i l2.
Proof. unfold added_count. by rewrite filter_app, length_app. Qed.

Lemma added_count_Exists i (h : list event) :
added_count i h = 1 → Exists (λ ev, is_item_added i ev = true) h.
Proof.
unfold added_count. intros H.
destruct (filter _ h) as [|ev l] eqn:E; [done|].
assert (I : ev ∈ filter (λ ev, is_item_added i ev = true) h) by (rewrite E; left).
apply list_elem_of_filter in I as [I1 I2]. apply Exists_exists. by exists ev.
Qed.

(** Decomposing a list that ends with one more event. *)
Lemma snoc_split {A} (h : list A) e before x after :
h ++ [e] = before ++ x :: after →
(after = [] ∧ x = e ∧ before = h) ∨
(∃ after', after = after' ++ [e] ∧ h = before ++ x :: after').
Proof.
intros H. destruct after as [|y after _] using rev_ind.
- left. apply app_inj_tail in H as [-> ->]. done.
- right. exists after.
  rewrite app_comm_cons, app_assoc in H. by apply app_inj_tail in H as [-> ->].
Qed.

Lemma deltas_follow_snoc_other h ev :
(∀ i f, ev ≠ ArgumentsDelta i f) →
added_before_deltas h → added_before_deltas (h ++ [ev]).
Proof.
intros N P i before f after E.
apply snoc_split in E as [(_ & E & _)|(after' & _ & ->)].
- by destruct (N i f).
- by eapply P.
Qed.

Lemma deltas_follow_snoc_delta h i f :
Exists (λ ev, is_item_added i ev = true) h →
added_before_deltas h → added_before_deltas (h ++ [ArgumentsDelta i f]).
Proof.
intros X P j before g after E.
apply snoc_split in E as [(_ & E & ->)|(after' & _ & ->)].
- by injection E as -> ->.
- by eapply P.
Qed.

Lemma consistent_plain h accs ev :
is_plain ev = true → consistent h accs → consistent (h ++ [ev]) accs.
Proof.
intros Pl [B A D N]. split.
- intros i acc H. rewrite argument_deltas_app, (B i acc H).
  destruct ev; try done; simpl; by rewrite app_nil_r.
- intros i. rewrite added_count_app, A. destruct ev; try done; simpl; lia.
- apply deltas_follow_snoc_other; [|done]. intros i f ->. done.
- apply Forall_app. split; [done|]. constructor; [|done]. by destruct ev.
Qed.

Lemma consistent_plain_list h accs evs :
Forall (λ ev, is_plain ev = true) evs → consistent h accs → consistent (h ++ evs) accs.
Proof.
intros F. revert h. induction F as [|ev evs Pl F IH]; intros h C.
- by rewrite app_nil_r.
- change (h ++ ev :: evs) with (h ++ [ev] ++ evs). rewrite app_assoc.
  apply IH. by apply consistent_plain.
Qed.

Lemma added_count_one i ev :
added_count i [ev] = if is_item_added i ev then 1 else 0.
Proof.
unfold added_count. rewrite filter_cons, filter_nil.
destruct (is_item_added i ev); by case_decide.
Qed.

Lemma concat_fragments_one f : concat_fragments [f] = f.
Proof. apply append_nil_r. Qed.

Lemma no_deltas_before_added i h :
added_before_deltas h → added_count i h = 0 → argument_deltas i h = [].
Proof.
intros D C. destruct (argument_deltas i h) as [|f l] eqn:E; [done|]. exfalso.
assert (I : f ∈ argument_deltas i h) by (rewrite E; left).
apply list_elem_of_omap in I as (ev & I & Ev).
destruct ev; try done. simpl in Ev. case_bool_decide; [|done]. subst.
apply list_elem_of_split in I as (before & after & ->).
specialize (D _ _ _ _ eq_refl). rewrite added_count_app in C.
apply Exists_exists in D as (ev & I1 & I2). unfold added_count in C.
assert (I3 : ev ∈ filter (λ ev, is_item_added i ev = true) before)
  by (by apply list_elem_of_filter).
destruct (filter _ before); [by apply elem_of_nil in I3|]. simpl in C. lia.
Qed.

Lemma consistent_delta h accs i acc f :
accs !! i = Some acc →
consistent h accs →
consistent (h ++ [ArgumentsDelta i f])
  (<[i := Accumulator (acc_id acc) (acc_name acc) (acc_output_index acc)
              (argument_buffer acc +:+ f)]> accs).
Proof.
intros L [B A D N]. split.
- intros j acc' H. rewrite argument_deltas_app, concat_fragments_app.
  cbn [argument_deltas omap list_omap].
  destruct (decide (j = i)) as [->|Ne].
  + rewrite lookup_insert_eq in H. injection H as <-. cbn [argument_buffer].
    rewrite (B _ _ L), bool_decide_eq_true_2 by done.
    by rewrite concat_fragments_one.
  + rewrite lookup_insert_ne in H by done.
    rewrite (B _ _ H), bool_decide_eq_false_2 by done.
    apply eq_sym, append_nil_r.
- intros j. rewrite added_count_app, added_count_one, A. cbn [is_item_added].
  destruct (decide (j = i)) as [->|Ne].
  + rewrite lookup_insert_eq, L. lia.
  + rewrite lookup_insert_ne by done. lia.
- apply deltas_follow_snoc_delta; [|done].
  apply added_count_Exists. by rewrite A, L.
- apply Forall_app. split; [done|]. by repeat constructor.
Qed.

Lemma consistent_added h accs i out id name :
accs !! i = None →
consistent h accs →
consistent (h ++ [ItemAdded i out id name])
  (<[i := Accumulator id name out EmptyString]> accs).
Proof.
intros L [B A D N]. split.
- intros j acc' H. rewrite argument_deltas_app, concat_fragments_app.
  cbn [argument_deltas omap list_omap].
  destruct (decide (j = i)) as [->|Ne].
  + rewrite lookup_insert_eq in H. injection H as <-. cbn [argument_buffer].
    rewrite (no_deltas_before_added _ _ D); [done|]. by rewrite A, L.
  + rewrite lookup_insert_ne in H by done. rewrite (B _ _ H).
    apply eq_sym, append_nil_r.
- intros j. rewrite added_count_app, added_count_one, A. cbn [is_item_added].
  destruct (decide (j = i)) as [->|Ne].
  + rewrite lookup_insert_eq, L, bool_decide_eq_true_2 by done. lia.
  + rewrite lookup_insert_ne by done.
    rewrite bool_decide_eq_false_2 by (by intros ->). lia.
- apply deltas_follow_snoc_other; [done|done].
- apply Forall_app. split; [done|]. by repeat constructor.
Qed.

Lemma consistent_tool_call h st d st' evs :
consistent h (accumulators st) →
step_tool_call st d = (st', evs) →
consistent (h ++ evs) (accumulators st') ∧ terminal_reason st' = terminal_reason st.
Proof.
intros C. unfold step_tool_call.
destruct (accumulators st !! tc_index d) as [acc|] eqn:L; intros [= <- <-].
- split; [|done]. cbn [accumulators]. by apply consistent_delta.
- split; [|done]. cbn [accumulators].
  pose proof (consistent_added _ _ _ (next_output_index st)
                (default EmptyString (tc_id d)) (default EmptyString (tc_name d))
                L C) as C1.
  pose proof (consistent_delta _ _ (tc_index d) _ (tc_arguments d)
                (lookup_insert_eq _ _ _) C1) as C2.
  rewrite insert_insert_eq in C2. cbn in C2. rewrite <- app_assoc in C2. exact C2.
Qed.

Lemma consistent_tool_calls ds h st st' evs :
consistent h (accumulators st) →
step_tool_calls st ds = (st', evs) →
consistent (h ++ evs) (accumulators st') ∧ terminal_reason st' = terminal_reason st.
Proof.
revert h st st' evs. induction ds as [|d ds IH]; intros h st st' evs C.
- intros [= <- <-]. by rewrite app_nil_r.
- cbn [step_tool_calls].
  destruct (step_tool_call st d) as [st1 evs1] eqn:E1.
  destruct (step_tool_calls st1 ds) as [st2 evs2] eqn:E2.
  intros [= <- <-].
  destruct (consistent_tool_call _ _ _ _ _ C E1) as [C1 T1].
  destruct (IH _ _ _ _ C1 E2) as [C2 T2].
  rewrite app_assoc. split; [exact C2|congruence].
Qed.

Lemma consistent_initial : consistent [] ∅.
Proof.
split; try done.
intros i before f after E. by destruct before.
Qed.

Lemma no_deltas_in (i : nat) (evs : list event) :
Forall (λ ev, ∀ j f, ev ≠ ArgumentsDelta j f) evs → argument_deltas i evs = [].
Proof.
induction 1 as [|ev evs H F IH]; [done|].
cbn [argument_deltas omap list_omap]. destruct ev; try exact IH. by destruct (H index fragment).
Qed.

Lemma no_added_in (i : nat) (evs : list event) :
Forall (λ ev, is_item_added i ev = false) evs → added_count i evs = 0.
Proof.
induction 1 as [|ev evs H F IH]; [done|].
change (ev :: evs) with ([ev] ++ evs). by rewrite added_count_app, added_count_one, H, IH.
Qed.

Lemma deltas_follow_app_other h (evs : list event) :
Forall (λ ev, ∀ j f, ev ≠ ArgumentsDelta j f) evs →
added_before_deltas h → added_before_deltas (h ++ evs).
Proof.
intros F. revert h. induction F as [|ev evs H F IH]; intros h D.
- by rewrite app_nil_r.
- change (h ++ ev :: evs) with (h ++ [ev] ++ evs). rewrite app_assoc.
  apply IH. by apply deltas_follow_snoc_other.
Qed.

Lemma done_events_shape st u ev :
ev ∈ done_events st u →
(∀ j f, ev ≠ ArgumentsDelta j f) ∧ (∀ i, is_item_added i ev = false) ∧
(∀ i a, ev = ArgumentsDone i a →
   ∃ acc, accumulators st !! i = Some acc ∧ a = argument_buffer acc).
Proof.
unfold done_events. rewrite !elem_of_app. intros [I|[I|I]].
- destruct (text_buffer st); [|by apply elem_of_nil in I].
  apply list_elem_of_singleton in I as ->. done.
- apply list_elem_of_fmap in I as ([i acc] & -> & I).
  apply elem_of_map_to_list in I. repeat split; try done.
  intros j a [= <- <-]. by exists acc.
- apply list_elem_of_singleton in I as ->. done.
Qed.

Lemma finish_well_formed h st u :
consistent h (accumulators st) → well_formed (h ++ done_events st u).
Proof.
intros [B A D N].
assert (S : ∀ ev, ev ∈ done_events st u → _) by (intros ev; apply done_events_shape).
split; [|split].
- apply deltas_follow_app_other; [|done].
  apply Forall_forall. intros ev I. by apply S.
- intros i. rewrite added_count_app, A, no_added_in.
  + destruct (accumulators st !! i); lia.
  + apply Forall_forall. intros ev I. by apply S.
- intros i a I. rewrite argument_deltas_app, (no_deltas_in i (done_events st u)), app_nil_r.
  2:{ apply Forall_forall. intros ev J. by apply S. }
  apply elem_of_app in I as [I|I].
  + rewrite Forall_forall in N. by specialize (N _ I).
  + destruct (S _ I) as (_ & _ & X). destruct (X i a eq_refl) as (acc & L & ->).
    by apply B.
Qed.

Lemma delta_events_app (l1 l2 : list event) :
delta_events (l1 ++ l2) = delta_events l1 ++ delta_events l2.
Proof. apply omap_app. Qed.

Lemma fragments_for_app i (l1 l2 : list tool_call_delta) :
fragments_for i (l1 ++ l2) = fragments_for i l1 ++ fragments_for i l2.
Proof. apply omap_app. Qed.

(** The fragments emitted for an index are those of the delta events. *)
Lemma argument_deltas_of_delta_events i (h : list event) (ds : list tool_call_delta) :
delta_events h = map arrival ds → argument_deltas i h = fragments_for i ds.
Proof.
revert ds. induction h as [|ev h IH]; intros ds E.
- destruct ds; [done|discriminate].
- destruct ev; try (exact (IH ds E)).
  destruct ds as [|d ds]; [discriminate|].
  cbn [delta_events omap list_omap map] in E. injection E as E1 E2 E3.
  cbn [argument_deltas fragments_for omap list_omap].
  rewrite E1, E2. case_bool_decide; [f_equal|]; by apply IH.
Qed.

Lemma no_delta_events_in (evs : list event) :
Forall (λ ev, ∀ j f, ev ≠ ArgumentsDelta j f) evs → delta_events evs = [].
Proof.
induction 1 as [|ev evs H F IH]; [done|].
cbn [delta_events omap list_omap]. destruct ev; try exact IH. by destruct (H index fragment).
Qed.

(** Decomposing a concatenation around one of its elements. *)
Lemma app_split_at {A} (h evs before : list A) x after :
h ++ evs = before ++ x :: after →
(∃ k, h = before ++ x :: k ∧ after = k ++ evs) ∨
(∃ k, before = h ++ k ∧ evs = k ++ x :: after).
Proof.
revert before. induction h as [|y h IH]; intros before E.
- right. by exists before.
- destruct before as [|z before].
  + injection E as -> <-. left. by exists h.
  + injection E as -> E. destruct (IH _ E) as [(k & -> & ->)|(k & -> & ->)].
    * left. by exists k.
    * right. by exists k.
Qed.

Lemma added_then_delta_app (h evs : list event) :
added_then_delta h → added_then_delta evs → added_then_delta (h ++ evs).
Proof.
intros P Q before i o id name after E.
apply app_split_at in E as [(k & E & ->)|(k & -> & E)].
- destruct (P _ _ _ _ _ _ E) as (f & after' & ->). by exists f, (after' ++ evs).
- by apply (Q _ _ _ _ _ _ E).
Qed.

Lemma added_then_delta_none (evs : list event) :
Forall (λ ev, ∀ i, is_item_added i ev = false) evs → added_then_delta evs.
Proof.
intros F before i o id name after ->.
apply Forall_app in F as [_ F]. apply Forall_cons in F as [F _].
specialize (F i). cbn in F. by rewrite bool_decide_eq_true_2 in F.
Qed.

Lemma follows_other h ds accs (evs : list event) :
Forall (λ ev, (∀ j f, ev ≠ ArgumentsDelta j f) ∧ ∀ i, is_item_added i ev = false) evs →
follows h ds accs → follows (h ++ evs) ds accs.
Proof.
intros F [O S P]. split; [|done|].
- rewrite delta_events_app, O, no_delta_events_in, app_nil_r; [done|].
  eapply Forall_impl; [exact F|]. by intros ev [? ?].
- apply added_then_delta_app; [done|]. apply added_then_delta_none.
  eapply Forall_impl; [exact F|]. by intros ev [? ?].
Qed.

Lemma follows_tool_call h ds st d st' evs :
follows h ds (accumulators st) →
step_tool_call st d = (st', evs) →
follows (h ++ evs) (ds ++ [d]) (accumulators st').
Proof.
intros [O S P]. unfold step_tool_call.
assert (Sn : ∀ acc i, is_Some (<[tc_index d := acc]> (accumulators st) !! i)
                      ↔ i ∈ seen (ds ++ [d])).
{ intros acc i. unfold seen. rewrite map_app, elem_of_app, <- (S i). cbn [map].
  rewrite list_elem_of_singleton.
  destruct (decide (i = tc_index d)) as [->|N].
  - rewrite lookup_insert_eq. split; [by right|by eexists].
  - rewrite lookup_insert_ne by done. split; [by left|]. by intros [?|?]. }
destruct (accumulators st !! tc_index d) as [acc|] eqn:L; intros [= <- <-].
- split; cbn [accumulators].
  + rewrite delta_events_app, map_app, O. done.
  + apply Sn.
  + apply added_then_delta_app; [done|].
    intros before i o id name after E. destruct before as [|? [|]]; discriminate.
- split; cbn [accumulators].
  + rewrite delta_events_app, map_app, O. done.
  + apply Sn.
  + apply added_then_delta_app; [done|].
    intros before i o id name after E. destruct before as [|? [|? ?]].
    * injection E as <- _ _ _ <-. by eexists _, _.
    * discriminate.
    * destruct l; discriminate.
Qed.

Lemma follows_tool_calls new h ds st st' evs :
follows h ds (accumulators st) →
step_tool_calls st new = (st', evs) →
follows (h ++ evs) (ds ++ new) (accumulators st').
Proof.
revert h ds st st' evs. induction new as [|d new IH]; intros h ds st st' evs F.
- intros [= <- <-]. by rewrite !app_nil_r.
- cbn [step_tool_calls].
  destruct (step_tool_call st d) as [st1 evs1] eqn:E1.
  destruct (step_tool_calls st1 new) as [st2 evs2] eqn:E2.
  intros [= <- <-].
  pose proof (follows_tool_call _ _ _ _ _ _ F E1) as F1.
  pose proof (IH _ _ _ _ _ F1 E2) as F2.
  rewrite app_assoc. change (d :: new) with ([d] ++ new). by rewrite app_assoc.
Qed.

Lemma added_count_seen h ds accs i :
consistent h accs → follows h ds accs →
added_count i h = if bool_decide (i ∈ seen ds) then 1 else 0.
Proof.
intros [_ A _ _] [_ S _]. rewrite A. specialize (S i).
case_bool_decide as I.
- apply S in I as [acc ->]. done.
- destruct (accs !! i) eqn:L; [|done]. destruct I. apply S. by eexists.
Qed.

Lemma unfinished_reconstructs h ds accs :
consistent h accs → follows h ds accs → reconstructs h ds false.
Proof.
intros C F. pose proof C as [B A D N]. pose proof F as [O S P].
split; [|split; [|split; [|split; [|split; [|split]]]]]; try done.
- intros i. by eapply added_count_seen.
- intros i. by apply argument_deltas_of_delta_events.
- intros i a I. rewrite Forall_forall in N. by specialize (N _ I).
Qed.

Lemma finished_reconstructs h ds st u :
consistent h (accumulators st) → follows h ds (accumulators st) →
reconstructs (h ++ done_events st u) ds true.
Proof.
intros C F. pose proof C as [B A D N]. pose proof F as [O S P].
assert (Sh : ∀ ev, ev ∈ done_events st u → _) by (intros ev; apply done_events_shape).
assert (ND : Forall (λ ev, ∀ j f, ev ≠ ArgumentsDelta j f) (done_events st u)).
{ apply Forall_forall. intros ev I. by apply Sh. }
assert (NA : Forall (λ ev, ∀ i, is_item_added i ev = false) (done_events st u)).
{ apply Forall_forall. intros ev I. by apply Sh. }
assert (O' : delta_events (h ++ done_events st u) = map arrival ds).
{ by rewrite delta_events_app, O, no_delta_events_in, app_nil_r. }
destruct (finish_well_formed h st u C) as (W1 & W2 & W3).
split; [|split; [|split; [|split; [|split; [|split]]]]]; try done.
- intros i. rewrite added_count_app, (no_added_in i (done_events st u)), Nat.add_0_r.
  + by eapply added_count_seen.
  + eapply Forall_impl; [exact NA|]. by intros ev X.
- apply added_then_delta_app; [done|]. by apply added_then_delta_none.
- intros i. by apply argument_deltas_of_delta_events.
- intros _ i I. apply S in I as [acc L].
  rewrite <- (argument_deltas_of_delta_events i h ds O), <- (B _ _ L).
  apply elem_of_app. right. unfold done_events. rewrite !elem_of_app. right. left.
  apply list_elem_of_fmap. exists (i, acc). split; [done|].
  by apply elem_of_map_to_list.
Qed.

Lemma step_chunk_follows h ds st c st' evs :
consistent h (accumulators st) → follows h ds (accumulators st) →
step_chunk st c = (st', evs) →
∃ st3 evs3,
  consistent (h ++ evs3) (accumulators st3) ∧
  follows (h ++ evs3) (ds ++ tool_calls c) (accumulators st3) ∧
  match finish_reason c with
  | Some r => evs = evs3 ++ done_events st3 (usage c) ∧ terminal_reason st' = Some r
  | None => evs = evs3 ∧ st' = st3 ∧ terminal_reason st' = terminal_reason st
  end.
Proof.
intros C F. unfold step_chunk.
destruct (emit_start st) as [st1 evs1] eqn:E1.
destruct (step_text st1 c) as [st2 evs2] eqn:E2.
destruct (step_tool_calls st2 (tool_calls c)) as [st3 evs3] eqn:E3.
destruct (step_finish st3 c) as [st4 evs4] eqn:E4.
intros [= <- <-].
assert (C1 : consistent (h ++ evs1) (accumulators st1)
             ∧ follows (h ++ evs1) ds (accumulators st1)
             ∧ terminal_reason st1 = terminal_reason st).
{ unfold emit_start in E1. destruct (has_emitted_start st); injection E1 as <- <-.
  - by rewrite app_nil_r.
  - split; [by apply consistent_plain|]. split; [|done].
    apply follows_other; [|done]. by repeat constructor. }
destruct C1 as (C1 & F1 & T1).
assert (C2 : consistent ((h ++ evs1) ++ evs2) (accumulators st2)
             ∧ follows ((h ++ evs1) ++ evs2) ds (accumulators st2)
             ∧ terminal_reason st2 = terminal_reason st).
{ unfold step_text in E2.
  destruct (content c) as [f|]; [case_bool_decide|]; injection E2 as <- <-.
  - by rewrite app_nil_r.
  - split; [by apply consistent_plain|]. split; [|done].
    apply follows_other; [|done]. by repeat constructor.
  - by rewrite app_nil_r. }
destruct C2 as (C2 & F2 & T2).
destruct (consistent_tool_calls _ _ _ _ _ C2 E3) as [C3 T3].
pose proof (follows_tool_calls _ _ _ _ _ _ F2 E3) as F3.
exists st3, (evs1 ++ evs2 ++ evs3). rewrite !app_assoc.
split; [exact C3|]. split; [exact F3|].
unfold step_finish in E4.
destruct (finish_reason c) as [r|]; injection E4 as <- <-.
- done.
- rewrite app_nil_r. split; [done|]. split; [done|]. congruence.
Qed.

Lemma run_reconstructs frames : ∀ h ds st,
terminal_reason st = None →
consistent h (accumulators st) → follows h ds (accumulators st) →
reconstructs (h ++ run st frames) (ds ++ arriving frames) (finishes frames).
Proof.
induction frames as [|[c| |] frames IH]; intros h ds st T C F; cbn [run arriving finishes].
- rewrite !app_nil_r. by eapply unfinished_reconstructs.
- destruct (step_chunk st c) as [st' evs] eqn:E.
  destruct (step_chunk_follows _ _ _ _ _ _ C F E) as (st3 & evs3 & C3 & F3 & K).
  destruct (finish_reason c) as [r|].
  + destruct K as [-> ->]. rewrite !app_nil_r, app_assoc.
    by apply finished_reconstructs.
  + destruct K as (-> & -> & T'). rewrite T' , T. rewrite !app_assoc.
    apply IH; [congruence|done|done].
- rewrite app_nil_r. eapply unfinished_reconstructs.
  + by apply consistent_plain.
  + apply follows_other; [|done]. by repeat constructor.
- rewrite !app_nil_r. by eapply unfinished_reconstructs.
Qed.

Lemma follows_initial : follows [] [] ∅.
Proof.
split; [done| |].
- intros i. rewrite lookup_empty. split; [by intros [? ?]|]. by intros ?%elem_of_nil.
- intros before i o id name after E. by destruct before.
Qed.

(** C9.  Whatever the backend stream is, in the events the reconstructor
  modelled from the specification emits for it: an index gets one item-added
  event when it is seen in the stream and none when it is not; every
  argument-delta event for an index comes after the item-added event for
  that index, and the item-added event is followed at once by the index's
  first argument-delta event; the argument-delta events are the deltas of the
  stream, in arrival order, so that the fragments emitted for an index are
  the fragments that arrived for it, in arrival order; an item-done event
  for an index carries the concatenation, in order, of all the argument
  fragments emitted for that index; and when the stream reaches a finish
  reason, every index seen gets an item-done event that carries the
  concatenation of the fragments that arrived for it. *)
Theorem arguments_are_reconstructed (rid : string) (frames : list backend_frame) :
(∀ index,
   added_count index (reconstruct rid frames)
   = if bool_decide (index ∈ seen (arriving frames)) then 1 else 0) ∧
added_before_deltas (reconstruct rid frames) ∧
added_then_delta (reconstruct rid frames) ∧
delta_events (reconstruct rid frames) = map arrival (arriving frames) ∧
(∀ index,
   argument_deltas index (reconstruct rid frames)
   = fragments_for index (arriving frames)) ∧
(∀ index arguments,
   ArgumentsDone index arguments ∈ reconstruct rid frames →
   arguments = concat_fragments (argument_deltas index (reconstruct rid frames))) ∧
(finishes frames = true →
 ∀ index, index ∈ seen (arriving frames) →
   ArgumentsDone index (concat_fragments (fragments_for index (arriving frames)))
     ∈ reconstruct rid frames).
Proof.
apply (run_reconstructs frames [] [] (initial rid)).
- done.
- apply consistent_initial.
- apply follows_initial.
Qed.

Lemma arguments_are_reconstructed_witness :
  finishes example_stream = true ∧
  0 ∈ seen (arriving example_stream) ∧
  ArgumentsDone 0 ("{" +:+ double_quote +:+ "a" +:+ double_quote +:+ ":1}")
    ∈ reconstruct "resp_1" example_stream.
Proof.
  assert (Hf : finishes example_stream = true) by reflexivity.
  assert (Hs : 0 ∈ seen (arriving example_stream)) by (vm_compute; left).
  split; [exact Hf|]. split; [exact Hs|].
  exact (proj2 (proj2 (proj2 (proj2 (proj2 (proj2
           (arguments_are_reconstructed "resp_1" example_stream)))))) Hf 0 Hs).
Defined.

(** The example of the specification: one item-added event for index 0, two
  argument-delta events, one item-done event with the whole payload, one
  completed event. *)
Lemma example_stream_events :
reconstruct "resp_1" example_stream =
  [Started "resp_1";
   ItemAdded 0 0 "call_1" "f";
   ArgumentsDelta 0 ("{" +:+ double_quote +:+ "a" +:+ double_quote +:+ ":");
   ArgumentsDelta 0 "1}";
   ArgumentsDone 0 ("{" +:+ double_quote +:+ "a" +:+ double_quote +:+ ":1}");
   Completed (JObj [("total_tokens", JNum 9)])].
Proof. vm_compute. reflexivity. Qed.

End Reconstructor.

(* ===================================================================== *)
(** * More about chat_completions_service.py *)
(* ===================================================================== *)

(** X1.  The request that the non-streaming handler sends never holds a
    [stream] key, and every key other than [stream] and [reasoning] is sent
    with the value the handler was given. *)
Theorem non_streaming_request_has_no_stream_key
    (w : world) (σ : state) (request_data : loc) (d : pydict) :
  heap σ !! request_data = Some d →
  ∃ reply σ' body,
    ChatCompletionsService._handle_non_streaming_request w request_data σ
      = Some (reply, σ') ∧
    calls σ' = calls σ ++ [CallPost body] ∧
    dict_get "stream" body = None ∧
    ∀ k, k ≠ "stream" → k ≠ "reasoning" → dict_get k body = dict_get k d.
Proof.
  intros H. rewrite (non_streaming_run w _ _ _ H).
  eexists _, _, _. split; [reflexivity|]. split; [reflexivity|]. split.
  - apply dict_get_pop_eq.
  - intros k N1 N2. rewrite dict_get_pop_ne by done.
    by apply strip_null_reasoning_other.
Qed.

Lemma non_streaming_request_has_no_stream_key_witness :
  ∃ reply σ' body,
    ChatCompletionsService._handle_non_streaming_request
      (Samples.unavailable false []) 0 Samples.one_object = Some (reply, σ') ∧
    calls σ' = [CallPost body] ∧
    dict_get "stream" body = None ∧
    dict_get "model" body = Some (JStr "m").
Proof.
  destruct (non_streaming_request_has_no_stream_key (Samples.unavailable false [])
              Samples.one_object 0 Samples.request_with_null_reasoning eq_refl)
    as (reply & σ' & body & E & C & S & K).
  exists reply, σ', body. split; [exact E|]. split; [exact C|]. split; [exact S|].
  rewrite K by done. reflexivity.
Defined.

(** X2.  The request that the streaming handler sends always holds
    [stream] true, whatever value the handler was given for it, and every key
    other than [stream] and [reasoning] is sent with the value given. *)
Theorem streaming_request_forces_stream
    (w : world) (σ : state) (request_data : loc) (d : pydict) :
  heap σ !! request_data = Some d →
  ∃ reply σ' body,
    ChatCompletionsService._handle_streaming_request w request_data σ
      = Some (reply, σ') ∧
    calls σ' = calls σ ++ [CallStream body] ∧
    dict_get "stream" body = Some (JBool true) ∧
    ∀ k, k ≠ "stream" → k ≠ "reasoning" → dict_get k body = dict_get k d.
Proof.
  intros H. rewrite (streaming_run w _ _ _ H).
  eexists _, _, _. split; [reflexivity|]. split; [reflexivity|]. split.
  - rewrite strip_null_reasoning_other by done. apply dict_get_set_eq.
  - intros k N1 N2. rewrite strip_null_reasoning_other by done.
    by apply dict_get_set_ne.
Qed.

Lemma streaming_request_forces_stream_witness :
  ∃ reply σ' body,
    ChatCompletionsService._handle_streaming_request
      (Samples.unavailable false []) 0
      (State {[ 0 := MoreSamples.request_with_text_stream ]} []) = Some (reply, σ') ∧
    calls σ' = [CallStream body] ∧
    dict_get "stream" body = Some (JBool true) ∧
    dict_get "temperature" body = Some (JNum 1).
Proof.
  assert (H : heap (State {[ 0 := MoreSamples.request_with_text_stream ]} []) !! 0
              = Some MoreSamples.request_with_text_stream) by reflexivity.
  destruct (streaming_request_forces_stream (Samples.unavailable false [])
              (State {[ 0 := MoreSamples.request_with_text_stream ]} []) 0
              MoreSamples.request_with_text_stream H)
    as (reply & σ' & body & E & C & S & K).
  exists reply, σ', body. split; [exact E|]. split; [exact C|]. split; [exact S|].
  rewrite K by done. reflexivity.
Defined.

Lemma py_eq_text v s : py_eq v (JStr s) = bool_decide (v = JStr s).
Proof. by destruct v. Qed.

(** What [post_and_inspect] returns once the backend has answered with a
    2xx status and a JSON body. *)
Lemma post_and_inspect_answer w body response response_data :
  llm_post w body = Ok response →
  raise_for_status response = Ok tt →
  json_body response = Ok response_data →
  ChatCompletionsService.post_and_inspect w body =
    (choices ← py_get "choices" (JArr []) response_data;
     choice ← py_first choices;
     finish_reason ← py_get "finish_reason" JNull choice;
     _ ← (if py_eq finish_reason (JStr "tool_calls") then
            message ← py_get "message" (JObj []) choice;
            tool_calls ← py_get "tool_calls" (JArr []) message;
            _ ← py_len tool_calls;
            mret tt
          else mret tt);
     mret response_data).
Proof.
  intros P S J. unfold ChatCompletionsService.post_and_inspect.
  rewrite P. cbn [mbind result_bind]. rewrite S. cbn [mbind result_bind].
  rewrite J. reflexivity.
Qed.

(** X3.  A non-streaming chat-completions request whose backend answers with
    a 2xx status and a JSON object whose first choice is an object that did
    not finish with tool calls: the client gets the backend's JSON as it is,
    with status 200. *)
Theorem successful_answer_is_returned_as_it_is
    (w : world) (request_data injected : pydict)
    (response : http_response) (r choice : pydict) (rest : list json) :
  ChatCompletionsService.inject_mcp_tools w request_data = Ok injected →
  truthy (dict_get_default "stream" (JBool false) injected) = false →
  llm_post w (chat_body injected) = Ok response →
  raise_for_status response = Ok tt →
  json_body response = Ok (JObj r) →
  dict_get "choices" r = Some (JArr (JObj choice :: rest)) →
  dict_get "finish_reason" choice ≠ Some (JStr "tool_calls") →
  reply_of (ChatCompletionsService.handle_chat_completions w request_data)
    = Some (JSONResponse 200 (JObj r)).
Proof.
  intros I S P R J C F.
  pose proof (chat_completions_run w request_data) as Run. rewrite I in Run.
  destruct Run as [-> _]. unfold chat_reply. rewrite S.
  rewrite (post_and_inspect_answer _ _ _ _ P R J).
  cbn [py_get mbind result_bind]. unfold dict_get_default. rewrite C.
  cbn [py_first py_get mbind result_bind]. rewrite py_eq_text.
  rewrite bool_decide_eq_false_2; [done|].
  unfold dict_get_default. destruct (dict_get "finish_reason" choice); congruence.
Qed.

Lemma successful_answer_is_returned_as_it_is_witness :
  reply_of (ChatCompletionsService.handle_chat_completions
              (MoreSamples.backend false [] MoreSamples.one_choice)
              Samples.plain_request)
    = Some (JSONResponse 200 MoreSamples.one_choice).
Proof.
  apply (successful_answer_is_returned_as_it_is
           (MoreSamples.backend false [] MoreSamples.one_choice)
           Samples.plain_request Samples.plain_request
           (HttpResponse 200 (Ok MoreSamples.one_choice)) _
           [("finish_reason", JStr "stop");
            ("message", JObj [("role", JStr "assistant"); ("content", JStr "hi")])]
           []); try reflexivity.
  discriminate.
Defined.

(** X4.  A 2xx answer that cannot be inspected is replaced by an error
    payload, still with status 200: an answer without choices, or with an
    empty list of choices, gives [{"error": str(IndexError)}]; an answer that
    finished with tool calls and holds null for them gives
    [{"error": str(TypeError)}]. *)
Theorem uninspectable_answer_becomes_an_error
    (w : world) (request_data injected : pydict)
    (response : http_response) (r : pydict) :
  ChatCompletionsService.inject_mcp_tools w request_data = Ok injected →
  truthy (dict_get_default "stream" (JBool false) injected) = false →
  llm_post w (chat_body injected) = Ok response →
  raise_for_status response = Ok tt →
  json_body response = Ok (JObj r) →
  (dict_get "choices" r = None ∨ dict_get "choices" r = Some (JArr []) →
   reply_of (ChatCompletionsService.handle_chat_completions w request_data)
     = Some (JSONResponse 200 (JObj [("error", JStr (py_str w IndexError))]))) ∧
  (∀ choice message rest,
     dict_get "choices" r = Some (JArr (JObj choice :: rest)) →
     dict_get "finish_reason" choice = Some (JStr "tool_calls") →
     dict_get "message" choice = Some (JObj message) →
     dict_get "tool_calls" message = Some JNull →
     reply_of (ChatCompletionsService.handle_chat_completions w request_data)
       = Some (JSONResponse 200 (JObj [("error", JStr (py_str w TypeError))]))).
Proof.
  intros I S P R J.
  pose proof (chat_completions_run w request_data) as Run. rewrite I in Run.
  destruct Run as [-> _]. unfold chat_reply. rewrite S.
  rewrite (post_and_inspect_answer _ _ _ _ P R J).
  cbn [py_get mbind result_bind]. unfold dict_get_default. split.
  - by intros [-> | ->].
  - intros choice message rest C F M T. rewrite C.
    cbn [py_first py_get mbind result_bind]. unfold dict_get_default.
    rewrite F, M. cbn [py_eq py_get mbind result_bind].
    rewrite bool_decide_eq_true_2 by done. cbn [py_get mbind result_bind].
    unfold dict_get_default. by rewrite T.
Qed.

Lemma uninspectable_answer_becomes_an_error_witness :
  reply_of (ChatCompletionsService.handle_chat_completions
              (MoreSamples.backend false [] MoreSamples.no_choices)
              Samples.plain_request)
    = Some (JSONResponse 200 (JObj [("error", JStr "list index out of range")])) ∧
  reply_of (ChatCompletionsService.handle_chat_completions
              (MoreSamples.backend false [] MoreSamples.null_tool_calls)
              Samples.plain_request)
    = Some (JSONResponse 200 (JObj [("error", JStr "TypeError")])).
Proof.
  split.
  - destruct (uninspectable_answer_becomes_an_error
                (MoreSamples.backend false [] MoreSamples.no_choices)
                Samples.plain_request Samples.plain_request
                (HttpResponse 200 (Ok MoreSamples.no_choices))
                [("id", JStr "chatcmpl-2"); ("choices", JArr [])]
                eq_refl eq_refl eq_refl eq_refl eq_refl) as [A _].
    apply A. by right.
  - destruct (uninspectable_answer_becomes_an_error
                (MoreSamples.backend false [] MoreSamples.null_tool_calls)
                Samples.plain_request Samples.plain_request
                (HttpResponse 200 (Ok MoreSamples.null_tool_calls)) _
                eq_refl eq_refl eq_refl eq_refl eq_refl) as [_ A].
    by eapply A.
Defined.

Lemma dict_set_set k v v' d : dict_set k v (dict_set k v' d) = dict_set k v d.
Proof.
  induction d as [|[k0 v0] d IH]; simpl.
  - by rewrite decide_True.
  - destruct (decide (k = k0)) as [->|N]; simpl.
    + by rewrite decide_True.
    + rewrite decide_False by done. by rewrite IH.
Qed.

Lemma inject_mcp_tools_frame w request_data injected k :
  ChatCompletionsService.inject_mcp_tools w request_data = Ok injected →
  k ≠ "tools" → dict_get k injected = dict_get k request_data.
Proof.
  unfold ChatCompletionsService.inject_mcp_tools. intros H N.
  destruct (nonempty (get_mcp_tools w) && ENABLE_MCP_TOOLS w); [|by injection H as <-].
  destruct (py_iter _) as [items|]; [|done]. cbn [mbind result_bind] in H.
  destruct (comprehension _ items) as [names|]; [|done]. cbn [mbind result_bind] in H.
  destruct (for_each _ _ _) as [tools|]; [|done]. cbn [mbind result_bind] in H.
  injection H as <-. by apply dict_get_set_ne.
Qed.

Lemma inject_into_request_frame w request_data injected k :
  ApiController.inject_into_request w request_data = Ok injected →
  k ≠ "tools" → dict_get k injected = dict_get k request_data.
Proof.
  unfold ApiController.inject_into_request. intros H N.
  destruct (nonempty (mcp_functions_cache w) && ENABLE_MCP_TOOLS w);
    [|by injection H as <-].
  destruct (comprehension ApiController.mcp_tool_of _) as [mcp_tools|]; [|done].
  cbn [mbind result_bind] in H.
  destruct (py_iter _) as [items|]; [|done]. cbn [mbind result_bind] in H.
  destruct (comprehension ApiController.declared_name items) as [names|]; [|done].
  cbn [mbind result_bind] in H.
  destruct (comprehension _ mcp_tools) as [filtered|]; [|done].
  cbn [mbind result_bind] in H.
  destruct (py_list_add _ _) as [tools|]; [|done]. cbn [mbind result_bind] in H.
  injection H as <-. by apply dict_get_set_ne.
Qed.

Lemma inject_into_chat_request_shape w chat_request injected :
  ApiController.inject_into_chat_request w chat_request = Ok injected →
  if nonempty (mcp_functions_cache w) && ENABLE_MCP_TOOLS w
  then ∃ tools, injected = dict_pop "functions" (dict_set "tools" tools chat_request)
  else injected = chat_request.
Proof.
  unfold ApiController.inject_into_chat_request. intros H.
  destruct (nonempty (mcp_functions_cache w) && ENABLE_MCP_TOOLS w);
    [|by injection H as <-].
  destruct (py_iter (dict_get_default "tools" _ _)) as [items|]; [|done].
  cbn [mbind result_bind] in H.
  destruct (for_each ApiController.note_tool_name items []) as [names|]; [|done].
  cbn [mbind result_bind] in H.
  destruct (py_iter _) as [functions|]; [|done]. cbn [mbind result_bind] in H.
  destruct (for_each ApiController.add_function _ _) as [[tools names']|]; [|done].
  cbn [mbind result_bind] in H.
  destruct (for_each _ _ tools) as [tools'|]; [|done]. cbn [mbind result_bind] in H.
  injection H as <-. exists tools'.
  destruct (dict_has "tools" chat_request); [done|]. by rewrite dict_set_set.
Qed.

(** X5.  The three injection steps write the key [tools] and, for the step
    after the conversion, remove the key [functions]; every other key of the
    request keeps its value, the streaming flag among them. *)
Theorem injection_writes_only_tools (w : world) (request_data injected : pydict) :
  (ChatCompletionsService.inject_mcp_tools w request_data = Ok injected →
   ∀ k, k ≠ "tools" → dict_get k injected = dict_get k request_data) ∧
  (ApiController.inject_into_request w request_data = Ok injected →
   ∀ k, k ≠ "tools" → dict_get k injected = dict_get k request_data) ∧
  (ApiController.inject_into_chat_request w request_data = Ok injected →
   ∀ k, k ≠ "tools" → k ≠ "functions" →
        dict_get k injected = dict_get k request_data).
Proof.
  split; [|split].
  - intros H k N. by eapply inject_mcp_tools_frame.
  - intros H k N. by eapply inject_into_request_frame.
  - intros H k N1 N2. apply inject_into_chat_request_shape in H.
    destruct (_ && _); [|by subst].
    destruct H as [tools ->]. rewrite dict_get_pop_ne by done.
    by apply dict_get_set_ne.
Qed.

Lemma injection_writes_only_tools_witness :
  ∃ injected,
    ChatCompletionsService.inject_mcp_tools
      (Samples.unavailable true [Samples.lookup_function])
      MoreSamples.request_with_text_stream = Ok injected ∧
    dict_get "stream" injected = Some (JStr "false") ∧
    dict_get "temperature" injected = Some (JNum 1).
Proof.
  eexists. split; [reflexivity|].
  destruct (injection_writes_only_tools
              (Samples.unavailable true [Samples.lookup_function])
              MoreSamples.request_with_text_stream
              (dict_set "tools" (JArr [wrap_function Samples.lookup_function])
                 MoreSamples.request_with_text_stream)) as [A _].
  split; rewrite (A eq_refl) by done; reflexivity.
Defined.

(** X6.  With the injection active, the request that [/responses] sends to
    the backend never holds the legacy key [functions] and always holds the
    key [tools]; with the injection not active, the step after the conversion
    returns the converted request as it is. *)
Theorem functions_key_is_not_sent (w : world) (chat_request injected : pydict) :
  ApiController.inject_into_chat_request w chat_request = Ok injected →
  (nonempty (mcp_functions_cache w) && ENABLE_MCP_TOOLS w = true →
   dict_get "functions" injected = None ∧
   dict_get "functions" (ApiController.drop_tool_choice injected) = None ∧
   is_Some (dict_get "tools" (ApiController.drop_tool_choice injected))) ∧
  (nonempty (mcp_functions_cache w) && ENABLE_MCP_TOOLS w = false →
   injected = chat_request).
Proof.
  intros H. apply inject_into_chat_request_shape in H. split; intros A; rewrite A in H.
  - destruct H as [tools ->]. split; [apply dict_get_pop_eq|]. split.
    + rewrite drop_tool_choice_other by done. apply dict_get_pop_eq.
    + rewrite drop_tool_choice_other, dict_get_pop_ne, dict_get_set_eq by done.
      by eexists.
  - exact H.
Qed.

Lemma functions_key_is_not_sent_witness :
  ∃ injected,
    ApiController.inject_into_chat_request
      (Samples.unavailable true [Samples.lookup_function])
      [("model", JStr "m"); ("functions", MoreSamples.legacy_functions)]
      = Ok injected ∧
    dict_get "functions" injected = None.
Proof.
  eexists. split; [reflexivity|].
  refine (proj1 (proj1 (functions_key_is_not_sent
                          (Samples.unavailable true [Samples.lookup_function])
                          [("model", JStr "m");
                           ("functions", MoreSamples.legacy_functions)] _ eq_refl)
                   eq_refl)).
Defined.

Lemma chat_completions_calls w request_json :
  calls_made (ChatCompletionsService.handle_chat_completions w request_json) =
    match ChatCompletionsService.inject_mcp_tools w request_json with
    | Raise _ => []
    | Ok injected =>
        if truthy (dict_get_default "stream" (JBool false) injected)
        then [CallStream (chat_body injected)]
        else [CallPost (chat_body injected)]
    end.
Proof.
  unfold calls_made, ChatCompletionsService.handle_chat_completions.
  unfold mbind at 1, M_bind at 1, obj_alloc at 1.
  destruct (ChatCompletionsService.inject_mcp_tools w request_json) as [injected|e];
    [|done].
  unfold mbind at 1, M_bind at 1, obj_update at 1. simpl heap.
  rewrite lookup_insert_eq, insert_insert_eq. simpl calls.
  unfold chat_body.
  destruct (truthy (dict_get_default "stream" (JBool false) injected)).
  - erewrite streaming_run by (simpl; apply lookup_insert_eq). done.
  - unfold mbind, M_bind.
    erewrite non_streaming_run by (simpl; apply lookup_insert_eq). done.
Qed.

Lemma create_response_calls w request_data :
  calls_made (ApiController.create_response w request_data) =
    match ApiController.prepare_chat_request w request_data with
    | Raise _ => []
    | Ok (chat_request, stream) =>
        if truthy stream then
          match py_len (dict_get_default "messages" (JArr []) chat_request) with
          | Raise _ => []
          | Ok _ => [CallStream chat_request]
          end
        else [CallPost chat_request]
    end.
Proof.
  unfold calls_made, ApiController.create_response.
  destruct (ApiController.prepare_chat_request w request_data)
    as [[chat_request stream]|e]; [|done].
  destruct (truthy stream); [|done].
  unfold ApiController.stream_response.
  destruct (py_len _); done.
Qed.

Lemma prepare_chat_request_backend w post stream request_data :
  ApiController.prepare_chat_request (with_backend w post stream) request_data
  = ApiController.prepare_chat_request w request_data.
Proof. reflexivity. Qed.

Lemma inject_mcp_tools_backend w post stream request_data :
  ChatCompletionsService.inject_mcp_tools (with_backend w post stream) request_data
  = ChatCompletionsService.inject_mcp_tools w request_data.
Proof. reflexivity. Qed.

(** X7.  Each endpoint asks the backend at most once, by the call recorded
    as made, and its reply depends on the backend through the answer to that
    call alone: with any other backend that answers the call in the same
    way, the endpoint makes the same call and gives the same reply.  Nothing
    is asked again with another request or in the other mode, and the reply
    to a request that fails before the call does not depend on the backend. *)
Theorem reply_depends_on_one_backend_answer (w : world)
    (post : pydict → result http_response)
    (stream : pydict → result stream_response) (request_data : pydict) :
  (length (calls_made (ApiController.create_response w request_data)) ≤ 1 ∧
   ((∀ c, c ∈ calls_made (ApiController.create_response w request_data) →
          same_answer w post stream c) →
    calls_made (ApiController.create_response (with_backend w post stream)
                  request_data)
      = calls_made (ApiController.create_response w request_data) ∧
    reply_of (ApiController.create_response (with_backend w post stream) request_data)
      = reply_of (ApiController.create_response w request_data))) ∧
  (length (calls_made
             (ChatCompletionsService.handle_chat_completions w request_data)) ≤ 1 ∧
   ((∀ c, c ∈ calls_made
                (ChatCompletionsService.handle_chat_completions w request_data) →
          same_answer w post stream c) →
    calls_made (ChatCompletionsService.handle_chat_completions
                  (with_backend w post stream) request_data)
      = calls_made (ChatCompletionsService.handle_chat_completions w request_data) ∧
    reply_of (ChatCompletionsService.handle_chat_completions
                (with_backend w post stream) request_data)
      = reply_of (ChatCompletionsService.handle_chat_completions w request_data))).
Proof.
  split.
  - pose proof (create_response_run w request_data) as R.
    pose proof (create_response_run (with_backend w post stream) request_data) as R'.
    rewrite !create_response_calls.
    rewrite prepare_chat_request_backend in *.
    destruct (ApiController.prepare_chat_request w request_data) as [[cr flag]|e].
    + destruct (truthy flag).
      * destruct (py_len _).
        -- destruct R as [R1 _], R' as [R1' _]. rewrite R1, R1'.
           split; [simpl; lia|]. intros H. split; [done|].
           pose proof (H _ (list_elem_of_here _ _)) as Hs. cbn [same_answer] in Hs.
           cbn [llm_stream with_backend]. rewrite Hs. reflexivity.
        -- destruct R as [R1 _], R' as [R1' _]. rewrite R1, R1'.
           split; [simpl; lia|]. done.
      * destruct R as [R1 _], R' as [R1' _]. rewrite R1, R1'.
        split; [simpl; lia|]. intros H. split; [done|].
        pose proof (H _ (list_elem_of_here _ _)) as Hp. cbn [same_answer] in Hp.
        unfold ApiController.post_and_convert.
        cbn [llm_post with_backend]. rewrite Hp. reflexivity.
    + destruct R as [R1 _], R' as [R1' _]. rewrite R1, R1'.
      split; [simpl; lia|]. done.
  - pose proof (chat_completions_run w request_data) as R.
    pose proof (chat_completions_run (with_backend w post stream) request_data) as R'.
    rewrite !chat_completions_calls.
    rewrite inject_mcp_tools_backend in *.
    destruct (ChatCompletionsService.inject_mcp_tools w request_data) as [injected|e].
    + destruct R as [R1 _], R' as [R1' _]. rewrite R1, R1'.
      unfold chat_reply.
      destruct (truthy (dict_get_default "stream" (JBool false) injected)).
      * split; [simpl; lia|]. intros H. split; [done|].
        pose proof (H _ (list_elem_of_here _ _)) as Hs. cbn [same_answer] in Hs.
        unfold ChatCompletionsService.stream_proxy.
        cbn [llm_stream with_backend]. rewrite Hs. reflexivity.
      * split; [simpl; lia|]. intros H. split; [done|].
        pose proof (H _ (list_elem_of_here _ _)) as Hp. cbn [same_answer] in Hp.
        unfold ChatCompletionsService.post_and_inspect.
        cbn [llm_post with_backend]. rewrite Hp. reflexivity.
    + destruct R as [R1 _], R' as [R1' _]. rewrite R1, R1'.
      split; [simpl; lia|]. done.
Qed.

Lemma reply_depends_on_one_backend_answer_witness :
  calls_made (ApiController.create_response Samples.echo Samples.echo_request)
    = [CallPost MoreSamples.echo_body] ∧
  reply_of (ApiController.create_response
              (with_backend Samples.echo (MoreSamples.picky_post MoreSamples.echo_body)
                 MoreSamples.picky_stream)
              Samples.echo_request)
    = reply_of (ApiController.create_response Samples.echo Samples.echo_request).
Proof.
  split; [reflexivity|].
  refine (proj2 (proj2 (proj1 (reply_depends_on_one_backend_answer Samples.echo
                                 (MoreSamples.picky_post MoreSamples.echo_body)
                                 MoreSamples.picky_stream Samples.echo_request)) _)).
  intros c H.
  assert (E : calls_made (ApiController.create_response Samples.echo
                            Samples.echo_request) = [CallPost MoreSamples.echo_body])
    by reflexivity.
  rewrite E in H. apply list_elem_of_singleton in H as ->.
  reflexivity.
Defined.

(** X8.  The chat-completions endpoint always replies.  For a body that is
    a JSON object: when the injection does not raise, the reply has status 200
    whatever the backend did, and it is a streaming response exactly when the
    client's [stream] value is true in Python's sense (a non-empty text such
    as [false] included); when the injection raises, the exception is not
    handled and nothing is sent.  For a body that is any other JSON value the
    service fails with [AttributeError], which is not handled, and nothing is
    sent. *)
Theorem chat_reply_is_200_or_unhandled (w : world) (request_json : json) :
  ∃ reply,
    reply_of (Endpoints.chat_completions w request_json) = Some reply ∧
    match request_json with
    | JObj request_data =>
        match ChatCompletionsService.inject_mcp_tools w request_data with
        | Ok _ =>
            reply_status reply = 200%Z ∧
            ((∃ frames, reply = StreamingResponse frames) ↔
             truthy (dict_get_default "stream" (JBool false) request_data) = true)
        | Raise e =>
            reply = UnhandledException e ∧
            requests_sent (Endpoints.chat_completions w request_json) = []
        end
    | _ =>
        reply = UnhandledException AttributeError ∧
        requests_sent (Endpoints.chat_completions w request_json) = []
    end.
Proof.
  destruct request_json as [| | | | |request_data];
    try (by eexists; split; [reflexivity|]).
  cbn [Endpoints.chat_completions].
  pose proof (chat_completions_run w request_data) as R.
  destruct (ChatCompletionsService.inject_mcp_tools w request_data)
    as [injected|e] eqn:I.
  - destruct R as [-> _]. eexists. split; [reflexivity|].
    assert (S : dict_get_default "stream" (JBool false) injected
                = dict_get_default "stream" (JBool false) request_data).
    { unfold dict_get_default. by rewrite (inject_mcp_tools_frame _ _ _ _ I). }
    unfold chat_reply. rewrite S.
    destruct (truthy _); (split; [reflexivity|]); split; try done.
    + intros _. by eexists.
    + by intros [frames ?].
  - destruct R as [-> ->]. by eexists.
Qed.

Lemma chat_reply_is_200_or_unhandled_witness :
  (∃ reply frames,
     reply_of (Endpoints.chat_completions (Samples.unavailable false [])
                 (JObj MoreSamples.request_with_text_stream))
       = Some reply ∧
     reply_status reply = 200%Z ∧
     reply = StreamingResponse frames) ∧
  reply_of (Endpoints.chat_completions (Samples.unavailable false []) (JArr []))
    = Some (UnhandledException AttributeError).
Proof.
  split.
  - destruct (chat_reply_is_200_or_unhandled (Samples.unavailable false [])
                (JObj MoreSamples.request_with_text_stream)) as (reply & E & S & F).
    destruct (proj2 F eq_refl) as [frames Hf].
    exists reply, frames. split; [exact E|]. split; [exact S|exact Hf].
  - destruct (chat_reply_is_200_or_unhandled (Samples.unavailable false []) (JArr []))
      as (reply & E & -> & _).
    exact E.
Defined.

Lemma inject_mcp_tools_exact w request_data ts :
  dict_get_default "tools" (JArr []) request_data = JArr ts →
  Forall (λ t, is_Some (nested_name t)) ts →
  Forall (λ f, is_Some (cache_name f)) (mcp_functions_cache w) →
  ChatCompletionsService.inject_mcp_tools w request_data =
    Ok (if nonempty (mcp_functions_cache w) && ENABLE_MCP_TOOLS w
        then dict_set "tools"
               (JArr (ts ++ map wrap_function
                              (not_declared (omap nested_name ts)
                                 (mcp_functions_cache w))))
               request_data
        else request_data).
Proof.
  intros T Fts Fc. unfold ChatCompletionsService.inject_mcp_tools, get_mcp_tools.
  destruct (nonempty (mcp_functions_cache w) && ENABLE_MCP_TOOLS w); [|done].
  rewrite T. cbn [py_iter mbind result_bind].
  rewrite (existing_tool_names_chat _ Fts). cbn [mbind result_bind].
  by rewrite (add_mcp_tools_chat _ _ _ Fc).
Qed.

(** X9.  On the chat-completions endpoint the injection is idempotent: for
    a request whose tools are named and a registry whose entries are named,
    injecting into the injected request changes nothing. *)
Theorem injection_is_idempotent (w : world) (request_data : pydict) (ts : list json) :
  dict_get_default "tools" (JArr []) request_data = JArr ts →
  Forall (λ t, is_Some (nested_name t)) ts →
  Forall (λ f, is_Some (cache_name f)) (mcp_functions_cache w) →
  ∃ injected,
    ChatCompletionsService.inject_mcp_tools w request_data = Ok injected ∧
    ChatCompletionsService.inject_mcp_tools w injected = Ok injected.
Proof.
  intros T Fts Fc. rewrite (inject_mcp_tools_exact _ _ _ T Fts Fc).
  eexists. split; [reflexivity|].
  destruct (nonempty (mcp_functions_cache w) && ENABLE_MCP_TOOLS w) eqn:A.
  - set (new := not_declared (omap nested_name ts) (mcp_functions_cache w)).
    assert (T' : dict_get_default "tools" (JArr [])
                   (dict_set "tools" (JArr (ts ++ map wrap_function new)) request_data)
                 = JArr (ts ++ map wrap_function new))
      by (unfold dict_get_default; by rewrite dict_get_set_eq).
    assert (Fnew : Forall (λ t, is_Some (nested_name t)) (map wrap_function new)).
    { apply Forall_fmap. eapply Forall_impl; [by apply not_declared_named|].
      intros f H. exact H. }
    rewrite (inject_mcp_tools_exact _ _ _ T' (proj2 (Forall_app _ _ _) (conj Fts Fnew)) Fc).
    rewrite A. f_equal. rewrite dict_set_set. f_equal. f_equal.
    rewrite not_declared_all; [by rewrite app_nil_r|].
    intros f I. rewrite Forall_forall in Fc. destruct (Fc f I) as [s E].
    exists s. split; [done|]. rewrite omap_app, names_of_wrapped.
    by apply not_declared_complete with f.
  - by rewrite (inject_mcp_tools_exact _ _ _ T Fts Fc), A.
Qed.

Lemma injection_is_idempotent_witness :
  ∃ injected,
    ChatCompletionsService.inject_mcp_tools
      (Samples.unavailable true [Samples.search_function; Samples.lookup_function])
      Samples.request_with_search = Ok injected ∧
    ChatCompletionsService.inject_mcp_tools
      (Samples.unavailable true [Samples.search_function; Samples.lookup_function])
      injected = Ok injected ∧
    tools_of injected = [Samples.search_tool; wrap_function Samples.lookup_function].
Proof.
  destruct (injection_is_idempotent
              (Samples.unavailable true [Samples.search_function; Samples.lookup_function])
              Samples.request_with_search [Samples.search_tool] eq_refl)
    as (injected & E1 & E2); [repeat constructor; by eexists..|].
  exists injected. split; [exact E1|]. split; [exact E2|].
  vm_compute in E1. by injection E1 as <-.
Defined.

Lemma nameless_entry_raises (cache : list pydict) :
  Exists (λ f, dict_get "name" f = None) cache →
  comprehension ApiController.mcp_tool_of cache = Raise (KeyError "name").
Proof.
  induction 1 as [f cache H|f cache X IH].
  - cbn [comprehension]. unfold ApiController.mcp_tool_of, py_getitem. by rewrite H.
  - cbn [comprehension]. rewrite IH.
    unfold ApiController.mcp_tool_of, py_getitem. by destruct (dict_get "name" f).
Qed.

(** X10.  With the injection active, one registry entry without a [name]
    makes every [/responses] request fail: [f["name"]] raises [KeyError]
    before the client's tools are looked at, the client gets a 500 and
    nothing is sent to the backend. *)
Theorem nameless_registry_entry_fails_responses (w : world) (request_data : pydict) :
  ENABLE_MCP_TOOLS w = true →
  Exists (λ f, dict_get "name" f = None) (mcp_functions_cache w) →
  ApiController.log_input_summary request_data = Ok tt →
  reply_of (ApiController.create_response w request_data)
    = Some (ErrorResponse 500
              ("Error processing request: " +:+ py_str w (KeyError "name"))) ∧
  requests_sent (ApiController.create_response w request_data) = [].
Proof.
  intros F X L.
  assert (P : ApiController.prepare_chat_request w request_data
              = Raise (KeyError "name")).
  { unfold ApiController.prepare_chat_request, ApiController.inject_into_request.
    rewrite L, F. cbn [mbind result_bind].
    destruct (mcp_functions_cache w) as [|f cache] eqn:C; [by inversion X|].
    cbn [nonempty andb]. by rewrite (nameless_entry_raises _ X). }
  pose proof (create_response_run w request_data) as R. rewrite P in R. exact R.
Qed.

Lemma nameless_registry_entry_fails_responses_witness :
  reply_of (ApiController.create_response
              (Samples.unavailable true
                 [Samples.lookup_function; MoreSamples.nameless_function])
              Samples.plain_request)
    = Some (ErrorResponse 500 "Error processing request: name").
Proof.
  refine (proj1 (nameless_registry_entry_fails_responses
                   (Samples.unavailable true
                      [Samples.lookup_function; MoreSamples.nameless_function])
                   Samples.plain_request eq_refl _ eq_refl)).
  right. left. reflexivity.
Defined.

Lemma add_mcp_tool_first acc f :
  hashable (dict_get_default "name" JNull f) = true →
  ChatCompletionsService.add_mcp_tool [] (JArr acc) f
    = Ok (JArr (acc ++ [wrap_function f])).
Proof.
  intros H. unfold ChatCompletionsService.add_mcp_tool, py_in_set, py_hash.
  by rewrite H.
Qed.

Lemma append_all_registry (cache : list pydict) acc :
  Forall (λ f, hashable (dict_get_default "name" JNull f) = true) cache →
  for_each (ChatCompletionsService.add_mcp_tool []) cache (JArr acc)
    = Ok (JArr (acc ++ map wrap_function cache)).
Proof.
  intros F. revert acc. induction F as [|f cache H F IH]; intros acc.
  - simpl. by rewrite app_nil_r.
  - cbn [for_each]. rewrite (add_mcp_tool_first _ _ H). cbn [mbind result_bind].
    rewrite IH. simpl. by rewrite <- app_assoc.
Qed.

(** X11.  On the chat-completions endpoint a request that declares no tools
    gets, with the injection active, every registry entry as a tool: in cache
    order, each entry whole under [function], an entry without a name
    included. *)
Theorem request_without_tools_gets_the_registry (w : world) (request_data : pydict) :
  ENABLE_MCP_TOOLS w = true →
  mcp_functions_cache w ≠ [] →
  dict_get "tools" request_data = None →
  Forall (λ f, hashable (dict_get_default "name" JNull f) = true)
    (mcp_functions_cache w) →
  ∃ body,
    requests_sent (ChatCompletionsService.handle_chat_completions w request_data)
      = [body] ∧
    tools_of body = map wrap_function (mcp_functions_cache w).
Proof.
  intros F N T H.
  assert (I : ChatCompletionsService.inject_mcp_tools w request_data
              = Ok (dict_set "tools" (JArr (map wrap_function (mcp_functions_cache w)))
                      request_data)).
  { unfold ChatCompletionsService.inject_mcp_tools, get_mcp_tools, dict_get_default.
    rewrite F, T. destruct (mcp_functions_cache w) as [|f cache] eqn:C; [done|].
    cbn [nonempty andb py_iter comprehension mbind result_bind].
    by rewrite (append_all_registry _ _ H). }
  pose proof (chat_completions_run w request_data) as R. rewrite I in R.
  destruct R as [_ R]. eexists. split; [exact R|].
  rewrite chat_body_tools. unfold tools_of. by rewrite dict_get_set_eq.
Qed.

Lemma request_without_tools_gets_the_registry_witness :
  ∃ body,
    requests_sent (ChatCompletionsService.handle_chat_completions
                     (Samples.unavailable true
                        [Samples.lookup_function; MoreSamples.nameless_function])
                     Samples.plain_request) = [body] ∧
    tools_of body = [wrap_function Samples.lookup_function;
                     wrap_function MoreSamples.nameless_function].
Proof.
  apply (request_without_tools_gets_the_registry
           (Samples.unavailable true
              [Samples.lookup_function; MoreSamples.nameless_function])
           Samples.plain_request); [reflexivity|discriminate|reflexivity|].
  repeat constructor.
Defined.

(** X12.  With the injection active, a request whose [tools] is null is
    refused on both endpoints before anything is sent: iterating over it
    raises [TypeError], which the chat-completions endpoint does not handle
    and [/responses] turns into a 500. *)
Theorem null_tools_are_refused_when_injecting (w : world) (request_data : pydict) :
  ENABLE_MCP_TOOLS w = true →
  mcp_functions_cache w ≠ [] →
  dict_get "tools" request_data = Some JNull →
  (reply_of (ChatCompletionsService.handle_chat_completions w request_data)
     = Some (UnhandledException TypeError) ∧
   requests_sent (ChatCompletionsService.handle_chat_completions w request_data) = []) ∧
  (Forall (λ f, is_Some (cache_name f)) (mcp_functions_cache w) →
   ApiController.log_input_summary request_data = Ok tt →
   reply_of (ApiController.create_response w request_data)
     = Some (ErrorResponse 500 ("Error processing request: " +:+ py_str w TypeError)) ∧
   requests_sent (ApiController.create_response w request_data) = []).
Proof.
  intros F N T.
  assert (A : nonempty (mcp_functions_cache w) && ENABLE_MCP_TOOLS w = true).
  { rewrite F. by destruct (mcp_functions_cache w). }
  split.
  - assert (I : ChatCompletionsService.inject_mcp_tools w request_data = Raise TypeError).
    { unfold ChatCompletionsService.inject_mcp_tools, get_mcp_tools, dict_get_default.
      by rewrite A, T. }
    pose proof (chat_completions_run w request_data) as R. rewrite I in R. exact R.
  - intros Fc L.
    assert (P : ApiController.prepare_chat_request w request_data = Raise TypeError).
    { unfold ApiController.prepare_chat_request, ApiController.inject_into_request.
      rewrite L, A. cbn [mbind result_bind]. rewrite (mcp_tools_of_cache _ Fc).
      unfold dict_get_default. by rewrite T. }
    pose proof (create_response_run w request_data) as R. rewrite P in R. exact R.
Qed.

Lemma null_tools_are_refused_when_injecting_witness :
  reply_of (ChatCompletionsService.handle_chat_completions
              (Samples.unavailable true [Samples.lookup_function])
              MoreSamples.request_with_null_tools)
    = Some (UnhandledException TypeError) ∧
  reply_of (ApiController.create_response
              (Samples.unavailable true [Samples.lookup_function])
              MoreSamples.request_with_null_tools)
    = Some (ErrorResponse 500 "Error processing request: TypeError").
Proof.
  destruct (null_tools_are_refused_when_injecting
              (Samples.unavailable true [Samples.lookup_function])
              MoreSamples.request_with_null_tools eq_refl) as [[A _] B];
    [discriminate|reflexivity|].
  split; [exact A|].
  apply B; [repeat constructor; by eexists|reflexivity].
Defined.

(* ===================================================================== *)
(** * More about api_controller.py *)
(* ===================================================================== *)

Lemma add_function_step tools seen f s :
  cache_name f = Some s →
  ApiController.add_function (JArr tools, map JStr seen) (JObj f)
    = Ok (if bool_decide (s ∈ seen) then (JArr tools, map JStr seen)
          else (JArr (tools ++ [wrap_function f]), map JStr (seen ++ [s]))).
Proof.
  intros H. pose proof (cache_name_inv _ _ H) as Hn.
  unfold ApiController.add_function, py_get, dict_get_default. rewrite Hn.
  cbn [mbind result_bind]. unfold py_in_set. cbn [py_hash hashable mbind result_bind].
  rewrite set_mem_strings. cbn [mret result_ret].
  destruct (bool_decide (s ∈ seen)); [done|].
  cbn [py_append mbind result_bind mret result_ret]. by rewrite map_app.
Qed.

Lemma add_functions (fs : list pydict) : ∀ tools seen,
  Forall (λ f, is_Some (cache_name f)) fs →
  for_each ApiController.add_function (map JObj fs) (JArr tools, map JStr seen)
    = Ok (JArr (tools ++ map wrap_function (keep_first seen fs)),
          map JStr (seen ++ omap cache_name (keep_first seen fs))).
Proof.
  induction fs as [|f fs IH]; intros tools seen F.
  - simpl. by rewrite !app_nil_r.
  - apply Forall_cons in F as [[s H] F].
    cbn [map for_each keep_first]. rewrite (add_function_step _ _ _ _ H), H.
    cbn [mbind result_bind]. destruct (bool_decide (s ∈ seen)).
    + by apply IH.
    + rewrite (IH _ _ F). cbn [map omap list_omap]. rewrite H.
      by rewrite <- !app_assoc.
Qed.

Lemma keep_first_names (fs : list pydict) : ∀ seen,
  NoDup seen → NoDup (seen ++ omap cache_name (keep_first seen fs)).
Proof.
  induction fs as [|f fs IH]; intros seen N.
  - simpl. by rewrite app_nil_r.
  - cbn [keep_first]. destruct (cache_name f) as [s|] eqn:E.
    + case_bool_decide as I; [by apply IH|].
      cbn [omap list_omap]. rewrite E.
      change (s :: omap cache_name (keep_first (seen ++ [s]) fs))
        with ([s] ++ omap cache_name (keep_first (seen ++ [s]) fs)).
      rewrite app_assoc. apply IH. apply NoDup_app. split; [done|]. split.
      * intros x Hx ->%list_elem_of_singleton. done.
      * apply NoDup_singleton.
    + cbn [omap list_omap]. rewrite E. by apply IH.
Qed.

(** X13.  With the injection active, a converted request in the legacy
    shape (a list [functions] of named functions and no [tools]) is sent
    with tools only: each function that is the first of its name, in order
    and whole under [function], then the registry entries whose name no kept
    function has.  No two of the kept functions have the same name, and the
    key [functions] is gone. *)
Theorem legacy_functions_become_tools
    (w : world) (chat_request : pydict) (fs : list pydict) :
  ENABLE_MCP_TOOLS w = true →
  mcp_functions_cache w ≠ [] →
  dict_get "tools" chat_request = None →
  dict_get "functions" chat_request = Some (JArr (map JObj fs)) →
  Forall (λ f, is_Some (cache_name f)) fs →
  Forall (λ f, is_Some (cache_name f)) (mcp_functions_cache w) →
  ∃ injected,
    ApiController.inject_into_chat_request w chat_request = Ok injected ∧
    tools_of injected
      = map wrap_function (keep_first [] fs) ++
        map wrap_function
          (not_declared (omap cache_name (keep_first [] fs)) (mcp_functions_cache w)) ∧
    NoDup (omap cache_name (keep_first [] fs)) ∧
    dict_get "functions" injected = None.
Proof.
  intros F N T Fs Ff Fc.
  unfold ApiController.inject_into_chat_request.
  rewrite F. destruct (nonempty (mcp_functions_cache w)) eqn:NE;
    [|by destruct (mcp_functions_cache w)].
  cbn [andb]. unfold dict_has. rewrite T. cbv beta iota zeta.
  assert (D : dict_get_default "tools" (JArr []) (dict_set "tools" (JArr []) chat_request)
              = JArr []) by (unfold dict_get_default; by rewrite dict_get_set_eq).
  rewrite D. cbn [py_iter mbind result_bind for_each].
  unfold dict_get_default. rewrite Fs. cbn [py_iter mbind result_bind].
  pose proof (add_functions fs [] [] Ff) as AF. cbn [map app] in AF.
  rewrite AF. cbn [mbind result_bind].
  change ApiController.add_mcp_function with ChatCompletionsService.add_mcp_tool.
  rewrite (add_mcp_tools_chat _ _ _ Fc). cbn [mbind result_bind mret result_ret].
  eexists. split; [reflexivity|]. split; [|split].
  - unfold tools_of. rewrite dict_get_pop_ne by done. by rewrite dict_get_set_eq.
  - apply (keep_first_names fs []). constructor.
  - apply dict_get_pop_eq.
Qed.

Lemma legacy_functions_become_tools_witness :
  ∃ injected,
    ApiController.inject_into_chat_request
      (Samples.unavailable true [Samples.search_function; Samples.lookup_function])
      [("model", JStr "m");
       ("functions", JArr (map JObj [[("name", JStr "search")];
                                     [("name", JStr "fetch")];
                                     [("name", JStr "search"); ("strict", JBool true)]]))]
      = Ok injected ∧
    omap nested_name (tools_of injected) = ["search"; "fetch"; "lookup"].
Proof.
  destruct (legacy_functions_become_tools
              (Samples.unavailable true [Samples.search_function; Samples.lookup_function])
              [("model", JStr "m");
               ("functions", JArr (map JObj [[("name", JStr "search")];
                                             [("name", JStr "fetch")];
                                             [("name", JStr "search");
                                              ("strict", JBool true)]]))]
              [[("name", JStr "search")]; [("name", JStr "fetch")];
               [("name", JStr "search"); ("strict", JBool true)]]
              eq_refl) as (injected & E & T & _);
    [discriminate|reflexivity|reflexivity|repeat constructor; by eexists..|].
  exists injected. split; [exact E|]. by rewrite T.
Defined.

(** X14.  A [/responses] request whose [input] is a number other than zero,
    or true, fails while the input summary is logged: [len] raises
    [TypeError], the client gets a 500 and nothing is sent to the backend. *)
Theorem unsized_input_is_a_500 (w : world) (request_data : pydict) (v : json) :
  dict_get "input" request_data = Some v →
  (v = JBool true ∨ ∃ n, v = JNum n ∧ n ≠ 0%Z) →
  reply_of (ApiController.create_response w request_data)
    = Some (ErrorResponse 500 ("Error processing request: " +:+ py_str w TypeError)) ∧
  requests_sent (ApiController.create_response w request_data) = [].
Proof.
  intros I V.
  assert (P : ApiController.prepare_chat_request w request_data = Raise TypeError).
  { unfold ApiController.prepare_chat_request, ApiController.log_input_summary.
    rewrite I. destruct V as [->|(n & -> & N)]; [done|].
    cbn [truthy]. by rewrite (proj2 (Z.eqb_neq n 0) N). }
  pose proof (create_response_run w request_data) as R. rewrite P in R. exact R.
Qed.

Lemma unsized_input_is_a_500_witness :
  reply_of (ApiController.create_response (Samples.unavailable false [])
              MoreSamples.request_with_number_input)
    = Some (ErrorResponse 500 "Error processing request: TypeError").
Proof.
  refine (proj1 (unsized_input_is_a_500 (Samples.unavailable false [])
                   MoreSamples.request_with_number_input (JNum 5) eq_refl _)).
  right. exists 5%Z. split; [reflexivity|discriminate].
Defined.

Lemma prepared_stream_is_the_clients w request_data chat_request stream :
  ApiController.prepare_chat_request w request_data = Ok (chat_request, stream) →
  stream = dict_get_default "stream" (JBool false) request_data.
Proof.
  unfold ApiController.prepare_chat_request. intros H.
  destruct (ApiController.log_input_summary request_data); [|done].
  cbn [mbind result_bind] in H.
  destruct (ApiController.inject_into_request w request_data) as [inj|] eqn:I; [|done].
  cbn [mbind result_bind] in H.
  destruct (convert_responses_to_chat_completions w inj); [|done].
  cbn [mbind result_bind] in H.
  destruct (ApiController.inject_into_chat_request w _); [|done].
  cbn [mbind result_bind] in H. injection H as _ <-.
  unfold dict_get_default. by rewrite (inject_into_request_frame _ _ _ _ I).
Qed.

(** X15.  Once the backend request of a [/responses] request is prepared,
    the streaming mode is the client's own [stream] value, read in Python's
    sense of truth after the injection, which does not change it: the reply
    is a streaming response, sent with status 200, exactly when that value is
    true. *)
Theorem responses_mode_is_the_clients
    (w : world) (request_data chat_request : pydict) (stream : json) :
  ApiController.prepare_chat_request w request_data = Ok (chat_request, stream) →
  stream = dict_get_default "stream" (JBool false) request_data ∧
  ((∃ frames, reply_of (ApiController.create_response w request_data)
              = Some (StreamingResponse frames))
   ↔ truthy (dict_get_default "stream" (JBool false) request_data) = true).
Proof.
  intros P. pose proof (prepared_stream_is_the_clients _ _ _ _ P) as S.
  split; [exact S|]. subst stream.
  pose proof (create_response_run w request_data) as R. rewrite P in R.
  destruct (truthy _).
  - split; [done|]. intros _.
    destruct (py_len _); destruct R as [-> _]; by eexists.
  - destruct R as [-> _]. split; [|done]. intros [frames H].
    destruct (ApiController.post_and_convert w chat_request); discriminate H.
Qed.

Lemma responses_mode_is_the_clients_witness :
  ∃ frames,
    reply_of (ApiController.create_response (Samples.unavailable false [])
                MoreSamples.request_with_text_stream)
      = Some (StreamingResponse frames).
Proof.
  apply (responses_mode_is_the_clients (Samples.unavailable false [])
           MoreSamples.request_with_text_stream
           [("model", JStr "m"); ("messages", JArr []); ("stream", JStr "false")]
           (JStr "false") eq_refl).
  reflexivity.
Defined.

(** X16.  A [/responses] stream that the backend opens with status 200 and
    that the reconstruction ends without an exception is passed on as it is:
    the client gets the frames of the reconstruction, in order, and no frame
    of the gateway's own. *)
Theorem complete_stream_is_passed_on
    (w : world) (request_data chat_request : pydict) (stream : json)
    (response : stream_response) (n : nat) :
  ApiController.prepare_chat_request w request_data = Ok (chat_request, stream) →
  truthy stream = true →
  py_len (dict_get_default "messages" (JArr []) chat_request) = Ok n →
  llm_stream w chat_request = Ok response →
  stream_status response = 200%Z →
  raised (process_chat_completions_stream w response chat_request) = None →
  reply_of (ApiController.create_response w request_data)
    = Some (StreamingResponse
              (yielded (process_chat_completions_stream w response chat_request))).
Proof.
  intros P T L S C N.
  pose proof (create_response_run w request_data) as R. rewrite P, T, L in R.
  destruct R as [-> _]. unfold frames_of_stream. rewrite S.
  rewrite bool_decide_eq_false_2 by (intros X; by apply X).
  cbn zeta. by rewrite N, app_nil_r.
Qed.

Lemma complete_stream_is_passed_on_witness :
  reply_of (ApiController.create_response MoreSamples.streaming_backend
              Samples.streaming_request)
    = Some (StreamingResponse [Raw "event: response.created";
                               Raw "event: response.completed"]).
Proof.
  apply (complete_stream_is_passed_on MoreSamples.streaming_backend
           Samples.streaming_request
           [("model", JStr "m"); ("messages", JArr []); ("stream", JBool true)]
           (JBool true)
           (StreamResponse 200 (Gen ["data: a"; "data: [DONE]"] None) (Ok EmptyString))
           0); reflexivity.
Defined.

(** X17.  A non-streaming [/responses] request whose backend answers with a
    2xx status: the client gets the converted answer with status 200 when the
    body is JSON and the conversion succeeds; a body that is not JSON, or an
    answer the conversion refuses, gives a 500 whose detail wraps the text of
    the failure twice. *)
Theorem answered_request_is_converted_or_a_500
    (w : world) (request_data chat_request : pydict) (stream : json)
    (response : http_response) :
  ApiController.prepare_chat_request w request_data = Ok (chat_request, stream) →
  truthy stream = false →
  llm_post w chat_request = Ok response →
  raise_for_status response = Ok tt →
  reply_of (ApiController.create_response w request_data) =
    Some match json_body response with
         | Ok response_data =>
             match convert_chat_completions_to_responses w response_data chat_request with
             | Ok responses_response => JSONResponse 200 responses_response
             | Raise e =>
                 ErrorResponse 500
                   ("Error processing request: " +:+
                    py_str w (HTTPException 500
                                ("Error processing non-streaming request: " +:+
                                 py_str w e)))
             end
         | Raise e =>
             ErrorResponse 500
               ("Error processing request: " +:+
                py_str w (HTTPException 500
                            ("Error processing non-streaming request: " +:+
                             py_str w e)))
         end.
Proof.
  intros P T L S.
  pose proof (create_response_run w request_data) as R. rewrite P, T in R.
  destruct R as [-> _]. unfold ApiController.post_and_convert.
  rewrite L. cbn [mbind result_bind]. rewrite S. cbn [mbind result_bind].
  destruct (json_body response) as [response_data|e]; [|done].
  cbn [mbind result_bind].
  by destruct (convert_chat_completions_to_responses w response_data chat_request).
Qed.

Lemma answered_request_is_converted_or_a_500_witness :
  reply_of (ApiController.create_response
              (MoreSamples.backend false [] MoreSamples.no_choices)
              Samples.plain_request)
    = Some (ErrorResponse 500
              "Error processing request: 500: Error processing non-streaming request: choices is empty").
Proof.
  apply (answered_request_is_converted_or_a_500
           (MoreSamples.backend false [] MoreSamples.no_choices)
           Samples.plain_request
           [("model", JStr "m"); ("messages", JArr []); ("stream", JBool false)]
           (JBool false) (HttpResponse 200 (Ok MoreSamples.no_choices)));
    reflexivity.
Defined.

Section EndpointsFacts.

Import Endpoints.

(* ===================================================================== *)
(** * common/config.py: the flag *)
(* ===================================================================== *)

Lemma lower_char_idempotent c : Config.lower_char (Config.lower_char c) = Config.lower_char c.
Proof. destruct c as [[] [] [] [] [] [] [] []]; reflexivity. Qed.

Lemma lower_idempotent s : Config.lower (Config.lower s) = Config.lower s.
Proof.
  induction s as [|c s IH]; [done|].
  cbn [Config.lower]. by rewrite lower_char_idempotent, IH.
Qed.

(** X18.  The flag does not depend on the case of the value: a value and
    its lower-case form switch the injection the same way, and the flag is on
    exactly when the lower-case form is one of 1, true and yes; no value at
    all leaves it off. *)
Theorem flag_ignores_the_case (s : string) :
  Config.ENABLE_MCP_TOOLS (Some (Config.lower s)) = Config.ENABLE_MCP_TOOLS (Some s) ∧
  (Config.ENABLE_MCP_TOOLS (Some s) = true
   ↔ Config.lower s = "1" ∨ Config.lower s = "true" ∨ Config.lower s = "yes") ∧
  Config.ENABLE_MCP_TOOLS None = false.
Proof.
  split; [|split; [|reflexivity]].
  - unfold Config.ENABLE_MCP_TOOLS. cbn [default from_option id]. by rewrite lower_idempotent.
  - unfold Config.ENABLE_MCP_TOOLS. cbn [default from_option id]. rewrite bool_decide_eq_true.
    rewrite !elem_of_cons. split.
    + intros [?|[?|[?|H]]]; auto. by apply elem_of_nil in H.
    + intros [?|[?|?]]; auto.
Qed.

(* ===================================================================== *)
(** * api_controller.py: health and proxy *)
(* ===================================================================== *)

(** X19.  The health endpoint never fails: it reports [ok] exactly when the
    backend answered the models request with status 200, [degraded] for every
    other status and for every exception, the adapter always as running, and
    the backend flag in step with the status. *)
Theorem health_is_ok_exactly_on_200 (get_models : result Z) :
  dict_get "adapter" (health_check get_models) = Some (JStr "running") ∧
  (dict_get "status" (health_check get_models) = Some (JStr "ok")
   ↔ get_models = Ok 200%Z) ∧
  (dict_get "status" (health_check get_models) = Some (JStr "degraded")
   ↔ get_models ≠ Ok 200%Z) ∧
  (dict_get "llm_backend" (health_check get_models) = Some (JBool true)
   ↔ get_models = Ok 200%Z).
Proof.
  split; [reflexivity|].
  set (up := try_except (status ← get_models; mret (bool_decide (status = 200%Z)))
               (λ _, false)).
  assert (S : dict_get "status" (health_check get_models)
              = Some (JStr (if up then "ok" else "degraded"))) by reflexivity.
  assert (L : dict_get "llm_backend" (health_check get_models) = Some (JBool up))
    by reflexivity.
  rewrite S, L.
  assert (U : up = true ↔ get_models = Ok 200%Z).
  { unfold up. destruct get_models as [status|e]; cbn; [|done].
    rewrite bool_decide_eq_true. split; [by intros ->|by intros [= ->]]. }
  destruct up.
  - pose proof (proj1 U eq_refl). intuition congruence.
  - assert (get_models ≠ Ok 200%Z) by (intros X; apply U in X; done).
    intuition congruence.
Qed.

(** ** The headers the proxy forwards *)

Lemma header_set_elem k v d k' v' :
  (k', v') ∈ header_set k v d → (k', v') = (k, v) ∨ (k', v') ∈ d.
Proof.
  induction d as [|[k0 v0] d IH]; cbn [header_set].
  - intros ->%list_elem_of_singleton. by left.
  - case_bool_decide as E.
    + subst. intros [->|H]%elem_of_cons; [by left|right; by right].
    + intros [->|H]%elem_of_cons; [right; left|].
      destruct (IH H) as [?|?]; [by left|right; by right].
Qed.

Lemma header_set_keys k v d :
  map fst (header_set k v d) = if bool_decide (k ∈ map fst d) then map fst d
                               else map fst d ++ [k].
Proof.
  induction d as [|[k0 v0] d IH]; cbn [header_set map fst]; [done|].
  destruct (decide (k = k0)) as [->|E].
  - rewrite (bool_decide_eq_true_2 (k0 = k0)) by done. cbn [map fst].
    rewrite bool_decide_eq_true_2 by apply list_elem_of_here. done.
  - rewrite (bool_decide_eq_false_2 (k = k0)) by done. cbn [map fst]. rewrite IH.
    destruct (decide (k ∈ map fst d)) as [I|I].
    + rewrite (bool_decide_eq_true_2 _ I).
      rewrite bool_decide_eq_true_2; [done|]. by right.
    + rewrite (bool_decide_eq_false_2 _ I).
      rewrite bool_decide_eq_false_2; [done|].
      intros [?|?]%elem_of_cons; done.
Qed.

Lemma header_set_new k v d : k ∉ map fst d → header_set k v d = d ++ [(k, v)].
Proof.
  induction d as [|[k0 v0] d IH]; cbn [header_set map fst]; [done|].
  intros N. rewrite bool_decide_eq_false_2.
  - rewrite IH; [done|]. intros I. apply N. by right.
  - intros ->. apply N. left.
Qed.

Lemma build_sound items : ∀ d k v,
  (k, v) ∈ build_headers d items →
  (k, v) ∈ d ∨ ((k, v) ∈ items ∧ Config.lower k ≠ "host").
Proof.
  induction items as [|[k0 v0] items IH]; intros d k v; cbn [build_headers foldl fst snd].
  - by left.
  - case_bool_decide as E; intros H; apply IH in H as [H|[H1 H2]].
    + by left.
    + right. split; [by right|done].
    + apply header_set_elem in H as [[= -> ->]|H]; [|by left].
      right. split; [left|done].
    + right. split; [by right|done].
Qed.

Lemma build_keys items : ∀ d, NoDup (map fst d) → NoDup (map fst (build_headers d items)).
Proof.
  induction items as [|[k0 v0] items IH]; intros d N; cbn [build_headers foldl fst snd]; [done|].
  case_bool_decide; apply IH; [done|].
  rewrite header_set_keys. case_bool_decide as I; [done|].
  apply NoDup_app. split; [done|]. split; [|apply NoDup_singleton].
  intros x Hx ->%list_elem_of_singleton. done.
Qed.

Lemma build_distinct items : ∀ d,
  NoDup (map fst d ++ map fst items) →
  build_headers d items = d ++ filter (λ kv, Config.lower (fst kv) ≠ "host") items.
Proof.
  induction items as [|[k0 v0] items IH]; intros d N; cbn [build_headers foldl fst snd].
  - by rewrite app_nil_r.
  - rewrite filter_cons. cbn [fst]. cbn [map fst] in N.
    case_bool_decide as E.
    + rewrite decide_False by (by intros X). apply IH.
      apply NoDup_app in N as (N1 & N2 & N3). apply NoDup_cons in N3 as [_ N3].
      apply NoDup_app. split; [done|]. split; [|done].
      intros x Hx I. apply (N2 x Hx). by right.
    + rewrite decide_True by done.
      assert (K : k0 ∉ map fst d).
      { apply NoDup_app in N as (_ & N2 & _). intros I. apply (N2 _ I). left. }
      rewrite (header_set_new _ _ _ K).
      change (foldl _ (d ++ [(k0, v0)]) items) with (build_headers (d ++ [(k0, v0)]) items).
      rewrite IH.
      * by rewrite <- app_assoc.
      * rewrite map_app. cbn [map fst]. rewrite <- app_assoc. exact N.
Qed.

(** X20.  The headers the proxy forwards never hold a [host] header, in
    whatever case the name is written; every header forwarded is a header of
    the inbound request, and no name is forwarded twice.  When the inbound
    names are pairwise distinct, the forwarded headers are the inbound ones
    without [host], in order. *)
Theorem host_header_is_not_forwarded (h : headers) :
  (∀ k v, (k, v) ∈ forwarded_headers h → (k, v) ∈ h ∧ Config.lower k ≠ "host") ∧
  NoDup (map fst (forwarded_headers h)) ∧
  (NoDup (map fst h) →
   forwarded_headers h = filter (λ kv, Config.lower (fst kv) ≠ "host") h).
Proof.
  split; [|split].
  - intros k v H. apply (build_sound h []) in H as [H|H]; [by apply elem_of_nil in H|done].
  - apply (build_keys h []). constructor.
  - intros N. apply (build_distinct h []). exact N.
Qed.

Lemma host_header_is_not_forwarded_witness :
  forwarded_headers [("Host", "gateway:8080"); ("accept", "text/event-stream");
                     ("x-trace", "1")]
    = [("accept", "text/event-stream"); ("x-trace", "1")].
Proof.
  destruct (host_header_is_not_forwarded
              [("Host", "gateway:8080"); ("accept", "text/event-stream");
               ("x-trace", "1")]) as (_ & _ & A).
  rewrite A; [reflexivity|]. compute_done.
Defined.

(** X21.  A proxied request that does not ask for a stream (no body, a body
    that is not JSON, or a JSON object whose [stream] is absent or false) is
    forwarded once, to [base_url/v1/path], and the answer goes back as it is:
    the content, the headers and the status of the backend, an error status
    included. *)
Theorem proxy_answer_is_passed_back
    (u : upstream) (r : proxy_request) (answer : backend_answer) :
  (request_body r = EmptyString ∨
   json_loads u (request_body r) = Raise JSONDecodeError ∨
   ∃ d, json_loads u (request_body r) = Ok (JObj d) ∧
        truthy (dict_get_default "stream" (JBool false) d) = false) →
  client_request u (method r) (proxy_url u r)
    (forwarded_headers (request_headers r)) (request_body r) = Ok answer →
  proxy_endpoint u r
    = ProxyResponse (answer_content answer) (answer_status answer)
        (answer_headers answer) ∧
  proxy_status (proxy_endpoint u r) = answer_status answer.
Proof.
  intros B A.
  assert (W : ∃ v, wants_stream u (request_body r) = Ok v ∧ truthy v = false).
  { unfold wants_stream. destruct B as [->|[B|(d & B & T)]].
    - by exists (JBool false).
    - case_bool_decide; [by exists (JBool false)|]. rewrite B. by exists (JBool false).
    - case_bool_decide; [by exists (JBool false)|]. rewrite B.
      by exists (dict_get_default "stream" (JBool false) d). }
  destruct W as (v & W & T).
  assert (E : proxy_endpoint u r
              = ProxyResponse (answer_content answer) (answer_status answer)
                  (answer_headers answer)).
  { unfold proxy_endpoint, proxy_body. rewrite W. cbn [mbind result_bind].
    rewrite T. cbv zeta. by rewrite A. }
  split; [exact E|]. by rewrite E.
Qed.

Lemma proxy_answer_is_passed_back_witness :
  proxy_endpoint MoreSamples.not_found MoreSamples.models_request
    = ProxyResponse "missing" 404
        [("accept", "text/event-stream"); ("x-trace", "1")].
Proof.
  refine (proj1 (proxy_answer_is_passed_back MoreSamples.not_found
                   MoreSamples.models_request
                   (BackendAnswer "missing" 404
                      [("accept", "text/event-stream"); ("x-trace", "1")]) _ eq_refl)).
  right. left. reflexivity.
Defined.

(** X22.  A proxied request whose body is JSON and not an object (a list, a
    number, a text, true, false or null) is not forwarded: reading its
    [stream] raises [AttributeError], only [JSONDecodeError] is passed over,
    and the client gets a 500. *)
Theorem proxy_refuses_json_that_is_no_object
    (u : upstream) (r : proxy_request) (v : json) :
  request_body r ≠ EmptyString →
  json_loads u (request_body r) = Ok v →
  (∀ d, v ≠ JObj d) →
  proxy_endpoint u r
    = ProxyError 500 ("Error proxying request: " +:+ exn_str u AttributeError).
Proof.
  intros B L N. unfold proxy_endpoint, proxy_body, wants_stream.
  rewrite bool_decide_eq_false_2 by done. rewrite L.
  destruct v; try done. by destruct (N fields).
Qed.

Lemma proxy_refuses_json_that_is_no_object_witness :
  proxy_endpoint MoreSamples.list_body MoreSamples.models_request
    = ProxyError 500 "Error proxying request: AttributeError".
Proof.
  apply (proxy_refuses_json_that_is_no_object MoreSamples.list_body
           MoreSamples.models_request (JArr [JNum 1])); [discriminate|reflexivity|].
  intros d. discriminate.
Defined.

(** X23.  Failures of the backend behind the proxy.  A non-streaming
    request whose backend call raises gets a 500 with the text of the
    exception.  A streaming request never gets an error reply: the streaming
    response is sent with status 200 and the media type of the inbound
    [accept] header ([application/json] without one), it carries the chunks
    that came, and an exception ends it where it is raised, with no error
    frame. *)
Theorem proxy_failures (u : upstream) (r : proxy_request) :
  (∀ v e, wants_stream u (request_body r) = Ok v → truthy v = false →
     client_request u (method r) (proxy_url u r)
       (forwarded_headers (request_headers r)) (request_body r) = Raise e →
     proxy_endpoint u r
       = ProxyError 500 ("Error proxying request: " +:+ exn_str u e)) ∧
  (∀ d, request_body r ≠ EmptyString →
     json_loads u (request_body r) = Ok (JObj d) →
     truthy (dict_get_default "stream" (JBool false) d) = true →
     proxy_status (proxy_endpoint u r) = 200%Z ∧
     ∃ chunks aborted,
       proxy_endpoint u r
         = ProxyStream (header_get "accept" "application/json" (request_headers r))
             chunks aborted ∧
       match client_stream u (method r) (proxy_url u r)
               (forwarded_headers (request_headers r)) (request_body r) with
       | Ok g => chunks = yielded g ∧ aborted = raised g
       | Raise e => chunks = [] ∧ aborted = Some e
       end).
Proof.
  split.
  - intros v e W T C. unfold proxy_endpoint, proxy_body. rewrite W.
    cbn [mbind result_bind]. rewrite T. cbv zeta. by rewrite C.
  - intros d B L T.
    assert (E : proxy_endpoint u r
                = ProxyStream (header_get "accept" "application/json" (request_headers r))
                    (yielded (proxy_stream u r (proxy_url u r)))
                    (raised (proxy_stream u r (proxy_url u r)))).
    { unfold proxy_endpoint, proxy_body, wants_stream.
      rewrite bool_decide_eq_false_2 by done. rewrite L.
      cbn [py_get mbind result_bind]. by rewrite T. }
    rewrite E. split; [reflexivity|]. eexists _, _. split; [reflexivity|].
    unfold proxy_stream. by destruct (client_stream _ _ _ _ _).
Qed.

Lemma proxy_failures_witness :
  proxy_endpoint MoreSamples.streaming_upstream MoreSamples.models_request
    = ProxyStream "text/event-stream" ["chunk"] (Some (TransportError "reset")).
Proof.
  destruct (proxy_failures MoreSamples.streaming_upstream MoreSamples.models_request)
    as [_ A].
  destruct (A [("stream", JBool true)]) as (_ & chunks & aborted & E & C & D);
    [discriminate|reflexivity|reflexivity|].
  rewrite E, C, D. reflexivity.
Defined.

End EndpointsFacts.
